(** * A model of the real-time DDoS detection pipeline (ddos_detector.py)

    The development follows the classes of the program: [Flow] (per-flow
    statistics and feature extraction), [FlowMeter] (the flow table),
    [MLClassifier] (model-backed and rule-based classification),
    [IPTablesFilter] (address blocking), [JSONLogger] (detection records)
    and [DDoSDetectionSystem] (the per-packet pipeline).

    Modelling conventions.
    - Python integers are [Z]; Python floats are exact rationals [Q], compared
      with [==], so that rounding of the floating-point operations is left
      out; a [datetime] is its number of microseconds since the epoch.
    - A Python exception is an outcome [Raise e] of the [result] monad; a
      [nan] produced by numpy on an empty series is the outcome
      [Raise FloatingNaN].
    - A method that may assign fields of [self] returns the new [self].
    - An external process invocation is answered by an oracle supplied with
      each call, and every invocation is recorded in the returned trace.
    - Console output ([print]) is not modelled. *)

From Stdlib Require Import ZArith QArith Qminmax Qround String Ascii List.
From Stdlib Require Import DecimalString Lia Lqa.
From stdpp Require Import gmap strings list fin_maps.

Local Open Scope Z_scope.

(** ** Exceptions *)

Inductive exn : Type :=
| ZeroDivisionError
| ValueError
| TypeError
| AttributeError
| IndexError
| FloatingNaN
| TimeoutExpired
| OSError
| OtherException (msg : string).

Inductive result (A : Type) : Type :=
| Ok (a : A)
| Raise (e : exn).

Arguments Ok {A} a.
Arguments Raise {A} e.

#[global] Instance result_ret : MRet result := @Ok.

#[global] Instance result_bind : MBind result :=
  fun A B f m => match m with Ok a => f a | Raise e => Raise e end.

(** [try: body except Exception as e: handler e] *)
Definition try_except {A : Type} (body : result A) (handler : exn -> result A)
  : result A :=
  match body with
  | Ok a => Ok a
  | Raise e => handler e
  end.

Definition is_ok {A : Type} (r : result A) : bool :=
  match r with Ok _ => true | Raise _ => false end.

(** ** Numbers *)

Definition Qltb (x y : Q) : bool :=
  match (x ?= y)%Q with Lt => true | _ => false end.

(** Operations of floating-point arithmetic that have no rational
    counterpart are parameters of the development. *)
Class FloatOps : Type := {
  np_sqrt : Q -> Q;
  py_round : Q -> Z -> Q
}.

(** [a / b] *)
Definition py_truediv (a b : Q) : result Q :=
  if Qeq_bool b 0 then Raise ZeroDivisionError else Ok (a / b)%Q.

(** [sum(l)] *)
Definition py_sum (l : list Q) : Q := fold_left Qplus l 0%Q.

(** [min(l)]: the empty sequence raises [ValueError]. *)
Definition py_min (l : list Q) : result Q :=
  match l with
  | [] => Raise ValueError
  | x :: l' => Ok (fold_left Qmin l' x)
  end.

(** [max(l)] *)
Definition py_max (l : list Q) : result Q :=
  match l with
  | [] => Raise ValueError
  | x :: l' => Ok (fold_left Qmax l' x)
  end.

(** [np.mean(l)]: the empty series yields [nan]. *)
Definition np_mean (l : list Q) : result Q :=
  match l with
  | [] => Raise FloatingNaN
  | _ :: _ => Ok (py_sum l / inject_Z (Z.of_nat (length l)))%Q
  end.

(** [np.var(l)]: the mean of the squared deviations from the mean. *)
Definition np_var (l : list Q) : result Q :=
  m ← np_mean l;
  np_mean (map (fun x => ((x - m) * (x - m))%Q) l).

(** [np.std(l)] *)
Definition np_std `{FloatOps} (l : list Q) : result Q :=
  v ← np_var l;
  Ok (np_sqrt v).

(** [timedelta.total_seconds()] of a difference of [d] microseconds. *)
Definition total_seconds (d : Z) : Q := (inject_Z d / 1000000)%Q.

(** [a % b] on integers *)
Definition py_mod (a b : Z) : result Z :=
  if b =? 0 then Raise ZeroDivisionError else Ok (a mod b).

(** [l[0]] *)
Definition index0 {A : Type} (l : list A) : result A :=
  match l with
  | [] => Raise IndexError
  | x :: _ => Ok x
  end.

(** [c.upper()] on an ASCII letter; other characters are unchanged. *)
Definition upper_ascii (c : ascii) : ascii :=
  let n := nat_of_ascii c in
  if ((97 <=? n) && (n <=? 122))%nat then ascii_of_nat (n - 32) else c.

(** [s.upper()] on ASCII letters; Python also maps letters outside ASCII,
    which are left as they are here. *)
Fixpoint upper (s : string) : string :=
  match s with
  | EmptyString => EmptyString
  | String c s' => String (upper_ascii c) (upper s')
  end.

(** ** Dictionary values *)

Inductive value : Type :=
| VNum (q : Q)
| VStr (s : string).

(** [d.get(k, dflt)] *)
Definition dict_get (d : gmap string value) (k : string) (dflt : value) : value :=
  default dflt (d !! k).

(** Use of a value in arithmetic or an order comparison with a number. *)
Definition as_num (v : value) : result Q :=
  match v with
  | VNum q => Ok q
  | VStr _ => Raise TypeError
  end.

(** Use of a string method on a value. *)
Definition as_str (v : value) : result string :=
  match v with
  | VStr s => Ok s
  | VNum _ => Raise AttributeError
  end.

(** ** Packets, as decoded by the capture layer *)

Record IPLayer : Type := { ip_src : string; ip_dst : string; ip_proto : Z }.
Record TCPLayer : Type := { tcp_sport : Z; tcp_dport : Z; tcp_flags : Z }.
Record UDPLayer : Type := { udp_sport : Z; udp_dport : Z }.

Record Packet : Type := {
  pkt_len : Z;
  pkt_ip : option IPLayer;
  pkt_tcp : option TCPLayer;
  pkt_udp : option UDPLayer
}.

(** [packet.haslayer(TCP) and packet[TCP].flags & mask] *)
Definition tcp_flag (packet : Packet) (mask : Z) : bool :=
  match pkt_tcp packet with
  | Some tcp => negb (Z.land (tcp_flags tcp) mask =? 0)
  | None => false
  end.

(** ** class Flow *)

Module Flow.

Record t : Type := mk {
  src_ip : string;
  dst_ip : string;
  src_port : Z;
  dst_port : Z;
  protocol : Z;
  start_time : option Z;
  last_time : option Z;
  fwd_packets : Z;
  bwd_packets : Z;
  fwd_bytes : Z;
  bwd_bytes : Z;
  fwd_packet_sizes : list Z;
  bwd_packet_sizes : list Z;
  fwd_iat : list Q;
  bwd_iat : list Q;
  last_fwd_time : option Z;
  last_bwd_time : option Z;
  syn_count : Z;
  ack_count : Z;
  fin_count : Z;
  rst_count : Z;
  psh_count : Z;
  urg_count : Z
}.

(** [Flow.__init__] *)
Definition init (src_ip dst_ip : string) (src_port dst_port protocol : Z) : t :=
  {| src_ip := src_ip; dst_ip := dst_ip;
     src_port := src_port; dst_port := dst_port; protocol := protocol;
     start_time := None; last_time := None;
     fwd_packets := 0; bwd_packets := 0;
     fwd_bytes := 0; bwd_bytes := 0;
     fwd_packet_sizes := []; bwd_packet_sizes := [];
     fwd_iat := []; bwd_iat := [];
     last_fwd_time := None; last_bwd_time := None;
     syn_count := 0; ack_count := 0; fin_count := 0;
     rst_count := 0; psh_count := 0; urg_count := 0 |}.

(** The inter-arrival sample appended when a previous packet exists in the
    same direction. *)
Definition iat_sample (last : option Z) (timestamp : Z) : list Q :=
  match last with
  | Some t0 => [(total_seconds (timestamp - t0) * 1000000)%Q]
  | None => []
  end.

(** [Flow.add_packet] *)
Definition add_packet (self : t) (packet : Packet) (timestamp : Z)
    (is_forward : bool) : t :=
  let pkt_size := pkt_len packet in
  let bump (mask count : Z) := if tcp_flag packet mask then count + 1 else count in
  {| src_ip := src_ip self; dst_ip := dst_ip self;
     src_port := src_port self; dst_port := dst_port self;
     protocol := protocol self;
     start_time :=
       match start_time self with
       | None => Some timestamp
       | Some t0 => Some t0
       end;
     last_time := Some timestamp;
     fwd_packets := if is_forward then fwd_packets self + 1 else fwd_packets self;
     bwd_packets := if is_forward then bwd_packets self else bwd_packets self + 1;
     fwd_bytes := if is_forward then fwd_bytes self + pkt_size else fwd_bytes self;
     bwd_bytes := if is_forward then bwd_bytes self else bwd_bytes self + pkt_size;
     fwd_packet_sizes :=
       if is_forward then fwd_packet_sizes self ++ [pkt_size]
       else fwd_packet_sizes self;
     bwd_packet_sizes :=
       if is_forward then bwd_packet_sizes self
       else bwd_packet_sizes self ++ [pkt_size];
     fwd_iat :=
       if is_forward then fwd_iat self ++ iat_sample (last_fwd_time self) timestamp
       else fwd_iat self;
     bwd_iat :=
       if is_forward then bwd_iat self
       else bwd_iat self ++ iat_sample (last_bwd_time self) timestamp;
     last_fwd_time := if is_forward then Some timestamp else last_fwd_time self;
     last_bwd_time := if is_forward then last_bwd_time self else Some timestamp;
     syn_count := bump 2 (syn_count self);
     ack_count := bump 16 (ack_count self);
     fin_count := bump 1 (fin_count self);
     rst_count := bump 4 (rst_count self);
     psh_count := bump 8 (psh_count self);
     urg_count := bump 32 (urg_count self) |}.

(** [Flow.get_duration]: the flow duration in microseconds. *)
Definition get_duration (self : t) : Q :=
  match start_time self, last_time self with
  | Some t0, Some t1 => (total_seconds (t1 - t0) * 1000000)%Q
  | _, _ => 0%Q
  end.

(** Line 130: the duration in seconds used as the divisor of every rate. *)
Definition duration_sec (self : t) : Q :=
  let duration := get_duration self in
  if Qltb 0 duration then (duration / 1000000)%Q else (1 # 1000)%Q.

(** [e if l else 0] *)
Definition if_nonempty (l : list Q) (e : result Q) : result Q :=
  match l with
  | [] => Ok 0%Q
  | _ :: _ => e
  end.

(** [e if len(l) > 1 else 0] *)
Definition if_several (l : list Q) (e : result Q) : result Q :=
  if 1 <? Z.of_nat (length l) then e else Ok 0%Q.

(** [a / b if b > 0 else 0] on integer counters *)
Definition div_if_pos (a b : Z) : result Q :=
  if 0 <? b then py_truediv (inject_Z a) (inject_Z b) else Ok 0%Q.

Definition int (n : Z) : result Q := Ok (inject_Z n).

(** A dictionary display [{k1: e1, ..., kn: en}] with numeric values: the
    value expressions are evaluated in order, the first exception aborts
    the display, and a later binding of a key replaces an earlier one. *)
Definition add_entry (acc : result (gmap string value))
    (entry : string * result Q) : result (gmap string value) :=
  d ← acc;
  v ← entry.2;
  Ok (<[entry.1 := VNum v]> d).

Definition dict_display (entries : list (string * result Q))
  : result (gmap string value) :=
  foldl add_entry (Ok ∅) entries.

Section Features.
Context `{FloatOps}.

(** The entries of the [features] dictionary of [Flow.extract_features],
    lines 138-187. *)
Definition feature_entries (self : t) : list (string * result Q) :=
  let duration := get_duration self in
  let duration_sec := duration_sec self in
  let total_packets := fwd_packets self + bwd_packets self in
  let total_bytes := fwd_bytes self + bwd_bytes self in
  let fwd_sizes := map inject_Z (fwd_packet_sizes self) in
  let bwd_sizes := map inject_Z (bwd_packet_sizes self) in
  let all_sizes := fwd_sizes ++ bwd_sizes in
  let all_iat := fwd_iat self ++ bwd_iat self in
  [ ("flow_duration", Ok duration);
    ("total_fwd_packets", int (fwd_packets self));
    ("total_bwd_packets", int (bwd_packets self));
    ("total_packets", int total_packets);
    ("total_fwd_bytes", int (fwd_bytes self));
    ("total_bwd_bytes", int (bwd_bytes self));
    ("total_bytes", int total_bytes);
    ("fwd_pkt_len_min", if_nonempty fwd_sizes (py_min fwd_sizes));
    ("fwd_pkt_len_max", if_nonempty fwd_sizes (py_max fwd_sizes));
    ("fwd_pkt_len_mean", if_nonempty fwd_sizes (np_mean fwd_sizes));
    ("fwd_pkt_len_std", if_several fwd_sizes (np_std fwd_sizes));
    ("bwd_pkt_len_min", if_nonempty bwd_sizes (py_min bwd_sizes));
    ("bwd_pkt_len_max", if_nonempty bwd_sizes (py_max bwd_sizes));
    ("bwd_pkt_len_mean", if_nonempty bwd_sizes (np_mean bwd_sizes));
    ("bwd_pkt_len_std", if_several bwd_sizes (np_std bwd_sizes));
    ("pkt_len_min", if_nonempty all_sizes (py_min all_sizes));
    ("pkt_len_max", if_nonempty all_sizes (py_max all_sizes));
    ("pkt_len_mean", if_nonempty all_sizes (np_mean all_sizes));
    ("pkt_len_std", if_several all_sizes (np_std all_sizes));
    ("pkt_len_var", if_several all_sizes (np_var all_sizes));
    ("flow_bytes_per_sec", py_truediv (inject_Z total_bytes) duration_sec);
    ("flow_packets_per_sec", py_truediv (inject_Z total_packets) duration_sec);
    ("fwd_packets_per_sec", py_truediv (inject_Z (fwd_packets self)) duration_sec);
    ("bwd_packets_per_sec", py_truediv (inject_Z (bwd_packets self)) duration_sec);
    ("fwd_iat_total", if_nonempty (fwd_iat self) (Ok (py_sum (fwd_iat self))));
    ("fwd_iat_mean", if_nonempty (fwd_iat self) (np_mean (fwd_iat self)));
    ("fwd_iat_std", if_several (fwd_iat self) (np_std (fwd_iat self)));
    ("fwd_iat_min", if_nonempty (fwd_iat self) (py_min (fwd_iat self)));
    ("fwd_iat_max", if_nonempty (fwd_iat self) (py_max (fwd_iat self)));
    ("bwd_iat_total", if_nonempty (bwd_iat self) (Ok (py_sum (bwd_iat self))));
    ("bwd_iat_mean", if_nonempty (bwd_iat self) (np_mean (bwd_iat self)));
    ("bwd_iat_std", if_several (bwd_iat self) (np_std (bwd_iat self)));
    ("bwd_iat_min", if_nonempty (bwd_iat self) (py_min (bwd_iat self)));
    ("bwd_iat_max", if_nonempty (bwd_iat self) (py_max (bwd_iat self)));
    ("flow_iat_mean", if_nonempty all_iat (np_mean all_iat));
    ("flow_iat_std", if_several all_iat (np_std all_iat));
    ("flow_iat_min", if_nonempty all_iat (py_min all_iat));
    ("flow_iat_max", if_nonempty all_iat (py_max all_iat));
    ("syn_flag_count", int (syn_count self));
    ("ack_flag_count", int (ack_count self));
    ("fin_flag_count", int (fin_count self));
    ("rst_flag_count", int (rst_count self));
    ("psh_flag_count", int (psh_count self));
    ("urg_flag_count", int (urg_count self));
    ("down_up_ratio", div_if_pos (bwd_packets self) (fwd_packets self));
    ("avg_pkt_size", div_if_pos total_bytes total_packets);
    ("fwd_seg_size_avg", div_if_pos (fwd_bytes self) (fwd_packets self));
    ("bwd_seg_size_avg", div_if_pos (bwd_bytes self) (bwd_packets self)) ].

(** [Flow.extract_features]: returns the feature dictionary (or the
    exception raised while building it) and the record after the call. *)
Definition extract_features (self : t) : result (gmap string value) * t :=
  let features := dict_display (feature_entries self) in
  (features, self).

End Features.

(** A flow record as the flow table builds it: created from a key and
    updated by [add_packet] once per packet. *)
Inductive built : t -> Prop :=
| built_init src dst sport dport proto :
    built (init src dst sport dport proto)
| built_add self packet timestamp is_forward :
    built self -> built (add_packet self packet timestamp is_forward).

End Flow.

(** ** Flow records as objects

    The methods above work on the contents of a flow record. Here the
    record is a Python object in a store: its list attributes are
    references to list objects, a method reads and writes the store, and
    the value it returns may be a reference to an object of the store. *)

Module FlowObject.

Abbreviation loc := positive.

(** The attributes of a [Flow] instance; the four list attributes hold
    references. *)
Record instance : Type := {
  src_ip : string;
  dst_ip : string;
  src_port : Z;
  dst_port : Z;
  protocol : Z;
  start_time : option Z;
  last_time : option Z;
  fwd_packets : Z;
  bwd_packets : Z;
  fwd_bytes : Z;
  bwd_bytes : Z;
  fwd_packet_sizes : loc;
  bwd_packet_sizes : loc;
  fwd_iat : loc;
  bwd_iat : loc;
  last_fwd_time : option Z;
  last_bwd_time : option Z;
  syn_count : Z;
  ack_count : Z;
  fin_count : Z;
  rst_count : Z;
  psh_count : Z;
  urg_count : Z
}.

Inductive object : Type :=
| IntList (items : list Z)
| FloatList (items : list Q)
| Dict (entries : gmap string value)
| FlowInstance (attributes : instance).

Abbreviation store := (gmap loc object).

(** A computation on the store: its outcome and the store after it. *)
Definition M (A : Type) : Type := store -> result A * store.

#[global] Instance M_ret : MRet M := fun A a h => (Ok a, h).

#[global] Instance M_bind : MBind M :=
  fun A B k m h =>
    match m h with
    | (Ok a, h') => k a h'
    | (Raise e, h') => (Raise e, h')
    end.

(** The outcome of a computation that does not touch the store. *)
Definition lift {A : Type} (r : result A) : M A := fun h => (r, h).

(** Creation of a new object. *)
Definition alloc (o : object) : M loc :=
  fun h => let l := fresh (dom h) in (Ok l, <[l := o]> h).

(** Replacement of the contents of an object. *)
Definition update (l : loc) (o : object) : M unit :=
  fun h => (Ok tt, <[l := o]> h).

(** Access to the attributes of [self]. *)
Definition attributes (self : loc) : M instance :=
  fun h =>
    match h !! self with
    | Some (FlowInstance o) => (Ok o, h)
    | _ => (Raise AttributeError, h)
    end.

(** The items of a list of integers, of a list of floats. *)
Definition ints (l : loc) : M (list Z) :=
  fun h =>
    match h !! l with
    | Some (IntList items) => (Ok items, h)
    | _ => (Raise TypeError, h)
    end.

Definition floats (l : loc) : M (list Q) :=
  fun h =>
    match h !! l with
    | Some (FloatList items) => (Ok items, h)
    | _ => (Raise TypeError, h)
    end.

(** [d[k] = v] on a dictionary object. *)
Definition setitem (d : loc) (k : string) (v : value) : M unit :=
  fun h =>
    match h !! d with
    | Some (Dict entries) => (Ok tt, <[d := Dict (<[k := v]> entries)]> h)
    | _ => (Raise TypeError, h)
    end.

(** The contents of a record: its attributes with the items of its lists. *)
Definition contents (o : instance) (fwd_sizes bwd_sizes : list Z)
    (fwd_iats bwd_iats : list Q) : Flow.t :=
  {| Flow.src_ip := src_ip o; Flow.dst_ip := dst_ip o;
     Flow.src_port := src_port o; Flow.dst_port := dst_port o;
     Flow.protocol := protocol o;
     Flow.start_time := start_time o; Flow.last_time := last_time o;
     Flow.fwd_packets := fwd_packets o; Flow.bwd_packets := bwd_packets o;
     Flow.fwd_bytes := fwd_bytes o; Flow.bwd_bytes := bwd_bytes o;
     Flow.fwd_packet_sizes := fwd_sizes; Flow.bwd_packet_sizes := bwd_sizes;
     Flow.fwd_iat := fwd_iats; Flow.bwd_iat := bwd_iats;
     Flow.last_fwd_time := last_fwd_time o;
     Flow.last_bwd_time := last_bwd_time o;
     Flow.syn_count := syn_count o; Flow.ack_count := ack_count o;
     Flow.fin_count := fin_count o; Flow.rst_count := rst_count o;
     Flow.psh_count := psh_count o; Flow.urg_count := urg_count o |}.

(** The contents of the record at [self], when [self] is a [Flow]
    instance whose list attributes refer to lists. *)
Definition record_at (h : store) (self : loc) : option Flow.t :=
  match h !! self with
  | Some (FlowInstance o) =>
      match h !! fwd_packet_sizes o, h !! bwd_packet_sizes o,
            h !! fwd_iat o, h !! bwd_iat o with
      | Some (IntList fs), Some (IntList bs),
        Some (FloatList fi), Some (FloatList bi) =>
          Some (contents o fs bs fi bi)
      | _, _, _, _ => None
      end
  | _ => None
  end.

Section Method.
Context `{FloatOps}.

(** [Flow.extract_features] on the object [self], lines 127-189: the
    attributes are read, the two concatenations [all_sizes] and [all_iat]
    create new lists, the display creates a new dictionary, and the
    reference to that dictionary is returned. *)
Definition extract_features (self : loc) : M loc :=
  o ← attributes self;
  fwd_sizes ← ints (fwd_packet_sizes o);
  bwd_sizes ← ints (bwd_packet_sizes o);
  fwd_iats ← floats (fwd_iat o);
  bwd_iats ← floats (bwd_iat o);
  all_sizes ← alloc (IntList (fwd_sizes ++ bwd_sizes));
  all_iat ← alloc (FloatList (fwd_iats ++ bwd_iats));
  features ← lift (Flow.dict_display
                     (Flow.feature_entries
                        (contents o fwd_sizes bwd_sizes fwd_iats bwd_iats)));
  alloc (Dict features).

End Method.

End FlowObject.

(** ** class FlowMeter *)

Module FlowMeter.

(** A flow key is the tuple (address, address, port, port, protocol). *)
Abbreviation FlowKey := (string * string * Z * Z * Z)%type.

Record t : Type := mk {
  flows : gmap FlowKey Flow.t;
  timeout : Z
}.

(** [FlowMeter.__init__] *)
Definition init (timeout : Z) : t := {| flows := ∅; timeout := timeout |}.

(** [(a1, p1) < (a2, p2)]: tuples are ordered by their first differing
    component, strings by their characters and integers by value. *)
Definition pair_lt (x y : string * Z) : bool :=
  if String.eqb x.1 y.1 then x.2 <? y.2 else String.ltb x.1 y.1.

(** The port pair read from the transport layer, lines 208-213. *)
Definition ports (packet : Packet) : Z * Z :=
  match pkt_tcp packet with
  | Some tcp => (tcp_sport tcp, tcp_dport tcp)
  | None =>
      match pkt_udp packet with
      | Some udp => (udp_sport udp, udp_dport udp)
      | None => (0, 0)
      end
  end.

(** [FlowMeter.get_flow_key] *)
Definition get_flow_key (packet : Packet) : option FlowKey :=
  match pkt_ip packet with
  | None => None
  | Some ip =>
      let src_ip := ip_src ip in
      let dst_ip := ip_dst ip in
      let protocol := ip_proto ip in
      let '(src_port, dst_port) := ports packet in
      if pair_lt (src_ip, src_port) (dst_ip, dst_port)
      then Some (src_ip, dst_ip, src_port, dst_port, protocol)
      else Some (dst_ip, src_ip, dst_port, src_port, protocol)
  end.

(** [FlowMeter.is_forward] *)
Definition is_forward (packet : Packet) (flow_key : FlowKey) : bool :=
  match pkt_ip packet with
  | None => true
  | Some ip => String.eqb (ip_src ip) flow_key.1.1.1.1
  end.

(** [FlowMeter.process_packet]; [timestamp] is the value of
    [datetime.now()]. Returns the key and the updated flow, if any, and
    the flow meter after the call. *)
Definition process_packet (self : t) (packet : Packet) (timestamp : Z)
  : option (FlowKey * Flow.t) * t :=
  match get_flow_key packet with
  | None => (None, self)
  | Some flow_key =>
      let is_fwd := is_forward packet flow_key in
      let flow0 :=
        match flows self !! flow_key with
        | Some flow => flow
        | None =>
            let '(src_ip, dst_ip, src_port, dst_port, protocol) := flow_key in
            Flow.init src_ip dst_ip src_port dst_port protocol
        end in
      let flow := Flow.add_packet flow0 packet timestamp is_fwd in
      (Some (flow_key, flow),
       {| flows := <[flow_key := flow]> (flows self); timeout := timeout self |})
  end.

(** A flow is expired when it has been idle for more than the timeout. *)
Definition expired (timeout : Z) (now : Z) (flow : Flow.t) : bool :=
  match Flow.last_time flow with
  | Some last => Qltb (inject_Z timeout) (total_seconds (now - last))
  | None => false
  end.

(** [FlowMeter.cleanup_old_flows]; returns the number of removed flows. *)
Definition cleanup_old_flows (self : t) (now : Z) : Z * t :=
  let is_expired (kf : FlowKey * Flow.t) : Prop := expired (timeout self) now kf.2 = true in
  let gone := filter is_expired (flows self) in
  let kept := filter (fun kf => ¬ is_expired kf) (flows self) in
  (Z.of_nat (size gone), {| flows := kept; timeout := timeout self |}).

End FlowMeter.

(** ** class MLClassifier *)

Module MLClassifier.

(** The message of a triggered rule, by the rule and the values it shows. *)
Inductive reason : Type :=
| HighPacketRate (pps : Q)
| SynFlood (syn ack : Q)
| HighBandwidth (bps : Q)
| SmallPackets (avg_size : Q)
| Asymmetric (fwd bwd : Q).

(** The tuple returned by a prediction: four components from the rules,
    three from the model. *)
Inductive prediction : Type :=
| Heuristic (is_malicious : bool) (label : string) (confidence : Q)
    (reasons : list reason)
| Model (is_malicious : bool) (label : string) (confidence : Q).

(** The loaded artifact. Its components are objects of external
    libraries: each use may raise. *)
Record Artifact : Type := {
  feature_columns : result (list string);
  scaler_transform : list (list value) -> result (list (list Q));
  model_predict : list (list Q) -> result (list Z);
  model_predict_proba : option (list (list Q) -> result (list (list Q)));
  inverse_transform : list Z -> result (list value)
}.

(** The fields before a model is loaded: all [None]. *)
Definition no_artifact : Artifact :=
  {| feature_columns := Raise TypeError;
     scaler_transform := fun _ => Raise AttributeError;
     model_predict := fun _ => Raise AttributeError;
     model_predict_proba := None;
     inverse_transform := fun _ => Raise AttributeError |}.

Record t : Type := mk {
  artifact : Artifact;
  use_heuristics : bool
}.

(** [MLClassifier.load_model]; [loaded] is the outcome of reading the
    artifact and its report fields. *)
Definition load_model (self : t) (loaded : result Artifact) : t :=
  match loaded with
  | Ok a => {| artifact := a; use_heuristics := false |}
  | Raise _ => {| artifact := artifact self; use_heuristics := true |}
  end.

(** [MLClassifier.__init__]; [None] when no model file is given or found. *)
Definition init (model_file : option (result Artifact)) : t :=
  let self := {| artifact := no_artifact; use_heuristics := true |} in
  match model_file with
  | Some loaded => load_model self loaded
  | None => self
  end.

(** [b == 0 or a / (b + 1) > threshold], the second conjunct of rules 2
    and 5. *)
Definition skewed (a : Q) (b : value) (threshold : Q) : result bool :=
  match b with
  | VNum b =>
      if Qeq_bool b 0 then Ok true
      else r ← py_truediv a (b + 1)%Q; Ok (Qltb threshold r)
  | VStr _ => Raise TypeError
  end.

(** The number shown for [b] by a triggered rule. *)
Definition shown (b : value) : Q :=
  match b with VNum q => q | VStr _ => 0%Q end.

(** [MLClassifier.heuristic_detection] *)
Definition heuristic_detection (features : gmap string value)
  : result prediction :=
  (* Rule 1 *)
  pps ← as_num (dict_get features "flow_packets_per_sec" (VNum 0));
  let reasons1 := if Qltb 1000 pps then [HighPacketRate pps] else [] in
  (* Rule 2 *)
  let ack := dict_get features "ack_flag_count" (VNum 0) in
  syn ← as_num (dict_get features "syn_flag_count" (VNum 0));
  rule2 ← (if Qltb 50 syn then skewed syn ack 10 else Ok false);
  let reasons2 :=
    reasons1 ++ (if (rule2 : bool) then [SynFlood syn (shown ack)] else []) in
  (* Rule 3 *)
  bps ← as_num (dict_get features "flow_bytes_per_sec" (VNum 0));
  let reasons3 :=
    reasons2 ++ (if Qltb 10000000 bps then [HighBandwidth bps] else []) in
  (* Rule 4 *)
  avg_size ← as_num (dict_get features "avg_pkt_size" (VNum 0));
  let reasons4 :=
    reasons3 ++ (if Qltb avg_size 100 && Qltb 500 pps
                 then [SmallPackets avg_size] else []) in
  (* Rule 5 *)
  let bwd := dict_get features "total_bwd_packets" (VNum 0) in
  fwd ← as_num (dict_get features "total_fwd_packets" (VNum 0));
  rule5 ← (if Qltb 100 fwd then skewed fwd bwd 20 else Ok false);
  let reasons :=
    reasons4 ++ (if (rule5 : bool) then [Asymmetric fwd (shown bwd)] else []) in
  let is_malicious := (0 <? Z.of_nat (length reasons)) in
  let label := if is_malicious then "DDoS" else "BENIGN" in
  let confidence := Qmin (inject_Z (Z.of_nat (length reasons)) / 3) 1 in
  Ok (Heuristic is_malicious label confidence
        (if is_malicious then reasons else [])).

(** The body of the [try] block of [MLClassifier.predict], lines 304-324. *)
Definition model_prediction (self : t) (flow_features : gmap string value)
  : result prediction :=
  columns ← feature_columns (artifact self);
  let feature_vector := map (fun col => dict_get flow_features col (VNum 0)) columns in
  X_scaled ← scaler_transform (artifact self) [feature_vector];
  predictions ← model_predict (artifact self) X_scaled;
  prediction ← index0 predictions;
  confidence ←
    match model_predict_proba (artifact self) with
    | Some predict_proba =>
        probas ← predict_proba X_scaled;
        proba ← index0 probas;
        py_max proba
    | None => Ok 0%Q
    end;
  labels ← inverse_transform (artifact self) [prediction];
  label ← index0 labels;
  label ← as_str label;
  let is_malicious := negb (String.eqb (upper label) "BENIGN") in
  Ok (Model is_malicious label confidence).

(** [MLClassifier.predict] *)
Definition predict (self : t) (flow_features : gmap string value)
  : result prediction :=
  if use_heuristics self then heuristic_detection flow_features
  else try_except (model_prediction self flow_features)
                  (fun e => heuristic_detection flow_features).

End MLClassifier.

(** ** class IPTablesFilter *)

Module IPTablesFilter.

(** The object returned by [subprocess.run]. *)
Record CompletedProcess : Type := { returncode : Z; stderr : string }.

Abbreviation command := (list string).

(** [subprocess.run(cmd, capture_output=True, timeout=5)]: the answer of
    the operating system to a command, an exception when the command
    cannot be started or does not finish within the timeout. *)
Abbreviation subprocess_run := (command -> result CompletedProcess).

Record t : Type := mk { blocked_ips : gset string }.

(** [IPTablesFilter.__init__] *)
Definition init : t := {| blocked_ips := ∅ |}.

Definition block_command (ip_address : string) : command :=
  ["iptables"; "-A"; "INPUT"; "-s"; ip_address; "-j"; "DROP"]%string.

Definition unblock_command (ip_address : string) : command :=
  ["iptables"; "-D"; "INPUT"; "-s"; ip_address; "-j"; "DROP"]%string.

(** [IPTablesFilter.block_ip]; returns the returned value, the commands
    invoked and the filter after the call. *)
Definition block_ip (self : t) (ip_address : string) (run : subprocess_run)
  : bool * list command * t :=
  if bool_decide (ip_address ∈ blocked_ips self) then (true, [], self)
  else if String.prefix "127." ip_address || String.eqb ip_address "0.0.0.0"
  then (false, [], self)
  else
    let cmd := block_command ip_address in
    match run cmd with
    | Ok result =>
        if returncode result =? 0
        then (true, [cmd], {| blocked_ips := blocked_ips self ∪ {[ip_address]} |})
        else (false, [cmd], self)
    | Raise e => (false, [cmd], self)
    end.

(** [IPTablesFilter.unblock_ip] *)
Definition unblock_ip (self : t) (ip_address : string) (run : subprocess_run)
  : bool * list command * t :=
  let cmd := unblock_command ip_address in
  match run cmd with
  | Ok _ => (true, [cmd], {| blocked_ips := blocked_ips self ∖ {[ip_address]} |})
  | Raise _ => (false, [cmd], self)
  end.

(** [IPTablesFilter.list_blocked] *)
Definition list_blocked (self : t) : list string := elements (blocked_ips self).

(** [IPTablesFilter.clear_all] *)
Definition clear_all (self : t) (run : subprocess_run) : list command * t :=
  foldl (fun acc ip =>
           let '(_, cmds, self') := unblock_ip acc.2 ip run in
           (acc.1 ++ cmds, self'))
        ([], self) (list_blocked self).

(** The states of a filter: created empty, then changed by its methods. *)
Inductive reachable : t -> Prop :=
| reachable_init : reachable init
| reachable_block self ip run :
    reachable self -> reachable (block_ip self ip run).2
| reachable_unblock self ip run :
    reachable self -> reachable (unblock_ip self ip run).2.

End IPTablesFilter.

(** ** class JSONLogger *)

Module JSONLogger.

Record LogEntry : Type := {
  timestamp : Z;
  src_ip : value;
  dst_ip : value;
  src_port : value;
  dst_port : value;
  protocol : value;
  prediction : string;
  confidence : Q;
  action : string;
  features : gmap string value;
  reasons : option (list MLClassifier.reason)
}.

Record t : Type := mk {
  output_file : string;
  logs : list LogEntry
}.

(** [JSONLogger.__init__] *)
Definition init (output_file : string) : t :=
  {| output_file := output_file; logs := [] |}.

Section Logging.
Context `{FloatOps}.

(** [round(d.get(k, 0), 2)] *)
Definition rounded (d : gmap string value) (k : string) : result value :=
  x ← as_num (dict_get d k (VNum 0));
  Ok (VNum (py_round x 2)).

(** [JSONLogger.log_detection]; [now] is the value of [datetime.now()]. *)
Definition log_detection (self : t) (flow_features : gmap string value)
    (prediction_label : string) (confidence : Q) (action : string)
    (reasons : list MLClassifier.reason) (now : Z) : result (LogEntry * t) :=
  packets_per_sec ← rounded flow_features "flow_packets_per_sec";
  bytes_per_sec ← rounded flow_features "flow_bytes_per_sec";
  avg_packet_size ← rounded flow_features "avg_pkt_size";
  let log_entry :=
    {| timestamp := now;
       src_ip := dict_get flow_features "src_ip" (VStr "unknown");
       dst_ip := dict_get flow_features "dst_ip" (VStr "unknown");
       src_port := dict_get flow_features "src_port" (VNum 0);
       dst_port := dict_get flow_features "dst_port" (VNum 0);
       protocol := dict_get flow_features "protocol" (VNum 0);
       prediction := prediction_label;
       confidence := py_round confidence 4;
       action := action;
       features :=
         <["ack_count" := dict_get flow_features "ack_flag_count" (VNum 0)]>
         (<["syn_count" := dict_get flow_features "syn_flag_count" (VNum 0)]>
         (<["avg_packet_size" := avg_packet_size]>
         (<["bytes_per_sec" := bytes_per_sec]>
         (<["packets_per_sec" := packets_per_sec]>
         (<["total_bytes" := dict_get flow_features "total_bytes" (VNum 0)]>
         (<["total_packets" := dict_get flow_features "total_packets" (VNum 0)]>
         (<["flow_duration" := dict_get flow_features "flow_duration" (VNum 0)]>
          ∅)))))));
       reasons := match reasons with [] => None | _ :: _ => Some reasons end |} in
  Ok (log_entry,
      {| output_file := output_file self; logs := logs self ++ [log_entry] |}).

End Logging.

(** Equality of two logged values, as [==] and [hash] have it: strings
    with strings, numbers with numbers by their value. *)
Definition value_eqb (x y : value) : bool :=
  match x, y with
  | VStr a, VStr b => String.eqb a b
  | VNum p, VNum q => Qeq_bool p q
  | _, _ => false
  end.

(** [len(set(xs))] *)
Fixpoint py_set_len (xs : list value) : Z :=
  match xs with
  | [] => 0
  | x :: xs' =>
      if existsb (value_eqb x) xs' then py_set_len xs' else 1 + py_set_len xs'
  end.

Record Stats : Type := {
  total_detections : Z;
  unique_ips : Z;
  log_file : string
}.

(** [JSONLogger.get_stats] *)
Definition get_stats (self : t) : Stats :=
  {| total_detections := Z.of_nat (length (logs self));
     unique_ips := py_set_len (src_ip <$> logs self);
     log_file := output_file self |}.

End JSONLogger.

(** ** class DDoSDetectionSystem *)

Module DDoSDetectionSystem.

Record t : Type := mk {
  flowmeter : FlowMeter.t;
  classifier : MLClassifier.t;
  filter : IPTablesFilter.t;
  logger : JSONLogger.t;
  packet_count : Z;
  flow_count : Z;
  detection_count : Z;
  malicious_ips : gset string;
  check_interval : Z;
  min_packets_for_detection : Z
}.

(** [DDoSDetectionSystem.__init__] *)
Definition init (model_file : option (result MLClassifier.Artifact))
    (log_file : string) : t :=
  {| flowmeter := FlowMeter.init 120;
     classifier := MLClassifier.init model_file;
     filter := IPTablesFilter.init;
     logger := JSONLogger.init log_file;
     packet_count := 0;
     flow_count := 0;
     detection_count := 0;
     malicious_ips := ∅;
     check_interval := 10;
     min_packets_for_detection := 5 |}.

(** What the environment supplies during one call of [process_packet]:
    the two readings of the clock and the answer to an invoked command. *)
Record Env : Type := {
  now : Z;
  log_now : Z;
  run : IPTablesFilter.subprocess_run
}.

Definition with_flowmeter (self : t) (fm : FlowMeter.t) (count : Z) : t :=
  {| flowmeter := fm;
     classifier := classifier self;
     filter := filter self;
     logger := logger self;
     packet_count := count;
     flow_count := flow_count self;
     detection_count := detection_count self;
     malicious_ips := malicious_ips self;
     check_interval := check_interval self;
     min_packets_for_detection := min_packets_for_detection self |}.

(** The five assignments [features['src_ip'] = flow.src_ip], ...,
    [features['protocol'] = flow.protocol], lines 521-525. *)
Definition with_endpoints (features : gmap string value) (flow : Flow.t)
  : gmap string value :=
  <["protocol" := VNum (inject_Z (Flow.protocol flow))]>
  (<["dst_port" := VNum (inject_Z (Flow.dst_port flow))]>
  (<["src_port" := VNum (inject_Z (Flow.src_port flow))]>
  (<["dst_ip" := VStr (Flow.dst_ip flow)]>
  (<["src_ip" := VStr (Flow.src_ip flow)]> features)))).

(** The unpacking of the prediction tuple, lines 530-534. *)
Definition unpack (result : MLClassifier.prediction)
  : bool * string * Q * list MLClassifier.reason :=
  match result with
  | MLClassifier.Heuristic is_malicious label confidence reasons =>
      (is_malicious, label, confidence, reasons)
  | MLClassifier.Model is_malicious label confidence =>
      (is_malicious, label, confidence, [])
  end.

Section Pipeline.
Context `{FloatOps}.

(** [DDoSDetectionSystem.process_packet]; [running] is the global flag.
    Returns the system after the call and the commands invoked. *)
Definition process_packet (self : t) (running : bool) (packet : Packet)
    (env : Env) : result (t * list IPTablesFilter.command) :=
  if negb running then Ok (self, [])
  else
    let count := packet_count self + 1 in
    let '(updated, fm) :=
      FlowMeter.process_packet (flowmeter self) packet (now env) in
    let self := with_flowmeter self fm count in
    match updated with
    | None => Ok (self, [])
    | Some (flow_key, flow) =>
        let total_pkts := Flow.fwd_packets flow + Flow.bwd_packets flow in
        if total_pkts <? min_packets_for_detection self then Ok (self, [])
        else
          remainder ← py_mod total_pkts (check_interval self);
          if negb (remainder =? 0) then Ok (self, [])
          else
            let '(extracted, flow) := Flow.extract_features flow in
            let fm :=
              {| FlowMeter.flows := <[flow_key := flow]> (FlowMeter.flows fm);
                 FlowMeter.timeout := FlowMeter.timeout fm |} in
            let self := with_flowmeter self fm count in
            features ← extracted;
            let features := with_endpoints features flow in
            result ← MLClassifier.predict (classifier self) features;
            let '(is_malicious, label, confidence, reasons) := unpack result in
            if negb is_malicious then Ok (self, [])
            else
              let src_ip := Flow.src_ip flow in
              if bool_decide (src_ip ∈ malicious_ips self) then Ok (self, [])
              else
                let '(blocked, cmds, filter') :=
                  IPTablesFilter.block_ip (filter self) src_ip (run env) in
                let action := if blocked then "blocked" else "detected" in
                logged ← JSONLogger.log_detection (logger self) features label
                           confidence action reasons (log_now env);
                Ok ({| flowmeter := flowmeter self;
                       classifier := classifier self;
                       filter := filter';
                       logger := logged.2;
                       packet_count := packet_count self;
                       flow_count := flow_count self;
                       detection_count := detection_count self + 1;
                       malicious_ips := malicious_ips self ∪ {[src_ip]};
                       check_interval := check_interval self;
                       min_packets_for_detection := min_packets_for_detection self |},
                    cmds)
    end.

(** The flag [running] together with the system. *)
Record world : Type := { running : bool; system : t }.

(** What happens to a running system: a captured packet is handed to
    [process_packet], the cleanup thread removes expired flows, or the
    interrupt signal clears [running]. *)
Inductive event : Type :=
| Capture (packet : Packet) (env : Env)
| Cleanup (now : Z)
| Interrupt.

Definition step (w : world) (ev : event)
  : result (world * list IPTablesFilter.command) :=
  match ev with
  | Capture packet env =>
      r ← process_packet (system w) (running w) packet env;
      Ok ({| running := running w; system := r.1 |}, r.2)
  | Cleanup now =>
      let '(_, fm) := FlowMeter.cleanup_old_flows (flowmeter (system w)) now in
      Ok ({| running := running w;
             system := with_flowmeter (system w) fm (packet_count (system w)) |},
          [])
  | Interrupt => Ok ({| running := false; system := system w |}, [])
  end.

(** A session: the events handled one after the other, the invoked
    commands accumulated. *)
Fixpoint session (w : world) (evs : list event)
  : result (world * list IPTablesFilter.command) :=
  match evs with
  | [] => Ok (w, [])
  | ev :: evs' =>
      r ← step w ev;
      r' ← session r.1 evs';
      Ok (r'.1, r.2 ++ r'.2)
  end.

End Pipeline.

End DDoSDetectionSystem.

(** An instance of the floating-point parameters that computes with
    rationals: square roots to six decimals, rounding to the nearest
    multiple of [10 ^ -n]. *)
Definition rational_float_ops : FloatOps :=
  {| np_sqrt := fun q =>
       (inject_Z (Z.sqrt (Qfloor (q * 1000000000000))) / 1000000)%Q;
     py_round := fun q n =>
       (inject_Z (Qfloor (q * inject_Z (10 ^ n) + (1 # 2))) / inject_Z (10 ^ n))%Q |}.

(** * Vocabulary of the properties *)

(** The dictionary [d] binds [k] to a number equal to [q]. *)
Definition has_number (d : gmap string value) (k : string) (q : Q) : Prop :=
  exists v, d !! k = Some (VNum v) /\ (v == q)%Q.

(** The entries of a feature dictionary that describe one direction. *)
Definition fwd_statistics : list string :=
  [ "total_fwd_packets"; "total_fwd_bytes";
    "fwd_pkt_len_min"; "fwd_pkt_len_max"; "fwd_pkt_len_mean"; "fwd_pkt_len_std";
    "fwd_packets_per_sec";
    "fwd_iat_total"; "fwd_iat_mean"; "fwd_iat_std"; "fwd_iat_min"; "fwd_iat_max";
    "fwd_seg_size_avg"; "down_up_ratio" ]%string.

Definition bwd_statistics : list string :=
  [ "total_bwd_packets"; "total_bwd_bytes";
    "bwd_pkt_len_min"; "bwd_pkt_len_max"; "bwd_pkt_len_mean"; "bwd_pkt_len_std";
    "bwd_packets_per_sec";
    "bwd_iat_total"; "bwd_iat_mean"; "bwd_iat_std"; "bwd_iat_min"; "bwd_iat_max";
    "bwd_seg_size_avg" ]%string.

(** One microsecond, in seconds. *)
Definition one_microsecond : Q := (1 # 1000000)%Q.

(** A TCP packet of [len] bytes with the given endpoints and flags. *)
Definition tcp_packet (len : Z) (src dst : string) (sport dport flags : Z)
  : Packet :=
  {| pkt_len := len;
     pkt_ip := Some {| ip_src := src; ip_dst := dst; ip_proto := 6 |};
     pkt_tcp := Some {| tcp_sport := sport; tcp_dport := dport; tcp_flags := flags |};
     pkt_udp := None |}.

(** A flow that has seen a single packet. *)
Definition single_packet_flow : Flow.t :=
  Flow.add_packet (Flow.init "10.0.0.1" "10.0.0.2" 40000 80 6)
    (tcp_packet 60 "10.0.0.1" "10.0.0.2" 40000 80 2) 1700000000000000 true.

(** What [Flow.add_packet] maintains: the packet counters count the
    recorded sizes, a direction without packets has no bytes and no
    inter-arrival samples, and no counter is negative. *)
Definition flow_inv (f : Flow.t) : Prop :=
  Flow.fwd_packets f = Z.of_nat (length (Flow.fwd_packet_sizes f)) /\
  Flow.bwd_packets f = Z.of_nat (length (Flow.bwd_packet_sizes f)) /\
  (Flow.fwd_packets f = 0 -> Flow.fwd_iat f = [] /\ Flow.fwd_bytes f = 0) /\
  (Flow.bwd_packets f = 0 -> Flow.bwd_iat f = [] /\ Flow.bwd_bytes f = 0) /\
  0 <= Flow.syn_count f /\ 0 <= Flow.ack_count f.

(** The (address, port) pairs of the source and of the destination of an
    IP packet, and its protocol number. *)
Definition endpoints (p : Packet) : option ((string * Z) * (string * Z) * Z) :=
  match pkt_ip p with
  | Some ip =>
      Some ((ip_src ip, (FlowMeter.ports p).1),
            (ip_dst ip, (FlowMeter.ports p).2),
            ip_proto ip)
  | None => None
  end.

(** Position one of a flow key: its first address with its first port. *)
Definition key_first (k : FlowMeter.FlowKey) : string * Z :=
  (k.1.1.1.1, k.1.1.2).

(** Position two of a flow key. *)
Definition key_second (k : FlowMeter.FlowKey) : string * Z :=
  (k.1.1.1.2, k.1.2).

(** Feature dictionaries on which the rules can be evaluated: the entries
    the rules read are numbers (or absent), and the two counters that rules 2
    and 5 increment before dividing are not negative. *)
Definition is_number (v : value) : bool :=
  match v with VNum _ => true | VStr _ => false end.

Definition is_count (v : value) : bool :=
  match v with VNum q => Qle_bool 0 q | VStr _ => false end.

Definition well_formed (features : gmap string value) : bool :=
  is_number (dict_get features "flow_packets_per_sec" (VNum 0)) &&
  is_number (dict_get features "syn_flag_count" (VNum 0)) &&
  is_count (dict_get features "ack_flag_count" (VNum 0)) &&
  is_number (dict_get features "flow_bytes_per_sec" (VNum 0)) &&
  is_number (dict_get features "avg_pkt_size" (VNum 0)) &&
  is_number (dict_get features "total_fwd_packets" (VNum 0)) &&
  is_count (dict_get features "total_bwd_packets" (VNum 0)).

(** The numbers of SYN and ACK flags recorded in a feature dictionary. *)
Definition syn_of (features : gmap string value) : Q :=
  MLClassifier.shown (dict_get features "syn_flag_count" (VNum 0)).

Definition ack_of (features : gmap string value) : Q :=
  MLClassifier.shown (dict_get features "ack_flag_count" (VNum 0)).

(** A prediction carries a SYN-flood reason. *)
Definition syn_flood_reported (p : MLClassifier.prediction) : Prop :=
  match p with
  | MLClassifier.Heuristic _ _ _ reasons =>
      exists syn ack, MLClassifier.SynFlood syn ack ∈ reasons
  | MLClassifier.Model _ _ _ => False
  end.

(** The value of [b == 0 or a / (b + 1) > threshold] on numbers. *)
Definition skew (a b threshold : Q) : bool :=
  Qeq_bool b 0 || Qltb threshold (a / (b + 1)).

(** The reasons of the five rules on numbers, in the order of the rules. *)
Definition triggered_rules (pps syn ack bps avg_size fwd bwd : Q)
  : list MLClassifier.reason :=
  (if Qltb 1000 pps then [MLClassifier.HighPacketRate pps] else []) ++
  (if Qltb 50 syn && skew syn ack 10 then [MLClassifier.SynFlood syn ack] else []) ++
  (if Qltb 10000000 bps then [MLClassifier.HighBandwidth bps] else []) ++
  (if Qltb avg_size 100 && Qltb 500 pps
   then [MLClassifier.SmallPackets avg_size] else []) ++
  (if Qltb 100 fwd && skew fwd bwd 20 then [MLClassifier.Asymmetric fwd bwd] else []).

(** The tuple returned by the rules for a list of reasons, lines 361-365. *)
Definition verdict (reasons : list MLClassifier.reason) : MLClassifier.prediction :=
  let is_malicious := 0 <? Z.of_nat (length reasons) in
  MLClassifier.Heuristic is_malicious
    (if is_malicious then "DDoS" else "BENIGN")
    (Qmin (inject_Z (Z.of_nat (length reasons)) / 3) 1)
    (if is_malicious then reasons else []).

(** The SYN-flood condition read with the ratio of SYN to ACK counts: more
    than 50 SYNs and a ratio above 10, no ACK at all counting as above. *)
Definition syn_ack_ratio_condition (syn ack : Q) : Prop :=
  (50 < syn)%Q /\ ((ack == 0)%Q \/ (10 < syn / ack)%Q).

(** The SYN-flood condition of rule 2, line 342. *)
Definition syn_flood_condition (syn ack : Q) : Prop :=
  (50 < syn)%Q /\ ((ack == 0)%Q \/ (10 < syn / (ack + 1))%Q).

(** A dictionary holding only the two flag counters. *)
Definition flag_counts (syn ack : Z) : gmap string value :=
  <["ack_flag_count" := VNum (inject_Z ack)]>
    (<["syn_flag_count" := VNum (inject_Z syn)]> ∅).

(** A classifier whose loaded scaler rejects every input. *)
Definition failing_classifier : MLClassifier.t :=
  MLClassifier.init (Some (Ok
    {| MLClassifier.feature_columns := Ok ["syn_flag_count"; "ack_flag_count"]%string;
       MLClassifier.scaler_transform := fun _ => Raise ValueError;
       MLClassifier.model_predict := fun _ => Ok [1];
       MLClassifier.model_predict_proba := None;
       MLClassifier.inverse_transform := fun _ => Ok [VStr "DDoS"] |})).

(** IPv4 addresses in dotted-decimal notation, the form in which the
    capture layer delivers the addresses of a packet. *)
Definition decimal (n : N) : string := NilZero.string_of_uint (N.to_uint n).

Definition dotted (a b c d : N) : string :=
  (decimal a ++ "." ++ decimal b ++ "." ++ decimal c ++ "." ++ decimal d)%string.

(** The addresses [block_ip] refuses, lines 380-381. *)
Definition refused (ip_address : string) : bool :=
  String.prefix "127." ip_address || String.eqb ip_address "0.0.0.0".

(** An operating system on which every command completes with exit code
    [code]. *)
Definition exits_with (code : Z) : IPTablesFilter.subprocess_run :=
  fun _ => Ok {| IPTablesFilter.returncode := code; IPTablesFilter.stderr := "" |}.

(** An operating system on which every command times out. *)
Definition times_out : IPTablesFilter.subprocess_run :=
  fun _ => Raise TimeoutExpired.

(** What the pipeline maintains: the sampling interval is the one set at
    creation, every record of the flow table was built by the flow table,
    the filter was changed only by its methods and holds only flagged
    addresses, every detection record carries a flagged address, and no two
    records carry the same address. *)
Definition sys_inv (s : DDoSDetectionSystem.t) : Prop :=
  DDoSDetectionSystem.check_interval s = 10 /\
  map_Forall (fun _ f => Flow.built f)
    (FlowMeter.flows (DDoSDetectionSystem.flowmeter s)) /\
  IPTablesFilter.reachable (DDoSDetectionSystem.filter s) /\
  IPTablesFilter.blocked_ips (DDoSDetectionSystem.filter s)
    ⊆ DDoSDetectionSystem.malicious_ips s /\
  (forall entry, entry ∈ JSONLogger.logs (DDoSDetectionSystem.logger s) ->
     exists a, JSONLogger.src_ip entry = VStr a /\
               a ∈ DDoSDetectionSystem.malicious_ips s) /\
  NoDup (JSONLogger.src_ip <$> JSONLogger.logs (DDoSDetectionSystem.logger s)).

(** The detection records of a log that carry the address [a]. *)
Definition records_of (a : string) (logs : list JSONLogger.LogEntry)
  : list JSONLogger.LogEntry :=
  List.filter (fun entry =>
                 match JSONLogger.src_ip entry with
                 | VStr s => String.eqb s a
                 | VNum _ => false
                 end) logs.

(** The world in which a session starts. *)
Definition initial_world (model_file : option (result MLClassifier.Artifact))
    (log_file : string) : DDoSDetectionSystem.world :=
  {| DDoSDetectionSystem.running := true;
     DDoSDetectionSystem.system := DDoSDetectionSystem.init model_file log_file |}.

(** A flood: [n] TCP SYN packets from 10.0.0.1 to 10.0.0.2, one every
    millisecond, captured while every command exits with [code]. *)
Definition flood (n : nat) (code : Z) : list DDoSDetectionSystem.event :=
  map (fun i =>
         DDoSDetectionSystem.Capture
           (tcp_packet 60 "10.0.0.1" "10.0.0.2" 40000 80 2)
           {| DDoSDetectionSystem.now := 1700000000000000 + 1000 * Z.of_nat i;
              DDoSDetectionSystem.log_now := 1700000000000000 + 1000 * Z.of_nat i;
              DDoSDetectionSystem.run := exits_with code |})
      (seq 0 n).

(** A store that holds the single-packet flow as an object at reference 1,
    with its four lists at references 2 to 5. *)
Definition single_packet_store : FlowObject.store :=
  <[1%positive := FlowObject.FlowInstance
      {| FlowObject.src_ip := "10.0.0.1"; FlowObject.dst_ip := "10.0.0.2";
         FlowObject.src_port := 40000; FlowObject.dst_port := 80;
         FlowObject.protocol := 6;
         FlowObject.start_time := Some 1700000000000000;
         FlowObject.last_time := Some 1700000000000000;
         FlowObject.fwd_packets := 1; FlowObject.bwd_packets := 0;
         FlowObject.fwd_bytes := 60; FlowObject.bwd_bytes := 0;
         FlowObject.fwd_packet_sizes := 2%positive;
         FlowObject.bwd_packet_sizes := 3%positive;
         FlowObject.fwd_iat := 4%positive;
         FlowObject.bwd_iat := 5%positive;
         FlowObject.last_fwd_time := Some 1700000000000000;
         FlowObject.last_bwd_time := None;
         FlowObject.syn_count := 1; FlowObject.ack_count := 0;
         FlowObject.fin_count := 0; FlowObject.rst_count := 0;
         FlowObject.psh_count := 0; FlowObject.urg_count := 0 |}]>
  (<[2%positive := FlowObject.IntList [60]]>
  (<[3%positive := FlowObject.IntList []]>
  (<[4%positive := FlowObject.FloatList []]>
  (<[5%positive := FlowObject.FloatList []]> ∅)))).

(** The sum of a list of integers. *)
Definition sum_sizes (l : list Z) : Z := foldr Z.add 0 l.



(** The number of packets of a record. *)
Definition total_packets (f : Flow.t) : Z :=
  Flow.fwd_packets f + Flow.bwd_packets f.

(** What [Flow.add_packet] maintains about samples and times: the bytes of
    a direction are the sum of its sizes, a direction has a last arrival
    time exactly when it has packets, it has one inter-arrival sample less
    than packets, and a flag counter never exceeds the number of packets. *)
Definition samples_inv (f : Flow.t) : Prop :=
  Flow.fwd_bytes f = sum_sizes (Flow.fwd_packet_sizes f) /\
  Flow.bwd_bytes f = sum_sizes (Flow.bwd_packet_sizes f) /\
  (Flow.last_fwd_time f = None <-> Flow.fwd_packets f = 0) /\
  (Flow.last_bwd_time f = None <-> Flow.bwd_packets f = 0) /\
  Z.of_nat (length (Flow.fwd_iat f)) = Z.max (Flow.fwd_packets f - 1) 0 /\
  Z.of_nat (length (Flow.bwd_iat f)) = Z.max (Flow.bwd_packets f - 1) 0 /\
  Forall (fun c => 0 <= c <= total_packets f)
    [Flow.syn_count f; Flow.ack_count f; Flow.fin_count f;
     Flow.rst_count f; Flow.psh_count f; Flow.urg_count f].

(** The names of the entries of a feature dictionary, in the order of the
    display. *)
Definition feature_names : list string :=
  [ "flow_duration"; "total_fwd_packets"; "total_bwd_packets"; "total_packets";
    "total_fwd_bytes"; "total_bwd_bytes"; "total_bytes";
    "fwd_pkt_len_min"; "fwd_pkt_len_max"; "fwd_pkt_len_mean"; "fwd_pkt_len_std";
    "bwd_pkt_len_min"; "bwd_pkt_len_max"; "bwd_pkt_len_mean"; "bwd_pkt_len_std";
    "pkt_len_min"; "pkt_len_max"; "pkt_len_mean"; "pkt_len_std"; "pkt_len_var";
    "flow_bytes_per_sec"; "flow_packets_per_sec";
    "fwd_packets_per_sec"; "bwd_packets_per_sec";
    "fwd_iat_total"; "fwd_iat_mean"; "fwd_iat_std"; "fwd_iat_min"; "fwd_iat_max";
    "bwd_iat_total"; "bwd_iat_mean"; "bwd_iat_std"; "bwd_iat_min"; "bwd_iat_max";
    "flow_iat_mean"; "flow_iat_std"; "flow_iat_min"; "flow_iat_max";
    "syn_flag_count"; "ack_flag_count"; "fin_flag_count"; "rst_flag_count";
    "psh_flag_count"; "urg_flag_count";
    "down_up_ratio"; "avg_pkt_size"; "fwd_seg_size_avg"; "bwd_seg_size_avg"
  ]%string.


(** The entries holding an average computed from the counters and the mean
    computed from the samples of the same packets. *)
Definition average_and_mean : list (string * string) :=
  [ ("avg_pkt_size", "pkt_len_mean");
    ("fwd_seg_size_avg", "fwd_pkt_len_mean");
    ("bwd_seg_size_avg", "bwd_pkt_len_mean") ]%string.


(** The flow table after a sequence of arrivals, each a packet with its
    arrival time. *)
Definition feed_meter (fm : FlowMeter.t) (arrivals : list (Packet * Z))
  : FlowMeter.t :=
  foldl (fun fm pt => (FlowMeter.process_packet fm pt.1 pt.2).2) fm arrivals.

(** The number of arrivals whose packet has the flow key [k]. *)
Definition arrivals_with_key (k : FlowMeter.FlowKey)
    (arrivals : list (Packet * Z)) : Z :=
  Z.of_nat (length (filter (fun pt => FlowMeter.get_flow_key pt.1 = Some k)
                      arrivals)).

(** The number of packets recorded for the flow key [k], 0 when the table
    has no flow for it. *)
Definition packets_at (fm : FlowMeter.t) (k : FlowMeter.FlowKey) : Z :=
  match FlowMeter.flows fm !! k with
  | Some f => total_packets f
  | None => 0
  end.

(** The endpoints a flow record was created with, as a flow key. *)
Definition identity (f : Flow.t) : FlowMeter.FlowKey :=
  (Flow.src_ip f, Flow.dst_ip f, Flow.src_port f, Flow.dst_port f,
   Flow.protocol f).

(** What the flow table maintains: a flow is stored under the key it was
    created with, was built by the flow table and has at least one packet. *)
Definition meter_inv (fm : FlowMeter.t) : Prop :=
  map_Forall (fun k f => identity f = k /\ Flow.built f /\ 1 <= total_packets f)
    (FlowMeter.flows fm).

(** A UDP packet of [len] bytes with the given endpoints. *)
Definition udp_packet (len : Z) (src dst : string) (sport dport : Z) : Packet :=
  {| pkt_len := len;
     pkt_ip := Some {| ip_src := src; ip_dst := dst; ip_proto := 17 |};
     pkt_tcp := None;
     pkt_udp := Some {| udp_sport := sport; udp_dport := dport |} |}.


(** The number a rule reads under a key: the entry, 0 when it is missing. *)
Definition number_at (features : gmap string value) (k : string) : Q :=
  MLClassifier.shown (dict_get features k (VNum 0)).

(** A dictionary in which only the packet rate is bound, to a string. *)
Definition textual_rate : gmap string value :=
  <["flow_packets_per_sec" := VStr "fast"]> ∅.



(** A prediction of the rules carries the reason [r]. *)
Definition reported (p : MLClassifier.prediction) (r : MLClassifier.reason)
  : Prop :=
  match p with
  | MLClassifier.Heuristic _ _ _ reasons => r ∈ reasons
  | MLClassifier.Model _ _ _ => False
  end.

(** The captures of a sequence of events that precede its first
    interrupt. *)
Fixpoint captures_before_interrupt (evs : list DDoSDetectionSystem.event) : Z :=
  match evs with
  | [] => 0
  | DDoSDetectionSystem.Capture _ _ :: evs' => 1 + captures_before_interrupt evs'
  | DDoSDetectionSystem.Cleanup _ :: evs' => captures_before_interrupt evs'
  | DDoSDetectionSystem.Interrupt :: _ => 0
  end.

(** No interrupt occurs among the events. *)
Definition uninterrupted (evs : list DDoSDetectionSystem.event) : bool :=
  forallb (fun ev => match ev with
                     | DDoSDetectionSystem.Interrupt => false
                     | _ => true
                     end) evs.

(** The books of the pipeline, for a system [s] whose log file is
    [log_file] and the commands [cmds] invoked so far. The settings are
    those of creation; the records carry pairwise different addresses,
    which are the flagged addresses; the detection counter is the number
    of records; an address is blocked exactly when its record says so;
    every record was made at a positive multiple of ten packets; the
    commands are append commands for flagged addresses, none repeated, one
    for every blocked address. *)
Definition ledger (log_file : string) (s : DDoSDetectionSystem.t)
    (cmds : list IPTablesFilter.command) : Prop :=
  let logs := JSONLogger.logs (DDoSDetectionSystem.logger s) in
  (DDoSDetectionSystem.check_interval s = 10 /\
   DDoSDetectionSystem.min_packets_for_detection s = 5 /\
   DDoSDetectionSystem.flow_count s = 0 /\
   JSONLogger.output_file (DDoSDetectionSystem.logger s) = log_file) /\
  (exists addrs,
     JSONLogger.src_ip <$> logs = VStr <$> addrs /\ NoDup addrs /\
     DDoSDetectionSystem.malicious_ips s = list_to_set addrs) /\
  DDoSDetectionSystem.detection_count s = Z.of_nat (length logs) /\
  (forall a,
     a ∈ IPTablesFilter.blocked_ips (DDoSDetectionSystem.filter s) <->
     exists entry, entry ∈ logs /\ JSONLogger.src_ip entry = VStr a /\
                   JSONLogger.action entry = "blocked"%string) /\
  (forall entry, entry ∈ logs ->
     (JSONLogger.action entry = "blocked"%string \/
      JSONLogger.action entry = "detected"%string) /\
     exists n, 1 <= n /\
       JSONLogger.features entry !! "total_packets"%string
       = Some (VNum (inject_Z (10 * n)))) /\
  NoDup cmds /\
  (forall c, c ∈ cmds ->
     exists a, c = IPTablesFilter.block_command a /\
               a ∈ DDoSDetectionSystem.malicious_ips s) /\
  (forall a, a ∈ IPTablesFilter.blocked_ips (DDoSDetectionSystem.filter s) ->
             IPTablesFilter.block_command a ∈ cmds).

(** A world whose system was stopped before any packet arrived. *)
Definition stopped_world : DDoSDetectionSystem.world :=
  {| DDoSDetectionSystem.running := false;
     DDoSDetectionSystem.system := DDoSDetectionSystem.init None "detections.json" |}.

(** A system created with the rules only, whose flow table has seen the
    first nine packets of the flood. *)
Definition primed_system : DDoSDetectionSystem.t :=
  DDoSDetectionSystem.with_flowmeter
    (DDoSDetectionSystem.init None "detections.json")
    (feed_meter (FlowMeter.init 120)
       (map (fun i => (tcp_packet 60 "10.0.0.1" "10.0.0.2" 40000 80 2,
                       1700000000000000 + 1000 * Z.of_nat i))
            (seq 0 9)))
    9.

(** The tenth packet of the flood and the environment of its capture. *)
Definition tenth_packet : Packet :=
  tcp_packet 60 "10.0.0.1" "10.0.0.2" 40000 80 2.

Definition tenth_capture : DDoSDetectionSystem.Env :=
  {| DDoSDetectionSystem.now := 1700000000009000;
     DDoSDetectionSystem.log_now := 1700000000009000;
     DDoSDetectionSystem.run := exits_with 0 |}.

(** The flow of the flood once the tenth packet is added. *)
Definition tenth_flow : Flow.t :=
  match (FlowMeter.process_packet (DDoSDetectionSystem.flowmeter primed_system)
           tenth_packet 1700000000009000).1 with
  | Some (_, flow) => flow
  | None => Flow.init "10.0.0.1" "10.0.0.2" 40000 80 6
  end.

(** A flood in the other direction: [n] TCP SYN packets from 10.0.0.9 to
    10.0.0.2, one every millisecond, while every command exits with
    [code]. *)
Definition flood_from_9 (n : nat) (code : Z) : list DDoSDetectionSystem.event :=
  map (fun i =>
         DDoSDetectionSystem.Capture
           (tcp_packet 60 "10.0.0.9" "10.0.0.2" 40000 80 2)
           {| DDoSDetectionSystem.now := 1700000000000000 + 1000 * Z.of_nat i;
              DDoSDetectionSystem.log_now := 1700000000000000 + 1000 * Z.of_nat i;
              DDoSDetectionSystem.run := exits_with code |})
      (seq 0 n).

(** * Properties *)

(** ** Numbers and results *)

Lemma Qltb_lt (x y : Q) : Qltb x y = true <-> (x < y)%Q.
Proof.
  unfold Qltb. rewrite Qlt_alt.
  destruct (x ?= y)%Q; split; congruence.
Qed.

Lemma Qltb_ge (x y : Q) : Qltb x y = false <-> (y <= x)%Q.
Proof.
  rewrite <- Bool.not_true_iff_false, Qltb_lt. split.
  - apply Qnot_lt_le.
  - apply Qle_not_lt.
Qed.

Lemma py_truediv_ok (a b : Q) : ~ (b == 0)%Q -> py_truediv a b = Ok (a / b)%Q.
Proof.
  intros Hb. unfold py_truediv.
  destruct (Qeq_bool b 0) eqn:E; [|reflexivity].
  apply Qeq_bool_iff in E. contradiction.
Qed.

Lemma is_ok_spec {A : Type} (r : result A) : is_ok r = true <-> exists a, r = Ok a.
Proof.
  destruct r; simpl; split; eauto; try discriminate.
  intros [a Ha]. discriminate.
Qed.

Lemma np_var_ok (l : list Q) : l <> [] -> is_ok (np_var l) = true.
Proof. destruct l; [congruence|reflexivity]. Qed.

Lemma np_std_ok `{FloatOps} (l : list Q) : l <> [] -> is_ok (np_std l) = true.
Proof. destruct l; [congruence|reflexivity]. Qed.

(** ** Dictionary displays *)

Section Display.
Import Flow.

Lemma display_raise (entries : list (string * result Q)) (e : exn) :
  foldl add_entry (Raise e) entries = Raise e.
Proof. induction entries as [|entry entries IH]; [reflexivity|exact IH]. Qed.

Lemma display_from_ok (entries : list (string * result Q)) :
  Forall (fun entry => is_ok entry.2 = true) entries ->
  forall d0, exists d, foldl add_entry (Ok d0) entries = Ok d.
Proof.
  induction 1 as [|[k e] entries Hk _ IH]; intros d0; simpl.
  - eauto.
  - apply is_ok_spec in Hk as [v Hv]. simpl in Hv. subst e. apply IH.
Qed.

Lemma display_from_other (entries : list (string * result Q)) (k : string) :
  k ∉ entries.*1 ->
  forall d0 d, foldl add_entry (Ok d0) entries = Ok d -> d !! k = d0 !! k.
Proof.
  induction entries as [|[k0 e] entries IH]; intros Hk d0 d; simpl.
  - congruence.
  - rewrite fmap_cons, not_elem_of_cons in Hk. destruct Hk as [Hne Hk].
    destruct e as [v|err]; simpl.
    + intros Hd. rewrite (IH Hk _ _ Hd). simpl. apply lookup_insert_ne. auto.
    + rewrite display_raise. discriminate.
Qed.

Lemma display_from_lookup (entries : list (string * result Q)) (k : string)
    (e : result Q) :
  NoDup entries.*1 -> (k, e) ∈ entries ->
  forall d0 d, foldl add_entry (Ok d0) entries = Ok d ->
  exists v, e = Ok v /\ d !! k = Some (VNum v).
Proof.
  induction entries as [|[k0 e0] entries IH]; intros Hnd Hin d0 d; simpl.
  - inversion Hin.
  - rewrite fmap_cons in Hnd. apply NoDup_cons in Hnd as [Hk0 Hnd].
    simpl in Hk0. apply elem_of_cons in Hin as [Heq|Hin].
    + inversion Heq; subst k0 e0. destruct e as [v|err]; simpl.
      * intros Hd. exists v. split; [reflexivity|].
        rewrite (display_from_other _ _ Hk0 _ _ Hd). simpl. apply lookup_insert_eq.
      * rewrite display_raise. discriminate.
    + destruct e0 as [v0|err]; simpl.
      * apply IH; assumption.
      * rewrite display_raise. discriminate.
Qed.

Lemma display_from_values (entries : list (string * result Q)) :
  forall d0 d, foldl add_entry (Ok d0) entries = Ok d ->
  forall k v, d !! k = Some v ->
  d0 !! k = Some v \/ (k ∈ entries.*1 /\ exists q, v = VNum q).
Proof.
  induction entries as [|[k0 e0] entries IH]; intros d0 d; simpl.
  - intros [= ->]. auto.
  - destruct e0 as [v0|err]; simpl.
    + intros Hd k v Hk. destruct (IH _ _ Hd _ _ Hk) as [H0|[Hin Hq]].
      * simpl in H0. destruct (decide (k0 = k)) as [->|Hne].
        -- rewrite lookup_insert_eq in H0. inversion H0; subst v.
           right. split; [left|eauto].
        -- rewrite lookup_insert_ne in H0 by assumption. auto.
      * right. split; [right; assumption|assumption].
    + rewrite display_raise. discriminate.
Qed.

Lemma dict_display_ok (entries : list (string * result Q)) :
  Forall (fun entry => is_ok entry.2 = true) entries ->
  exists d, Flow.dict_display entries = Ok d.
Proof. intros Hok. apply (display_from_ok _ Hok ∅). Qed.

Lemma dict_display_lookup (entries : list (string * result Q)) (k : string)
    (e : result Q) (d : gmap string value) :
  NoDup entries.*1 -> (k, e) ∈ entries -> Flow.dict_display entries = Ok d ->
  exists v, e = Ok v /\ d !! k = Some (VNum v).
Proof. intros Hnd Hin. apply (display_from_lookup _ _ _ Hnd Hin ∅). Qed.

Lemma dict_display_values (entries : list (string * result Q))
    (d : gmap string value) (k : string) (v : value) :
  Flow.dict_display entries = Ok d -> d !! k = Some v ->
  k ∈ entries.*1 /\ exists q, v = VNum q.
Proof.
  intros Hd Hk.
  destruct (display_from_values _ _ _ Hd _ _ Hk) as [H0|Hin]; [|exact Hin].
  rewrite lookup_empty in H0. discriminate.
Qed.

End Display.

(** ** Feature extraction *)

Section FlowProperties.
Context `{FloatOps}.
Import Flow.

Lemma duration_sec_pos (f : Flow.t) : (0 < duration_sec f)%Q.
Proof.
  unfold duration_sec. destruct (Qltb 0 (get_duration f)) eqn:E.
  - apply Qltb_lt in E. apply Qlt_shift_div_l; [reflexivity|].
    rewrite Qmult_0_l. exact E.
  - reflexivity.
Qed.

Lemma duration_sec_floor (f : Flow.t) :
  (get_duration f <= 0)%Q -> duration_sec f = (1 # 1000)%Q.
Proof.
  intros Hle. unfold duration_sec.
  destruct (Qltb 0 (get_duration f)) eqn:E; [|reflexivity].
  apply Qltb_lt in E. exfalso. exact (Qlt_not_le _ _ E Hle).
Qed.

Lemma rate_ok (n : Z) (f : Flow.t) :
  py_truediv (inject_Z n) (duration_sec f) = Ok (inject_Z n / duration_sec f)%Q.
Proof.
  apply py_truediv_ok. intros H0.
  pose proof (duration_sec_pos f) as Hpos. rewrite H0 in Hpos.
  exact (Qlt_irrefl _ Hpos).
Qed.

Lemma div_if_pos_ok (a b : Z) : is_ok (div_if_pos a b) = true.
Proof.
  unfold div_if_pos. destruct (0 <? b) eqn:E; [|reflexivity].
  apply Z.ltb_lt in E. rewrite py_truediv_ok; [reflexivity|].
  intros H0. apply (inject_Z_injective b 0) in H0. lia.
Qed.

Lemma if_nonempty_min_ok (l : list Q) : is_ok (if_nonempty l (py_min l)) = true.
Proof. destruct l; reflexivity. Qed.

Lemma if_nonempty_max_ok (l : list Q) : is_ok (if_nonempty l (py_max l)) = true.
Proof. destruct l; reflexivity. Qed.

Lemma if_nonempty_mean_ok (l : list Q) : is_ok (if_nonempty l (np_mean l)) = true.
Proof. destruct l; reflexivity. Qed.

Lemma if_nonempty_sum_ok (l : list Q) :
  is_ok (if_nonempty l (Ok (py_sum l))) = true.
Proof. destruct l; reflexivity. Qed.

Lemma if_several_std_ok (l : list Q) : is_ok (if_several l (np_std l)) = true.
Proof.
  unfold if_several. destruct (1 <? Z.of_nat (length l)) eqn:E; [|reflexivity].
  apply np_std_ok. intros ->. discriminate.
Qed.

Lemma if_several_var_ok (l : list Q) : is_ok (if_several l (np_var l)) = true.
Proof.
  unfold if_several. destruct (1 <? Z.of_nat (length l)) eqn:E; [|reflexivity].
  apply np_var_ok. intros ->. discriminate.
Qed.

Lemma rate_is_ok (n : Z) (f : Flow.t) :
  is_ok (py_truediv (inject_Z n) (duration_sec f)) = true.
Proof. rewrite rate_ok. reflexivity. Qed.

Create HintDb features discriminated.
#[local] Hint Resolve div_if_pos_ok if_nonempty_min_ok if_nonempty_max_ok
  if_nonempty_mean_ok if_nonempty_sum_ok if_several_std_ok if_several_var_ok
  rate_is_ok : features.

Lemma feature_entries_ok (f : Flow.t) :
  Forall (fun entry => is_ok entry.2 = true) (feature_entries f).
Proof.
  unfold feature_entries.
  repeat (apply Forall_cons; split; [simpl; auto with features|]).
  apply Forall_nil. exact I.
Qed.

Lemma feature_entries_NoDup (f : Flow.t) : NoDup (feature_entries f).*1.
Proof.
  unfold feature_entries. cbn [fmap list_fmap fst].
  apply (bool_decide_unpack _). vm_compute. exact I.
Qed.

Lemma extract_features_total (f : Flow.t) :
  exists feats, extract_features f = (Ok feats, f).
Proof.
  destruct (dict_display_ok _ (feature_entries_ok f)) as [feats Hf].
  exists feats. unfold extract_features. rewrite Hf. reflexivity.
Qed.

Lemma extract_features_lookup (f : Flow.t) (feats : gmap string value)
    (k : string) (e : result Q) :
  (extract_features f).1 = Ok feats -> (k, e) ∈ feature_entries f ->
  exists v, e = Ok v /\ feats !! k = Some (VNum v).
Proof.
  intros Hf Hin.
  exact (dict_display_lookup _ _ _ _ (feature_entries_NoDup f) Hin Hf).
Qed.

Lemma extract_features_numeric (f : Flow.t) (feats : gmap string value)
    (k : string) (v : value) :
  (extract_features f).1 = Ok feats -> feats !! k = Some v ->
  exists q, v = VNum q.
Proof. intros Hf Hk. exact (proj2 (dict_display_values _ _ _ _ Hf Hk)). Qed.

End FlowProperties.

(** *** Records built by the flow table *)

Lemma add_packet_inv (f : Flow.t) (packet : Packet) (timestamp : Z)
    (is_forward : bool) :
  flow_inv f -> flow_inv (Flow.add_packet f packet timestamp is_forward).
Proof.
  unfold flow_inv. intros (Hf & Hb & Hf0 & Hb0 & Hsyn & Hack).
  destruct is_forward; simpl; rewrite ?length_app; simpl;
    repeat split; try lia; try tauto;
    destruct (tcp_flag packet _); lia.
Qed.

Lemma built_inv (f : Flow.t) : Flow.built f -> flow_inv f.
Proof.
  induction 1 as [|f packet timestamp is_forward _ IH].
  - unfold flow_inv. simpl. repeat split; lia.
  - apply add_packet_inv, IH.
Qed.

Lemma built_fwd_empty (f : Flow.t) :
  Flow.built f -> Flow.fwd_packets f = 0 ->
  Flow.fwd_packet_sizes f = [] /\ Flow.fwd_iat f = [] /\ Flow.fwd_bytes f = 0.
Proof.
  intros Hb H0. destruct (built_inv f Hb) as (Hf & _ & Hf0 & _).
  destruct (Hf0 H0) as [Hi Hy]. repeat split; try assumption.
  destruct (Flow.fwd_packet_sizes f); [reflexivity|]. simpl in Hf. lia.
Qed.

Lemma built_bwd_empty (f : Flow.t) :
  Flow.built f -> Flow.bwd_packets f = 0 ->
  Flow.bwd_packet_sizes f = [] /\ Flow.bwd_iat f = [] /\ Flow.bwd_bytes f = 0.
Proof.
  intros Hb H0. destruct (built_inv f Hb) as (_ & Hf & _ & Hf0 & _).
  destruct (Hf0 H0) as [Hi Hy]. repeat split; try assumption.
  destruct (Flow.bwd_packet_sizes f); [reflexivity|]. simpl in Hf. lia.
Qed.

Lemma built_counts (f : Flow.t) :
  Flow.built f -> 0 <= Flow.ack_count f /\ 0 <= Flow.bwd_packets f.
Proof.
  intros Hb. destruct (built_inv f Hb) as (_ & Hlen & _ & _ & _ & Hack). lia.
Qed.

(** Finding the entry of a key in the display of the features. *)
Ltac find_entry :=
  unfold Flow.feature_entries;
  repeat first [apply list_elem_of_here | apply list_elem_of_further].

(** For a goal about the number bound to a key of [feats]: fetch the value
    and the expression it comes from, then let [tac] finish from the
    equation between the two. *)
Ltac with_entry f Hf tac :=
  match goal with
  | |- has_number ?feats ?key _ =>
      let Hin := fresh "Hin" in
      let v := fresh "v" in
      let Hv := fresh "Hv" in
      let Hl := fresh "Hl" in
      eassert (Hin : (key, _) ∈ Flow.feature_entries f) by find_entry;
      destruct (extract_features_lookup f feats key _ Hf Hin) as (v & Hv & Hl);
      clear Hin; exists v; split; [exact Hl|]; tac Hv
  end.

Section FeatureClaims.
Context `{FloatOps}.

Lemma zero_rate (f : Flow.t) (v : Q) :
  py_truediv (inject_Z 0) (Flow.duration_sec f) = Ok v -> (v == 0)%Q.
Proof.
  rewrite rate_ok. intros [= <-]. unfold Qdiv. apply Qmult_0_l.
Qed.

(** C6. In a record built by the flow table, a direction without packets
    has all its statistics equal to 0 in the extracted features, and the
    extraction raises no error and meets no NaN. *)
Theorem empty_direction_statistics (f : Flow.t) :
  Flow.built f ->
  exists feats, Flow.extract_features f = (Ok feats, f) /\
    (Flow.fwd_packets f = 0 ->
       forall k, k ∈ fwd_statistics -> has_number feats k 0) /\
    (Flow.bwd_packets f = 0 ->
       forall k, k ∈ bwd_statistics -> has_number feats k 0).
Proof.
  intros Hb. destruct (extract_features_total f) as [feats Hf].
  exists feats. split; [exact Hf|].
  assert (Hf1 : (Flow.extract_features f).1 = Ok feats) by (rewrite Hf; reflexivity).
  split.
  - intros H0 k Hk.
    destruct (built_fwd_empty f Hb H0) as (Hs & Hi & Hy).
    unfold fwd_statistics in Hk.
    repeat (apply elem_of_cons in Hk as [->|Hk]); [..|inversion Hk];
      with_entry f Hf1 ltac:(fun Hv =>
        rewrite ?Hs, ?Hi, ?Hy, ?H0 in Hv;
        first [ apply zero_rate in Hv; exact Hv
              | simpl in Hv; inversion Hv; reflexivity ]).
  - intros H0 k Hk.
    destruct (built_bwd_empty f Hb H0) as (Hs & Hi & Hy).
    unfold bwd_statistics in Hk.
    repeat (apply elem_of_cons in Hk as [->|Hk]); [..|inversion Hk];
      with_entry f Hf1 ltac:(fun Hv =>
        rewrite ?Hs, ?Hi, ?Hy, ?H0 in Hv;
        first [ apply zero_rate in Hv; exact Hv
              | simpl in Hv; inversion Hv; reflexivity ]).
Qed.

End FeatureClaims.

(** ** Feature extraction on the store *)

Lemma alloc_spec (o : FlowObject.object) (h : FlowObject.store) :
  exists l, FlowObject.alloc o h = (Ok l, <[l := o]> h) /\ h !! l = None.
Proof.
  exists (fresh (dom h)). split; [reflexivity|].
  apply not_elem_of_dom. apply is_fresh.
Qed.

(** A store that keeps the objects of another keeps its records. *)
Lemma record_at_extends (h h' : FlowObject.store) (self : FlowObject.loc)
    (f : Flow.t) :
  (forall l o, h !! l = Some o -> h' !! l = Some o) ->
  FlowObject.record_at h self = Some f ->
  FlowObject.record_at h' self = Some f.
Proof.
  intros Hext. unfold FlowObject.record_at.
  destruct (h !! self) as [[| | |o]|] eqn:Eself; try discriminate.
  destruct (h !! FlowObject.fwd_packet_sizes o) as [[fs| | |]|] eqn:E1;
    try discriminate.
  destruct (h !! FlowObject.bwd_packet_sizes o) as [[bs| | |]|] eqn:E2;
    try discriminate.
  destruct (h !! FlowObject.fwd_iat o) as [[|fi| |]|] eqn:E3; try discriminate.
  destruct (h !! FlowObject.bwd_iat o) as [[|bi| |]|] eqn:E4; try discriminate.
  rewrite (Hext _ _ Eself), (Hext _ _ E1), (Hext _ _ E2), (Hext _ _ E3),
    (Hext _ _ E4).
  trivial.
Qed.

Lemma insert_fresh_extends (h : FlowObject.store) (l : FlowObject.loc)
    (o : FlowObject.object) :
  h !! l = None -> forall l' o', h !! l' = Some o' -> <[l := o]> h !! l' = Some o'.
Proof.
  intros Hl l' o' Hl'. rewrite lookup_insert_ne; [exact Hl'|].
  intros ->. rewrite Hl in Hl'. discriminate.
Qed.

Section StoreExtraction.
Context `{FloatOps}.

(** One call: a new dictionary holding the features of the record's
    contents, every object of the store as it was. *)
Lemma extract_features_run (h : FlowObject.store) (self : FlowObject.loc)
    (f : Flow.t) :
  FlowObject.record_at h self = Some f ->
  exists d h1 feats,
    FlowObject.extract_features self h = (Ok d, h1) /\
    (Flow.extract_features f).1 = Ok feats /\
    h !! d = None /\
    h1 !! d = Some (FlowObject.Dict feats) /\
    (forall l o, h !! l = Some o -> h1 !! l = Some o).
Proof.
  unfold FlowObject.record_at.
  destruct (h !! self) as [[| | |o]|] eqn:Eself; try discriminate.
  destruct (h !! FlowObject.fwd_packet_sizes o) as [[fs| | |]|] eqn:E1;
    try discriminate.
  destruct (h !! FlowObject.bwd_packet_sizes o) as [[bs| | |]|] eqn:E2;
    try discriminate.
  destruct (h !! FlowObject.fwd_iat o) as [[|fi| |]|] eqn:E3; try discriminate.
  destruct (h !! FlowObject.bwd_iat o) as [[|bi| |]|] eqn:E4; try discriminate.
  intros [= <-].
  destruct (extract_features_total (FlowObject.contents o fs bs fi bi))
    as [feats Hfeats].
  assert (Hdisplay : Flow.dict_display
                       (Flow.feature_entries (FlowObject.contents o fs bs fi bi))
                     = Ok feats).
  { unfold Flow.extract_features in Hfeats. injection Hfeats as Hd. exact Hd. }
  destruct (alloc_spec (FlowObject.IntList (fs ++ bs)) h) as (l1 & Ha1 & Hl1).
  set (h1 := <[l1 := FlowObject.IntList (fs ++ bs)]> h) in *.
  destruct (alloc_spec (FlowObject.FloatList (fi ++ bi)) h1) as (l2 & Ha2 & Hl2).
  set (h2 := <[l2 := FlowObject.FloatList (fi ++ bi)]> h1) in *.
  destruct (alloc_spec (FlowObject.Dict feats) h2) as (d & Ha3 & Hd).
  exists d, (<[d := FlowObject.Dict feats]> h2), feats.
  assert (Hext1 : forall l o', h !! l = Some o' -> h1 !! l = Some o')
    by (apply insert_fresh_extends; exact Hl1).
  assert (Hext2 : forall l o', h !! l = Some o' -> h2 !! l = Some o')
    by (intros l o' Hl; apply insert_fresh_extends; [exact Hl2|apply Hext1, Hl]).
  split.
  - unfold FlowObject.extract_features, mbind, FlowObject.M_bind,
      FlowObject.attributes, FlowObject.ints, FlowObject.floats, FlowObject.lift.
    rewrite Eself, E1, E2, E3, E4, Ha1, Ha2, Hdisplay. exact Ha3.
  - split; [rewrite Hfeats; reflexivity|]. split.
    + destruct (h !! d) as [o'|] eqn:E; [|reflexivity].
      rewrite (Hext2 _ _ E) in Hd. discriminate.
    + split; [apply lookup_insert_eq|].
      intros l o' Hl. apply insert_fresh_extends; [exact Hd|apply Hext2, Hl].
Qed.

(** C9. Feature extraction is pure. On a store that holds a flow record,
    the call succeeds and returns a reference to a new dictionary holding
    the features of the record; every object that was in the store is as it
    was, the record in particular. When the caller then assigns an entry of
    the returned dictionary, the record is still as it was, and a second
    call returns another new dictionary, holding the same features as the
    first call returned, while the first dictionary keeps the caller's
    assignment. *)
Theorem extract_features_reads_only (h : FlowObject.store)
    (self : FlowObject.loc) (f : Flow.t) :
  FlowObject.record_at h self = Some f ->
  exists d h1 feats,
    FlowObject.extract_features self h = (Ok d, h1) /\
    (Flow.extract_features f).1 = Ok feats /\
    h !! d = None /\
    h1 !! d = Some (FlowObject.Dict feats) /\
    (forall l o, h !! l = Some o -> h1 !! l = Some o) /\
    FlowObject.record_at h1 self = Some f /\
    forall k v, exists h2,
      FlowObject.setitem d k v h1 = (Ok tt, h2) /\
      FlowObject.record_at h2 self = Some f /\
      exists d2 h3,
        FlowObject.extract_features self h2 = (Ok d2, h3) /\
        d2 <> d /\
        h3 !! d2 = Some (FlowObject.Dict feats) /\
        h3 !! d = Some (FlowObject.Dict (<[k := v]> feats)) /\
        FlowObject.record_at h3 self = Some f.
Proof.
  intros Hrec.
  destruct (extract_features_run h self f Hrec)
    as (d & h1 & feats & Hrun & Hfeats & Hnew & Hd & Hext).
  exists d, h1, feats.
  split; [exact Hrun|]. split; [exact Hfeats|]. split; [exact Hnew|].
  split; [exact Hd|]. split; [exact Hext|].
  split; [exact (record_at_extends _ _ _ _ Hext Hrec)|].
  intros k v.
  exists (<[d := FlowObject.Dict (<[k := v]> feats)]> h1). split.
  { unfold FlowObject.setitem. rewrite Hd. reflexivity. }
  assert (Hext2 : forall l o, h !! l = Some o ->
            <[d := FlowObject.Dict (<[k := v]> feats)]> h1 !! l = Some o).
  { intros l o Hl. rewrite lookup_insert_ne; [apply Hext, Hl|].
    intros <-. rewrite Hnew in Hl. discriminate. }
  assert (Hrec2 : FlowObject.record_at
                    (<[d := FlowObject.Dict (<[k := v]> feats)]> h1) self
                  = Some f) by exact (record_at_extends _ _ _ _ Hext2 Hrec).
  split; [exact Hrec2|].
  destruct (extract_features_run _ self f Hrec2)
    as (d2 & h3 & feats2 & Hrun2 & Hfeats2 & Hnew2 & Hd2 & Hext3).
  rewrite Hfeats in Hfeats2. injection Hfeats2 as <-.
  exists d2, h3. split; [exact Hrun2|].
  assert (Hd' : <[d := FlowObject.Dict (<[k := v]> feats)]> h1 !! d
                = Some (FlowObject.Dict (<[k := v]> feats)))
    by apply lookup_insert_eq.
  split.
  { intros ->. rewrite Hnew2 in Hd'. discriminate. }
  split; [exact Hd2|]. split; [exact (Hext3 _ _ Hd')|].
  exact (record_at_extends _ _ _ _ Hext3 Hrec2).
Qed.

End StoreExtraction.

Lemma extract_features_reads_only_witness :
  FlowObject.record_at single_packet_store 1%positive = Some single_packet_flow /\
  exists d h1 feats,
    @FlowObject.extract_features rational_float_ops 1%positive single_packet_store
      = (Ok d, h1) /\
    (@Flow.extract_features rational_float_ops single_packet_flow).1 = Ok feats /\
    single_packet_store !! d = None /\
    h1 !! d = Some (FlowObject.Dict feats) /\
    (forall l o, single_packet_store !! l = Some o -> h1 !! l = Some o) /\
    FlowObject.record_at h1 1%positive = Some single_packet_flow.
Proof.
  assert (Hrec : FlowObject.record_at single_packet_store 1%positive
                 = Some single_packet_flow) by reflexivity.
  split; [exact Hrec|].
  destruct (@extract_features_reads_only rational_float_ops
              single_packet_store 1%positive single_packet_flow Hrec)
    as (d & h1 & feats & Hrun & Hfeats & Hnew & Hd & Hext & Hrec1 & _).
  exists d, h1, feats. repeat split; assumption.
Defined.

Section ZeroDuration.
Context `{FloatOps}.

(** C2, amended. For a record whose duration is zero the divisor of every
    per-second rate is the floor of 0.001 s, one millisecond: extraction
    raises no error and each rate is the count divided by 1/1000. *)
Theorem zero_duration_rates (f : Flow.t) :
  (Flow.get_duration f == 0)%Q ->
  Flow.duration_sec f = (1 # 1000)%Q /\
  exists feats, Flow.extract_features f = (Ok feats, f) /\
    has_number feats "flow_bytes_per_sec"
      (inject_Z (Flow.fwd_bytes f + Flow.bwd_bytes f) / (1 # 1000)) /\
    has_number feats "flow_packets_per_sec"
      (inject_Z (Flow.fwd_packets f + Flow.bwd_packets f) / (1 # 1000)) /\
    has_number feats "fwd_packets_per_sec"
      (inject_Z (Flow.fwd_packets f) / (1 # 1000)) /\
    has_number feats "bwd_packets_per_sec"
      (inject_Z (Flow.bwd_packets f) / (1 # 1000)).
Proof.
  intros Hd.
  assert (Hfloor : Flow.duration_sec f = (1 # 1000)%Q).
  { apply duration_sec_floor. rewrite Hd. apply Qle_refl. }
  split; [exact Hfloor|].
  destruct (extract_features_total f) as [feats Hf].
  exists feats. split; [exact Hf|].
  assert (Hf1 : (Flow.extract_features f).1 = Ok feats) by (rewrite Hf; reflexivity).
  repeat split;
    with_entry f Hf1 ltac:(fun Hv =>
      rewrite rate_ok, Hfloor in Hv; inversion Hv; reflexivity).
Qed.

End ZeroDuration.

Lemma zero_duration_rates_witness :
  (Flow.get_duration single_packet_flow == 0)%Q /\
  Flow.duration_sec single_packet_flow = (1 # 1000)%Q /\
  exists feats,
    @Flow.extract_features rational_float_ops single_packet_flow
      = (Ok feats, single_packet_flow) /\
    has_number feats "flow_bytes_per_sec"
      (inject_Z (Flow.fwd_bytes single_packet_flow
                 + Flow.bwd_bytes single_packet_flow) / (1 # 1000)) /\
    has_number feats "flow_packets_per_sec"
      (inject_Z (Flow.fwd_packets single_packet_flow
                 + Flow.bwd_packets single_packet_flow) / (1 # 1000)) /\
    has_number feats "fwd_packets_per_sec"
      (inject_Z (Flow.fwd_packets single_packet_flow) / (1 # 1000)) /\
    has_number feats "bwd_packets_per_sec"
      (inject_Z (Flow.bwd_packets single_packet_flow) / (1 # 1000)).
Proof.
  split; [reflexivity|].
  apply (@zero_duration_rates rational_float_ops single_packet_flow).
  reflexivity.
Defined.

(** C2 as stated fails: the duration substituted for a single-packet flow
    is not one microsecond, and the packet rate of the flow is 1000 per
    second, not the 1000000 per second of a one-microsecond flow. *)
Lemma floor_is_not_one_microsecond :
  (Flow.get_duration single_packet_flow == 0)%Q /\
  ~ (Flow.duration_sec single_packet_flow == one_microsecond)%Q /\
  exists feats,
    @Flow.extract_features rational_float_ops single_packet_flow
      = (Ok feats, single_packet_flow) /\
    has_number feats "flow_packets_per_sec" 1000 /\
    ~ has_number feats "flow_packets_per_sec" (1 / one_microsecond).
Proof.
  split; [reflexivity|].
  split; [vm_compute; discriminate|].
  destruct (@extract_features_total rational_float_ops single_packet_flow)
    as [feats Hf].
  exists feats. split; [exact Hf|].
  assert (Hf1 : (@Flow.extract_features rational_float_ops single_packet_flow).1
                = Ok feats) by (rewrite Hf; reflexivity).
  assert (Hin : ("flow_packets_per_sec"%string,
                 py_truediv (inject_Z 1) (1 # 1000))
                ∈ @Flow.feature_entries rational_float_ops single_packet_flow)
    by find_entry.
  destruct (extract_features_lookup _ _ _ _ Hf1 Hin) as (v & Hv & Hl).
  inversion Hv; subst v. clear Hv Hin. split.
  - eexists. split; [exact Hl|]. reflexivity.
  - intros (v' & Hv' & Hq'). rewrite Hl in Hv'. inversion Hv'; subst v'.
    vm_compute in Hq'. discriminate.
Qed.

Lemma empty_direction_statistics_witness :
  Flow.built single_packet_flow /\
  Flow.bwd_packets single_packet_flow = 0 /\
  exists feats,
    @Flow.extract_features rational_float_ops single_packet_flow
      = (Ok feats, single_packet_flow) /\
    forall k, k ∈ bwd_statistics -> has_number feats k 0.
Proof.
  assert (Hb : Flow.built single_packet_flow)
    by (apply Flow.built_add, Flow.built_init).
  split; [exact Hb|]. split; [reflexivity|].
  destruct (@empty_direction_statistics rational_float_ops single_packet_flow Hb)
    as (feats & Hf & _ & Hbwd).
  exists feats. split; [exact Hf|]. apply Hbwd. reflexivity.
Defined.

(** ** Flow keys *)

Lemma ltb_irrefl (s : string) : String.ltb s s = false.
Proof.
  unfold String.ltb. pose proof (String.compare_antisym s s) as Ha.
  destruct (String.compare s s); simpl in Ha; try discriminate; reflexivity.
Qed.

Lemma ltb_asym (s t : string) : String.ltb s t = true -> String.ltb t s = false.
Proof.
  unfold String.ltb. rewrite (String.compare_antisym t s).
  destruct (String.compare s t); simpl; congruence.
Qed.

Lemma ltb_total (s t : string) :
  String.ltb s t = false -> String.ltb t s = false -> s = t.
Proof.
  unfold String.ltb. rewrite (String.compare_antisym t s).
  destruct (String.compare s t) eqn:E; simpl; try discriminate.
  intros _ _. apply String.compare_eq_iff. exact E.
Qed.

Lemma pair_lt_irrefl (x : string * Z) : FlowMeter.pair_lt x x = false.
Proof. unfold FlowMeter.pair_lt. rewrite String.eqb_refl. apply Z.ltb_irrefl. Qed.

Lemma pair_lt_asym (x y : string * Z) :
  FlowMeter.pair_lt x y = true -> FlowMeter.pair_lt y x = false.
Proof.
  unfold FlowMeter.pair_lt. rewrite (String.eqb_sym y.1 x.1).
  destruct (String.eqb x.1 y.1).
  - intros Hlt. apply Z.ltb_lt in Hlt. apply Z.ltb_ge. lia.
  - apply ltb_asym.
Qed.

Lemma pair_lt_total (x y : string * Z) :
  FlowMeter.pair_lt x y = false -> FlowMeter.pair_lt y x = false -> x = y.
Proof.
  destruct x as [a p], y as [b q]. unfold FlowMeter.pair_lt. simpl.
  rewrite (String.eqb_sym b a). destruct (String.eqb a b) eqn:E.
  - apply String.eqb_eq in E. subst b. intros H1 H2.
    apply Z.ltb_ge in H1. apply Z.ltb_ge in H2. f_equal. lia.
  - intros H1 H2. apply String.eqb_neq in E.
    destruct E. apply ltb_total; assumption.
Qed.

(** C5. Two IP packets with swapped source and destination (address, port)
    pairs and the same protocol get the same flow key, and position one of
    that key is the pair that is not greater than the other. *)
Theorem flow_key_symmetric (p1 p2 : Packet) (s d : string * Z) (proto : Z) :
  endpoints p1 = Some (s, d, proto) ->
  endpoints p2 = Some (d, s, proto) ->
  exists k,
    FlowMeter.get_flow_key p1 = Some k /\
    FlowMeter.get_flow_key p2 = Some k /\
    k.2 = proto /\
    ((key_first k = s /\ key_second k = d) \/
     (key_first k = d /\ key_second k = s)) /\
    FlowMeter.pair_lt s (key_first k) = false /\
    FlowMeter.pair_lt d (key_first k) = false.
Proof.
  unfold endpoints, FlowMeter.get_flow_key.
  destruct (pkt_ip p1) as [ip1|]; [|discriminate].
  destruct (pkt_ip p2) as [ip2|]; [|discriminate].
  destruct (FlowMeter.ports p1) as [sp1 dp1], (FlowMeter.ports p2) as [sp2 dp2].
  simpl. intros [= <- <- <-] [= -> -> -> -> ->].
  destruct (FlowMeter.pair_lt (ip_src ip1, sp1) (ip_dst ip1, dp1)) eqn:E.
  - rewrite (pair_lt_asym _ _ E).
    eexists. repeat split; try reflexivity.
    + left. split; reflexivity.
    + apply pair_lt_irrefl.
    + apply pair_lt_asym. exact E.
  - destruct (FlowMeter.pair_lt (ip_dst ip1, dp1) (ip_src ip1, sp1)) eqn:E'.
    + eexists. repeat split; try reflexivity.
      * right. split; reflexivity.
      * exact E.
      * apply pair_lt_irrefl.
    + injection (pair_lt_total _ _ E E') as Ha Hq. rewrite Ha, Hq.
      rewrite Ha, Hq in E. eexists. repeat split; try reflexivity.
      * left. split; reflexivity.
      * apply pair_lt_irrefl.
      * apply pair_lt_irrefl.
Qed.

(** ** Classification *)

Lemma is_number_inv (v : value) : is_number v = true -> exists q, v = VNum q.
Proof. destruct v; [eauto|discriminate]. Qed.

Lemma is_count_inv (v : value) :
  is_count v = true -> exists q, v = VNum q /\ (0 <= q)%Q.
Proof.
  destruct v as [q|]; [|discriminate]. simpl. intros Hq.
  apply Qle_bool_iff in Hq. eauto.
Qed.

Lemma skewed_ok (a b threshold : Q) :
  (0 <= b)%Q -> MLClassifier.skewed a (VNum b) threshold = Ok (skew a b threshold).
Proof.
  intros Hb. unfold MLClassifier.skewed, skew.
  destruct (Qeq_bool b 0); [reflexivity|].
  rewrite py_truediv_ok; [reflexivity|].
  intros H0. assert (Hlt : (0 < b + 1)%Q).
  { apply Qlt_le_trans with (0 + 1)%Q; [reflexivity|].
    apply Qplus_le_l. exact Hb. }
  rewrite H0 in Hlt. exact (Qlt_irrefl _ Hlt).
Qed.

(** On a well-formed dictionary the rules raise no exception and return the
    verdict for the triggered rules. *)
Lemma heuristic_detection_closed (features : gmap string value) :
  well_formed features = true ->
  exists pps syn ack bps avg_size fwd bwd,
    dict_get features "syn_flag_count" (VNum 0) = VNum syn /\
    dict_get features "ack_flag_count" (VNum 0) = VNum ack /\
    (0 <= ack)%Q /\
    MLClassifier.heuristic_detection features
      = Ok (verdict (triggered_rules pps syn ack bps avg_size fwd bwd)).
Proof.
  unfold well_formed. rewrite !andb_true_iff.
  intros ((((((Hpps & Hsyn) & Hack) & Hbps) & Havg) & Hfwd) & Hbwd).
  apply is_number_inv in Hpps as [pps Hpps], Hsyn as [syn Hsyn],
    Hbps as [bps Hbps], Havg as [avg Havg], Hfwd as [fwd Hfwd].
  apply is_count_inv in Hack as (ack & Hack & Hack0), Hbwd as (bwd & Hbwd & Hbwd0).
  exists pps, syn, ack, bps, avg, fwd, bwd.
  repeat split; try assumption.
  unfold MLClassifier.heuristic_detection.
  rewrite Hpps, Hsyn, Hack, Hbps, Havg, Hfwd, Hbwd.
  unfold triggered_rules. cbn [as_num mbind result_bind MLClassifier.shown].
  rewrite !(skewed_ok _ _ _ Hack0), !(skewed_ok _ _ _ Hbwd0).
  destruct (Qltb 50 syn), (Qltb 100 fwd);
    cbn [mbind result_bind andb]; rewrite <- ?app_assoc; reflexivity.
Qed.

Lemma syn_flood_in_rules (pps syn ack bps avg_size fwd bwd : Q) :
  (exists s a, MLClassifier.SynFlood s a
               ∈ triggered_rules pps syn ack bps avg_size fwd bwd)
  <-> Qltb 50 syn && skew syn ack 10 = true.
Proof.
  unfold triggered_rules. split.
  - intros (s & a & Hin). rewrite !elem_of_app in Hin.
    destruct (Qltb 50 syn && skew syn ack 10); [reflexivity|].
    repeat match type of Hin with
           | _ \/ _ => destruct Hin as [Hin|Hin]
           | _ ∈ (if ?c then _ else _) => destruct c
           | _ ∈ [] => inversion Hin
           | _ ∈ [_] => apply list_elem_of_singleton in Hin; discriminate
           end.
  - intros ->. exists syn, ack. rewrite !elem_of_app.
    right. left. apply list_elem_of_here.
Qed.

Lemma verdict_reasons (reasons : list MLClassifier.reason) :
  syn_flood_reported (verdict reasons)
  <-> exists s a, MLClassifier.SynFlood s a ∈ reasons.
Proof.
  unfold verdict, syn_flood_reported. destruct reasons as [|r reasons]; simpl.
  - reflexivity.
  - reflexivity.
Qed.

Lemma skew_spec (a b threshold : Q) :
  skew a b threshold = true <-> (b == 0)%Q \/ (threshold < a / (b + 1))%Q.
Proof. unfold skew. rewrite orb_true_iff, Qeq_bool_iff, Qltb_lt. reflexivity. Qed.

(** C1, amended. On a well-formed feature dictionary the rules return a
    verdict, and it carries a SYN-flood reason exactly when the SYN count
    exceeds 50 and either there is no ACK or the SYN count divided by the
    ACK count plus one exceeds 10. *)
Theorem syn_flood_rule (features : gmap string value) :
  well_formed features = true ->
  exists p, MLClassifier.heuristic_detection features = Ok p /\
    (syn_flood_reported p
     <-> syn_flood_condition (syn_of features) (ack_of features)).
Proof.
  intros Hwf.
  destruct (heuristic_detection_closed features Hwf)
    as (pps & syn & ack & bps & avg & fwd & bwd & Hsyn & Hack & _ & Heq).
  eexists. split; [exact Heq|].
  unfold syn_of, ack_of, syn_flood_condition. rewrite Hsyn, Hack.
  cbn [MLClassifier.shown].
  rewrite verdict_reasons, syn_flood_in_rules, andb_true_iff, Qltb_lt, skew_spec.
  reflexivity.
Qed.

Lemma syn_flood_rule_witness :
  well_formed (flag_counts 80 2) = true /\
  exists p, MLClassifier.heuristic_detection (flag_counts 80 2) = Ok p /\
    (syn_flood_reported p
     <-> syn_flood_condition (syn_of (flag_counts 80 2)) (ack_of (flag_counts 80 2))).
Proof.
  split; [reflexivity|]. apply (syn_flood_rule (flag_counts 80 2)). reflexivity.
Defined.

(** C1 as stated fails: with 55 SYNs and 5 ACKs the SYN count exceeds 50 and
    the ratio of SYNs to ACKs is 11, above 10, yet the rules report no SYN
    flood. *)
Lemma syn_ack_ratio_not_the_rule :
  well_formed (flag_counts 55 5) = true /\
  syn_ack_ratio_condition (syn_of (flag_counts 55 5)) (ack_of (flag_counts 55 5)) /\
  exists p, MLClassifier.heuristic_detection (flag_counts 55 5) = Ok p /\
    ~ syn_flood_reported p.
Proof.
  split; [reflexivity|]. split.
  - split; [reflexivity|]. right. reflexivity.
  - eexists. split; [reflexivity|]. simpl.
    intros (s & a & Hin). inversion Hin.
Qed.

(** The two snapshots of the specification: 80 SYNs with 2 ACKs are reported
    as a SYN flood, 80 SYNs with 40 ACKs are not. *)
Example syn_80_ack_2 :
  MLClassifier.heuristic_detection (flag_counts 80 2)
  = Ok (MLClassifier.Heuristic true "DDoS" (Qmin (inject_Z 1 / 3) 1)
          [MLClassifier.SynFlood 80 2]).
Proof. reflexivity. Qed.

Example syn_80_ack_40 :
  MLClassifier.heuristic_detection (flag_counts 80 40)
  = Ok (MLClassifier.Heuristic false "BENIGN" (Qmin (inject_Z 0 / 3) 1) []).
Proof. reflexivity. Qed.

(** The snapshot of the specification for rule 1: 1500 packets per second
    of 500 bytes without flags are reported for their packet rate only. *)
Example high_packet_rate_only :
  MLClassifier.heuristic_detection
    (<["avg_pkt_size" := VNum 500]>
       (<["flow_packets_per_sec" := VNum 1500]> (flag_counts 0 0)))
  = Ok (MLClassifier.Heuristic true "DDoS" (Qmin (inject_Z 1 / 3) 1)
          [MLClassifier.HighPacketRate 1500]).
Proof. reflexivity. Qed.

(** C4. On a well-formed feature dictionary classification returns a
    prediction and raises nothing; whenever the model path raises, the
    prediction returned is the one of the rules. *)
Theorem predict_total (self : MLClassifier.t) (features : gmap string value) :
  well_formed features = true ->
  (exists p, MLClassifier.predict self features = Ok p) /\
  (forall e, MLClassifier.model_prediction self features = Raise e ->
     exists p, MLClassifier.heuristic_detection features = Ok p /\
               MLClassifier.predict self features = Ok p).
Proof.
  intros Hwf.
  destruct (heuristic_detection_closed features Hwf)
    as (pps & syn & ack & bps & avg & fwd & bwd & _ & _ & _ & Heq).
  unfold MLClassifier.predict. split.
  - destruct (MLClassifier.use_heuristics self); [eauto|].
    destruct (MLClassifier.model_prediction self features); simpl; eauto.
  - intros e He. eexists. split; [exact Heq|].
    destruct (MLClassifier.use_heuristics self); [exact Heq|].
    rewrite He. simpl. exact Heq.
Qed.

Lemma predict_total_witness :
  well_formed (flag_counts 80 2) = true /\
  MLClassifier.model_prediction failing_classifier (flag_counts 80 2)
    = Raise ValueError /\
  MLClassifier.predict failing_classifier (flag_counts 80 2)
    = MLClassifier.heuristic_detection (flag_counts 80 2).
Proof.
  split; [reflexivity|]. split; [reflexivity|].
  destruct (predict_total failing_classifier (flag_counts 80 2) eq_refl)
    as [_ Hfall].
  destruct (Hfall ValueError eq_refl) as (p & Hp & Hpred).
  rewrite Hpred, Hp. reflexivity.
Defined.

(** ** Blocking *)

Lemma prefix_empty (s : string) : String.prefix "" s = true.
Proof. destruct s; reflexivity. Qed.

(** Every address of the loopback network 127.0.0.0/8 is refused. *)
Lemma loopback_refused (b c d : N) : refused (dotted 127 b c d) = true.
Proof.
  unfold refused, dotted. change (decimal 127) with "127"%string.
  simpl. rewrite prefix_empty. reflexivity.
Qed.

Lemma unspecified_refused : refused (dotted 0 0 0 0) = true.
Proof. reflexivity. Qed.

Lemma block_ip_refused (self : IPTablesFilter.t) (ip : string)
    (run : IPTablesFilter.subprocess_run) :
  ip ∉ IPTablesFilter.blocked_ips self -> refused ip = true ->
  IPTablesFilter.block_ip self ip run = (false, [], self).
Proof.
  intros Hnot Href. unfold IPTablesFilter.block_ip.
  rewrite bool_decide_eq_false_2 by exact Hnot.
  unfold refused in Href. rewrite Href. reflexivity.
Qed.

Lemma block_ip_blocked (self : IPTablesFilter.t) (ip x : string)
    (run : IPTablesFilter.subprocess_run) :
  x ∈ IPTablesFilter.blocked_ips (IPTablesFilter.block_ip self ip run).2 ->
  x ∈ IPTablesFilter.blocked_ips self \/ (x = ip /\ refused ip = false).
Proof.
  unfold IPTablesFilter.block_ip.
  destruct (bool_decide (ip ∈ IPTablesFilter.blocked_ips self)); [auto|].
  fold (refused ip). destruct (refused ip); [auto|].
  destruct (run (IPTablesFilter.block_command ip)) as [result|e]; [|auto].
  destruct (IPTablesFilter.returncode result =? 0); [|auto].
  simpl. rewrite elem_of_union, elem_of_singleton. tauto.
Qed.

(** A filter never holds an address that it refuses to block. *)
Lemma reachable_not_refused (self : IPTablesFilter.t) :
  IPTablesFilter.reachable self ->
  forall x, x ∈ IPTablesFilter.blocked_ips self -> refused x = false.
Proof.
  induction 1 as [|self ip run _ IH|self ip run _ IH]; intros x Hx.
  - simpl in Hx. exfalso. exact (not_elem_of_empty x Hx).
  - apply block_ip_blocked in Hx as [Hx|[-> Hr]]; [apply IH, Hx|exact Hr].
  - apply IH. unfold IPTablesFilter.unblock_ip in Hx.
    destruct (run (IPTablesFilter.unblock_command ip)); simpl in Hx; [|exact Hx].
    apply elem_of_difference in Hx as [Hx _]. exact Hx.
Qed.

(** C7. Blocking is idempotent: after a call to [block_ip] that returns
    success, a second call for the same address invokes no command, returns
    success and leaves the filter as it is; the first call invoked at most
    one command, so both calls together invoke at most one. *)
Theorem block_ip_idempotent (self self1 : IPTablesFilter.t) (ip : string)
    (run1 run2 : IPTablesFilter.subprocess_run)
    (cmds1 : list IPTablesFilter.command) :
  IPTablesFilter.block_ip self ip run1 = (true, cmds1, self1) ->
  IPTablesFilter.block_ip self1 ip run2 = (true, [], self1) /\
  ip ∈ IPTablesFilter.blocked_ips self1 /\
  (length cmds1 <= 1)%nat.
Proof.
  unfold IPTablesFilter.block_ip at 1.
  destruct (bool_decide (ip ∈ IPTablesFilter.blocked_ips self)) eqn:Hin.
  - intros [= <- <-]. apply bool_decide_eq_true in Hin.
    unfold IPTablesFilter.block_ip. rewrite bool_decide_eq_true_2 by exact Hin.
    repeat split; [exact Hin|simpl; lia].
  - destruct (String.prefix "127." ip || String.eqb ip "0.0.0.0"); [discriminate|].
    destruct (run1 (IPTablesFilter.block_command ip)) as [result|e]; [|discriminate].
    destruct (IPTablesFilter.returncode result =? 0); [|discriminate].
    intros [= <- <-].
    assert (Hin' : ip ∈ IPTablesFilter.blocked_ips
                     {| IPTablesFilter.blocked_ips :=
                          IPTablesFilter.blocked_ips self ∪ {[ip]} |}).
    { simpl. apply elem_of_union. right. apply elem_of_singleton. reflexivity. }
    unfold IPTablesFilter.block_ip. rewrite bool_decide_eq_true_2 by exact Hin'.
    repeat split; [exact Hin'|simpl; lia].
Qed.

Lemma block_ip_idempotent_witness :
  IPTablesFilter.block_ip IPTablesFilter.init "203.0.113.7" (exits_with 0)
  = (true, [IPTablesFilter.block_command "203.0.113.7"],
     {| IPTablesFilter.blocked_ips := ∅ ∪ {["203.0.113.7"%string]} |}) /\
  IPTablesFilter.block_ip
    {| IPTablesFilter.blocked_ips := ∅ ∪ {["203.0.113.7"%string]} |}
    "203.0.113.7" times_out
  = (true, [], {| IPTablesFilter.blocked_ips := ∅ ∪ {["203.0.113.7"%string]} |}).
Proof.
  assert (H1 : IPTablesFilter.block_ip IPTablesFilter.init "203.0.113.7" (exits_with 0)
    = (true, [IPTablesFilter.block_command "203.0.113.7"],
       {| IPTablesFilter.blocked_ips := ∅ ∪ {["203.0.113.7"%string]} |}))
    by reflexivity.
  split; [exact H1|].
  exact (proj1 (block_ip_idempotent _ _ _ _ times_out _ H1)).
Defined.

(** C8. On a filter created empty and changed only by its methods, blocking
    a loopback address (127.b.c.d) or the unspecified address (0.0.0.0)
    returns failure, invokes no command and leaves the blocked set as it
    is, so that the address is not in it. *)
Theorem block_ip_refuses_loopback (self : IPTablesFilter.t)
    (run : IPTablesFilter.subprocess_run) (b c d : N) :
  IPTablesFilter.reachable self ->
  (IPTablesFilter.block_ip self (dotted 127 b c d) run = (false, [], self) /\
   dotted 127 b c d ∉ IPTablesFilter.blocked_ips self) /\
  (IPTablesFilter.block_ip self (dotted 0 0 0 0) run = (false, [], self) /\
   dotted 0 0 0 0 ∉ IPTablesFilter.blocked_ips self).
Proof.
  intros Hr.
  assert (Hnot : forall ip, refused ip = true ->
                   ip ∉ IPTablesFilter.blocked_ips self).
  { intros ip Href Hin. rewrite (reachable_not_refused self Hr ip Hin) in Href.
    discriminate. }
  split; (split; [apply block_ip_refused|]);
    auto using loopback_refused, unspecified_refused.
Qed.

Lemma block_ip_refuses_loopback_witness :
  IPTablesFilter.reachable
    (IPTablesFilter.block_ip IPTablesFilter.init "203.0.113.7" (exits_with 0)).2 /\
  IPTablesFilter.block_ip
    (IPTablesFilter.block_ip IPTablesFilter.init "203.0.113.7" (exits_with 0)).2
    "127.0.0.1" (exits_with 0)
  = (false, [],
     (IPTablesFilter.block_ip IPTablesFilter.init "203.0.113.7" (exits_with 0)).2).
Proof.
  assert (Hr : IPTablesFilter.reachable
    (IPTablesFilter.block_ip IPTablesFilter.init "203.0.113.7" (exits_with 0)).2)
    by (apply IPTablesFilter.reachable_block, IPTablesFilter.reachable_init).
  split; [exact Hr|].
  exact (proj1 (proj1 (block_ip_refuses_loopback _ (exits_with 0) 0 0 1 Hr))).
Defined.

(** C10. [unblock_ip] removes the address from the blocked set and returns
    success whenever the delete command completes, whatever its exit code;
    it returns failure, the blocked set unchanged, exactly when the
    invocation raises. In both cases the command is invoked once. *)
Theorem unblock_ip_outcome (self : IPTablesFilter.t) (ip : string)
    (run : IPTablesFilter.subprocess_run) :
  match run (IPTablesFilter.unblock_command ip) with
  | Ok _ =>
      IPTablesFilter.unblock_ip self ip run
      = (true, [IPTablesFilter.unblock_command ip],
         {| IPTablesFilter.blocked_ips := IPTablesFilter.blocked_ips self ∖ {[ip]} |})
      /\ ip ∉ IPTablesFilter.blocked_ips (IPTablesFilter.unblock_ip self ip run).2
  | Raise _ =>
      IPTablesFilter.unblock_ip self ip run
      = (false, [IPTablesFilter.unblock_command ip], self)
  end.
Proof.
  unfold IPTablesFilter.unblock_ip.
  destruct (run (IPTablesFilter.unblock_command ip)); [|reflexivity].
  split; [reflexivity|]. simpl. rewrite elem_of_difference, elem_of_singleton.
  tauto.
Qed.

(** A delete command that exits with a non-zero code still unblocks. *)
Example unblock_nonzero_exit :
  IPTablesFilter.unblock_ip
    {| IPTablesFilter.blocked_ips := {["203.0.113.7"%string]} |}
    "203.0.113.7" (exits_with 1)
  = (true, [IPTablesFilter.unblock_command "203.0.113.7"],
     {| IPTablesFilter.blocked_ips := {["203.0.113.7"%string]} ∖ {["203.0.113.7"%string]} |}).
Proof. reflexivity. Qed.

Lemma flow_key_symmetric_witness :
  endpoints (tcp_packet 60 "10.0.0.9" "10.0.0.2" 40000 80 2)
    = Some (("10.0.0.9"%string, 40000), ("10.0.0.2"%string, 80), 6) /\
  endpoints (tcp_packet 60 "10.0.0.2" "10.0.0.9" 80 40000 18)
    = Some (("10.0.0.2"%string, 80), ("10.0.0.9"%string, 40000), 6) /\
  FlowMeter.get_flow_key (tcp_packet 60 "10.0.0.9" "10.0.0.2" 40000 80 2)
    = FlowMeter.get_flow_key (tcp_packet 60 "10.0.0.2" "10.0.0.9" 80 40000 18).
Proof.
  split; [reflexivity|]. split; [reflexivity|].
  destruct (flow_key_symmetric
              (tcp_packet 60 "10.0.0.9" "10.0.0.2" 40000 80 2)
              (tcp_packet 60 "10.0.0.2" "10.0.0.9" 80 40000 18)
              _ _ _ eq_refl eq_refl) as (k & H1 & H2 & _).
  rewrite H1, H2. reflexivity.
Defined.

(** ** The pipeline *)

Lemma flowmeter_process_packet_built (fm fm' : FlowMeter.t) (packet : Packet)
    (timestamp : Z) (updated : option (FlowMeter.FlowKey * Flow.t)) :
  FlowMeter.process_packet fm packet timestamp = (updated, fm') ->
  map_Forall (fun _ f => Flow.built f) (FlowMeter.flows fm) ->
  map_Forall (fun _ f => Flow.built f) (FlowMeter.flows fm') /\
  match updated with
  | Some (_, flow) => Flow.built flow
  | None => True
  end.
Proof.
  unfold FlowMeter.process_packet. intros Heq Hall.
  destruct (FlowMeter.get_flow_key packet) as [key|].
  - assert (Hb : Flow.built
      match FlowMeter.flows fm !! key with
      | Some flow => flow
      | None =>
          let '(src_ip, dst_ip, src_port, dst_port, protocol) := key in
          Flow.init src_ip dst_ip src_port dst_port protocol
      end).
    { destruct (FlowMeter.flows fm !! key) as [flow|] eqn:E.
      - exact (Hall _ _ E).
      - destruct key as [[[[a b] c] d] e]. apply Flow.built_init. }
    injection Heq as <- <-. simpl. split.
    + apply map_Forall_insert_2; [|exact Hall]. apply Flow.built_add, Hb.
    + apply Flow.built_add, Hb.
  - injection Heq as <- <-. split; [exact Hall|exact I].
Qed.

Lemma cleanup_old_flows_built (fm : FlowMeter.t) (now : Z) :
  map_Forall (fun _ f => Flow.built f) (FlowMeter.flows fm) ->
  map_Forall (fun _ f => Flow.built f)
    (FlowMeter.flows (FlowMeter.cleanup_old_flows fm now).2).
Proof.
  intros Hall k f Hk. simpl in Hk.
  apply map_lookup_filter_Some in Hk as [Hk _]. exact (Hall _ _ Hk).
Qed.

Lemma with_endpoints_other (features : gmap string value) (flow : Flow.t)
    (k : string) (dflt : value) :
  k ∉ ["protocol"; "dst_port"; "src_port"; "dst_ip"; "src_ip"]%string ->
  dict_get (DDoSDetectionSystem.with_endpoints features flow) k dflt
  = dict_get features k dflt.
Proof.
  intros Hk. rewrite !not_elem_of_cons in Hk.
  destruct Hk as (H1 & H2 & H3 & H4 & H5 & _).
  unfold dict_get, DDoSDetectionSystem.with_endpoints.
  rewrite !lookup_insert_ne by congruence. reflexivity.
Qed.

Lemma with_endpoints_src_ip (features : gmap string value) (flow : Flow.t)
    (dflt : value) :
  dict_get (DDoSDetectionSystem.with_endpoints features flow) "src_ip" dflt
  = VStr (Flow.src_ip flow).
Proof.
  unfold dict_get, DDoSDetectionSystem.with_endpoints.
  rewrite !lookup_insert_ne by discriminate. rewrite lookup_insert_eq.
  reflexivity.
Qed.

(** The value of a key that is not one of the five endpoint keys. *)
Ltac other_key :=
  rewrite with_endpoints_other
    by (rewrite !not_elem_of_cons; repeat split;
        first [discriminate | apply not_elem_of_nil]).

(** The number bound to [key] by the extraction, with its expression. *)
Ltac get_entry f Hf key :=
  let Hin := fresh "Hin" in
  let v := fresh "v" in
  let Hv := fresh "Hv" in
  let Hl := fresh "Hl" in
  eassert (Hin : (key, _) ∈ Flow.feature_entries f) by find_entry;
  destruct (extract_features_lookup f _ key _ Hf Hin) as (v & Hv & Hl);
  clear Hin; unfold dict_get; rewrite Hl; cbn [default from_option id];
  clear Hl.

Section PipelineFeatures.
Context `{FloatOps}.

Lemma pipeline_features_wf (flow : Flow.t) (feats : gmap string value) :
  Flow.built flow -> (Flow.extract_features flow).1 = Ok feats ->
  well_formed (DDoSDetectionSystem.with_endpoints feats flow) = true.
Proof.
  intros Hb Hf. destruct (built_counts flow Hb) as [Hack Hbwd].
  unfold well_formed. repeat other_key.
  get_entry flow Hf "flow_packets_per_sec"%string.
  get_entry flow Hf "syn_flag_count"%string.
  get_entry flow Hf "ack_flag_count"%string.
  get_entry flow Hf "flow_bytes_per_sec"%string.
  get_entry flow Hf "avg_pkt_size"%string.
  get_entry flow Hf "total_fwd_packets"%string.
  get_entry flow Hf "total_bwd_packets"%string.
  cbn [is_number is_count andb].
  injection Hv1 as <-. injection Hv5 as <-.
  rewrite !andb_true_iff. repeat split;
    apply Qle_bool_iff; rewrite <- (Zle_Qle 0); assumption.
Qed.

Lemma rounded_ok (flow : Flow.t) (feats : gmap string value) :
  (Flow.extract_features flow).1 = Ok feats ->
  let features := DDoSDetectionSystem.with_endpoints feats flow in
  is_ok (JSONLogger.rounded features "flow_packets_per_sec") = true /\
  is_ok (JSONLogger.rounded features "flow_bytes_per_sec") = true /\
  is_ok (JSONLogger.rounded features "avg_pkt_size") = true.
Proof.
  intros Hf. cbn zeta. unfold JSONLogger.rounded. repeat other_key.
  get_entry flow Hf "flow_packets_per_sec"%string.
  get_entry flow Hf "flow_bytes_per_sec"%string.
  get_entry flow Hf "avg_pkt_size"%string.
  repeat split.
Qed.

End PipelineFeatures.

Section PipelineSteps.
Context `{FloatOps}.

Lemma predict_ok (self : MLClassifier.t) (features : gmap string value) :
  well_formed features = true ->
  exists p, MLClassifier.predict self features = Ok p.
Proof.
  intros Hwf.
  destruct (heuristic_detection_closed features Hwf)
    as (pps & syn & ack & bps & avg & fwd & bwd & _ & _ & _ & Heq).
  unfold MLClassifier.predict.
  destruct (MLClassifier.use_heuristics self); [eauto|].
  destruct (MLClassifier.model_prediction self features); simpl; eauto.
Qed.

Lemma with_flowmeter_inv (s : DDoSDetectionSystem.t) (fm : FlowMeter.t)
    (count : Z) :
  sys_inv s ->
  map_Forall (fun _ f => Flow.built f) (FlowMeter.flows fm) ->
  sys_inv (DDoSDetectionSystem.with_flowmeter s fm count).
Proof.
  unfold sys_inv. intros (Hc & _ & Hr & Hsub & Hlog & Hnd) Hall.
  simpl. repeat split; assumption.
Qed.

Lemma process_packet_spec (s : DDoSDetectionSystem.t) (running : bool)
    (packet : Packet) (env : DDoSDetectionSystem.Env) :
  sys_inv s ->
  exists s' cmds,
    DDoSDetectionSystem.process_packet s running packet env = Ok (s', cmds) /\
    sys_inv s' /\
    ((JSONLogger.logs (DDoSDetectionSystem.logger s')
        = JSONLogger.logs (DDoSDetectionSystem.logger s) /\
      DDoSDetectionSystem.filter s' = DDoSDetectionSystem.filter s /\
      DDoSDetectionSystem.malicious_ips s' = DDoSDetectionSystem.malicious_ips s /\
      cmds = []) \/
     (exists entry a blocked,
        JSONLogger.logs (DDoSDetectionSystem.logger s')
          = JSONLogger.logs (DDoSDetectionSystem.logger s) ++ [entry] /\
        JSONLogger.src_ip entry = VStr a /\
        (a ∉ DDoSDetectionSystem.malicious_ips s) /\
        DDoSDetectionSystem.malicious_ips s'
          = DDoSDetectionSystem.malicious_ips s ∪ {[a]} /\
        IPTablesFilter.block_ip (DDoSDetectionSystem.filter s) a
          (DDoSDetectionSystem.run env)
          = (blocked, cmds, DDoSDetectionSystem.filter s') /\
        JSONLogger.action entry
          = (if blocked then "blocked" else "detected")%string /\
        exists flow_key flow fm feats p,
          running = true /\
          FlowMeter.process_packet (DDoSDetectionSystem.flowmeter s) packet
            (DDoSDetectionSystem.now env) = (Some (flow_key, flow), fm) /\
          a = Flow.src_ip flow /\
          DDoSDetectionSystem.min_packets_for_detection s
            <= Flow.fwd_packets flow + Flow.bwd_packets flow /\
          (Flow.fwd_packets flow + Flow.bwd_packets flow) mod 10 = 0 /\
          (Flow.extract_features flow).1 = Ok feats /\
          MLClassifier.predict (DDoSDetectionSystem.classifier s)
            (DDoSDetectionSystem.with_endpoints feats flow) = Ok p /\
          (DDoSDetectionSystem.unpack p).1.1.1 = true)).
Proof.
  intros Hinv. unfold DDoSDetectionSystem.process_packet.
  destruct running; cbn [negb].
  2:{ exists s, []. split; [reflexivity|]. split; [exact Hinv|]. left. auto. }
  destruct (FlowMeter.process_packet (DDoSDetectionSystem.flowmeter s) packet
              (DDoSDetectionSystem.now env)) as [updated fm] eqn:Efm.
  destruct Hinv as (Hc & Hall & Hr & Hsub & Hlog & Hnd).
  destruct (flowmeter_process_packet_built _ _ _ _ _ Efm Hall) as [Hall' Hupd].
  assert (Hinv1 : sys_inv (DDoSDetectionSystem.with_flowmeter s fm
                             (DDoSDetectionSystem.packet_count s + 1))).
  { apply with_flowmeter_inv; [|exact Hall']. repeat split; assumption. }
  destruct updated as [[flow_key flow]|].
  2:{ eexists _, []. split; [reflexivity|]. split; [exact Hinv1|]. left. auto. }
  set (count := DDoSDetectionSystem.packet_count s + 1) in *.
  set (s1 := DDoSDetectionSystem.with_flowmeter s fm count) in *.
  destruct (_ <? DDoSDetectionSystem.min_packets_for_detection s1) eqn:Emin.
  { eexists _, []. split; [reflexivity|]. split; [exact Hinv1|]. left. auto. }
  replace (DDoSDetectionSystem.check_interval s1) with 10 by (symmetry; exact Hc).
  unfold py_mod. cbn [Z.eqb mbind result_bind].
  destruct (negb (_ =? 0)) eqn:Emod.
  { eexists _, []. split; [reflexivity|]. split; [exact Hinv1|]. left. auto. }
  destruct (extract_features_total flow) as [feats Hf]. rewrite Hf.
  assert (Hf1 : (Flow.extract_features flow).1 = Ok feats)
    by (rewrite Hf; reflexivity).
  cbn [mbind result_bind].
  set (fm2 := {| FlowMeter.flows := <[flow_key:=flow]> (FlowMeter.flows fm);
                 FlowMeter.timeout := FlowMeter.timeout fm |}).
  set (s2 := DDoSDetectionSystem.with_flowmeter s1 fm2 count).
  assert (Hinv2 : sys_inv s2).
  { apply with_flowmeter_inv; [exact Hinv1|].
    apply map_Forall_insert_2; assumption. }
  set (features := DDoSDetectionSystem.with_endpoints feats flow).
  destruct (predict_ok (DDoSDetectionSystem.classifier s2) features
              (pipeline_features_wf flow feats Hupd Hf1)) as [p Hp].
  rewrite Hp. cbn [mbind result_bind].
  destruct (DDoSDetectionSystem.unpack p)
    as [[[is_malicious label] confidence] reasons] eqn:Eunpack.
  destruct is_malicious; cbn [negb].
  2:{ eexists _, []. split; [reflexivity|]. split; [exact Hinv2|]. left. auto. }
  destruct (bool_decide (Flow.src_ip flow ∈ DDoSDetectionSystem.malicious_ips s2))
    eqn:Eseen.
  { eexists _, []. split; [reflexivity|]. split; [exact Hinv2|]. left. auto. }
  apply bool_decide_eq_false in Eseen.
  destruct (IPTablesFilter.block_ip (DDoSDetectionSystem.filter s2)
              (Flow.src_ip flow) (DDoSDetectionSystem.run env))
    as [[blocked cmds] filter'] eqn:Eblock.
  unfold JSONLogger.log_detection.
  destruct (rounded_ok flow feats Hf1) as (Hr1 & Hr2 & Hr3).
  apply is_ok_spec in Hr1 as [r1 Hr1], Hr2 as [r2 Hr2], Hr3 as [r3 Hr3].
  fold features in Hr1, Hr2, Hr3. rewrite Hr1, Hr2, Hr3.
  cbn [mbind result_bind snd fst].
  eexists _, cmds. split; [reflexivity|].
  match goal with
  | |- context [ _ ++ [?e] ] => set (entry := e)
  end.
  assert (Hsrc : JSONLogger.src_ip entry = VStr (Flow.src_ip flow))
    by exact (with_endpoints_src_ip feats flow _).
  assert (Hact : JSONLogger.action entry
                 = (if blocked then "blocked" else "detected")%string)
    by reflexivity.
  clearbody entry.
  destruct Hinv2 as (Hc2 & Hall2 & Hreach2 & Hsub2 & Hlog2 & Hnd2).
  split.
  - unfold sys_inv.
    cbn [DDoSDetectionSystem.check_interval DDoSDetectionSystem.flowmeter
         DDoSDetectionSystem.filter DDoSDetectionSystem.logger
         DDoSDetectionSystem.malicious_ips JSONLogger.logs].
    split; [exact Hc2|]. split; [exact Hall2|].
    assert (Hfilter : filter'
      = (IPTablesFilter.block_ip (DDoSDetectionSystem.filter s2)
           (Flow.src_ip flow) (DDoSDetectionSystem.run env)).2)
      by (rewrite Eblock; reflexivity).
    split; [rewrite Hfilter; apply IPTablesFilter.reachable_block, Hreach2|].
    split.
    { intros x Hx. rewrite Hfilter in Hx.
      apply block_ip_blocked in Hx as [Hx|[-> _]].
      - apply elem_of_union. left. apply Hsub2, Hx.
      - apply elem_of_union. right. apply elem_of_singleton. reflexivity. }
    split.
    { intros e He. apply elem_of_app in He as [He|He].
      - destruct (Hlog2 e He) as (a & Ha & Hin). exists a. split; [exact Ha|].
        apply elem_of_union. left. exact Hin.
      - apply list_elem_of_singleton in He. subst e.
        exists (Flow.src_ip flow). split; [exact Hsrc|].
        apply elem_of_union. right. apply elem_of_singleton. reflexivity. }
    rewrite fmap_app. apply NoDup_app. split; [exact Hnd2|]. split.
    + intros x Hx Hx'. simpl in Hx'. apply list_elem_of_singleton in Hx'.
      apply list_elem_of_fmap in Hx as (e & He & Hin).
      destruct (Hlog2 e Hin) as (a & Ha & Hmal).
      rewrite Hx', Hsrc in He. rewrite Ha in He. injection He as He.
      apply Eseen. rewrite He. exact Hmal.
    + simpl. apply NoDup_singleton.
  - right. exists entry, (Flow.src_ip flow), blocked.
    split; [reflexivity|]. split; [exact Hsrc|]. split; [exact Eseen|].
    split; [reflexivity|]. split; [exact Eblock|]. split; [exact Hact|].
    exists flow_key, flow, fm, feats, p.
    split; [reflexivity|]. split; [reflexivity|]. split; [reflexivity|].
    split; [apply Z.ltb_ge in Emin; exact Emin|].
    split; [apply negb_false_iff, Z.eqb_eq in Emod; exact Emod|].
    split; [exact Hf1|]. split; [exact Hp|]. rewrite Eunpack. reflexivity.
Qed.

Lemma init_inv (model_file : option (result MLClassifier.Artifact))
    (log_file : string) :
  sys_inv (DDoSDetectionSystem.init model_file log_file).
Proof.
  unfold sys_inv. simpl.
  split; [reflexivity|]. split; [apply map_Forall_empty|].
  split; [apply IPTablesFilter.reachable_init|].
  split; [reflexivity|].
  split; [intros entry Hin; inversion Hin|apply NoDup_nil_2].
Qed.

Lemma step_inv (w : DDoSDetectionSystem.world) (ev : DDoSDetectionSystem.event) :
  sys_inv (DDoSDetectionSystem.system w) ->
  exists w' cmds, DDoSDetectionSystem.step w ev = Ok (w', cmds) /\
    sys_inv (DDoSDetectionSystem.system w').
Proof.
  intros Hinv. destruct ev as [packet env|now|]; unfold DDoSDetectionSystem.step.
  - destruct (process_packet_spec _ (DDoSDetectionSystem.running w) packet env Hinv)
      as (s' & cmds & Heq & Hinv' & _).
    rewrite Heq. eexists _, _. split; [reflexivity|exact Hinv'].
  - destruct (FlowMeter.cleanup_old_flows _ now) as [n fm] eqn:E.
    eexists _, _. split; [reflexivity|]. cbn [DDoSDetectionSystem.system].
    apply with_flowmeter_inv; [exact Hinv|].
    replace fm with (FlowMeter.cleanup_old_flows
                       (DDoSDetectionSystem.flowmeter (DDoSDetectionSystem.system w))
                       now).2 by (rewrite E; reflexivity).
    apply cleanup_old_flows_built. apply Hinv.
  - eexists _, _. split; [reflexivity|exact Hinv].
Qed.

Lemma session_inv (evs : list DDoSDetectionSystem.event) :
  forall w, sys_inv (DDoSDetectionSystem.system w) ->
  exists w' cmds, DDoSDetectionSystem.session w evs = Ok (w', cmds) /\
    sys_inv (DDoSDetectionSystem.system w').
Proof.
  induction evs as [|ev evs IH]; intros w Hinv; cbn [DDoSDetectionSystem.session].
  - eexists _, _. split; [reflexivity|exact Hinv].
  - destruct (step_inv w ev Hinv) as (w1 & cmds1 & Hstep & Hinv1).
    rewrite Hstep. cbn [mbind result_bind fst snd].
    destruct (IH w1 Hinv1) as (w2 & cmds2 & Hsess & Hinv2).
    rewrite Hsess. eexists _, _. split; [reflexivity|exact Hinv2].
Qed.

End PipelineSteps.

Lemma records_of_absent (a : string) (logs : list JSONLogger.LogEntry) :
  VStr a ∉ JSONLogger.src_ip <$> logs -> records_of a logs = [].
Proof.
  induction logs as [|entry logs IH]; [reflexivity|].
  rewrite fmap_cons, not_elem_of_cons. intros [Hne Hnot].
  unfold records_of. simpl. fold (records_of a logs).
  destruct (JSONLogger.src_ip entry) as [q|s0]; [exact (IH Hnot)|].
  destruct (String.eqb s0 a) eqn:E; [|exact (IH Hnot)].
  apply String.eqb_eq in E. subst s0. congruence.
Qed.

Lemma records_of_at_most_one (a : string) (logs : list JSONLogger.LogEntry) :
  NoDup (JSONLogger.src_ip <$> logs) -> (length (records_of a logs) <= 1)%nat.
Proof.
  induction logs as [|entry logs IH]; [simpl; lia|].
  rewrite fmap_cons, NoDup_cons. intros [Hnot Hnd].
  unfold records_of. simpl. fold (records_of a logs).
  destruct (JSONLogger.src_ip entry) as [q|s0] eqn:Es; [exact (IH Hnd)|].
  destruct (String.eqb s0 a) eqn:E; [|exact (IH Hnd)].
  apply String.eqb_eq in E. subst s0.
  rewrite (records_of_absent a logs Hnot). simpl. lia.
Qed.


Section Detections.
Context `{FloatOps}.

(** C3. In every session the log holds at most one detection record for
    each address. A call of [process_packet] appends at most one record. It
    appends one only while the system runs, for the flow that the packet
    updates, when the packet count of that flow is a multiple of the
    sampling interval not below the minimum, the features extracted from
    that flow (with its endpoints) are classified as malicious, and the
    source address of that flow was not flagged before and has no record
    yet; the record carries that address, and its action is "blocked" when
    the call of [block_ip] for that address returned success and "detected"
    when it returned failure. *)
Theorem one_record_per_address
    (model_file : option (result MLClassifier.Artifact)) (log_file : string)
    (evs : list DDoSDetectionSystem.event) :
  exists w cmds,
    DDoSDetectionSystem.session (initial_world model_file log_file) evs
      = Ok (w, cmds) /\
    let s := DDoSDetectionSystem.system w in
    let logs := JSONLogger.logs (DDoSDetectionSystem.logger s) in
    (forall a, (length (records_of a logs) <= 1)%nat) /\
    forall packet env, exists s' cmds',
      DDoSDetectionSystem.process_packet s (DDoSDetectionSystem.running w)
        packet env = Ok (s', cmds') /\
      let logs' := JSONLogger.logs (DDoSDetectionSystem.logger s') in
      (logs' = logs \/
       exists entry flow_key flow fm feats p blocked,
         let a := Flow.src_ip flow in
         DDoSDetectionSystem.running w = true /\
         FlowMeter.process_packet (DDoSDetectionSystem.flowmeter s) packet
           (DDoSDetectionSystem.now env) = (Some (flow_key, flow), fm) /\
         DDoSDetectionSystem.min_packets_for_detection s
           <= Flow.fwd_packets flow + Flow.bwd_packets flow /\
         (Flow.fwd_packets flow + Flow.bwd_packets flow) mod 10 = 0 /\
         (Flow.extract_features flow).1 = Ok feats /\
         MLClassifier.predict (DDoSDetectionSystem.classifier s)
           (DDoSDetectionSystem.with_endpoints feats flow) = Ok p /\
         (DDoSDetectionSystem.unpack p).1.1.1 = true /\
         (a ∉ DDoSDetectionSystem.malicious_ips s) /\
         records_of a logs = [] /\
         logs' = logs ++ [entry] /\
         JSONLogger.src_ip entry = VStr a /\
         IPTablesFilter.block_ip (DDoSDetectionSystem.filter s) a
           (DDoSDetectionSystem.run env)
           = (blocked, cmds', DDoSDetectionSystem.filter s') /\
         JSONLogger.action entry
           = (if blocked then "blocked" else "detected")%string).
Proof.
  destruct (session_inv evs (initial_world model_file log_file)
              (init_inv model_file log_file)) as (w & cmds & Hsess & Hinv).
  exists w, cmds. split; [exact Hsess|]. cbn zeta. split.
  - intros a. apply records_of_at_most_one. apply Hinv.
  - intros packet env.
    destruct (process_packet_spec _ (DDoSDetectionSystem.running w) packet env Hinv)
      as (s' & cmds' & Heq & _ & Hcases).
    exists s', cmds'. split; [exact Heq|].
    destruct Hcases as [(Hlogs & _)|(entry & a & blocked & Hlogs & Hsrc & Hnew
                                     & _ & Hblock & Hact & Hpred)].
    + left. exact Hlogs.
    + right.
      destruct Hpred as (flow_key & flow & fm & feats & p & Hrun & Hfm & Ha
                         & Hmin & Hmod & Hfeats & Hp & Hmal).
      subst a.
      exists entry, flow_key, flow, fm, feats, p, blocked.
      split; [exact Hrun|]. split; [exact Hfm|]. split; [exact Hmin|].
      split; [exact Hmod|]. split; [exact Hfeats|]. split; [exact Hp|].
      split; [exact Hmal|]. split; [exact Hnew|]. split.
      { apply records_of_absent. intros Hin.
        apply list_elem_of_fmap in Hin as (e & He & Hin).
        destruct Hinv as (_ & _ & _ & _ & Hlog & _).
        destruct (Hlog e Hin) as (a' & Ha' & Hflag).
        rewrite Ha' in He. injection He as He. rewrite <- He in Hflag.
        exact (Hnew Hflag). }
      split; [exact Hlogs|]. split; [exact Hsrc|]. split; [exact Hblock|].
      exact Hact.
Qed.

End Detections.

(** Twenty packets of a flood are classified twice, after the tenth and
    after the twentieth packet; one record is written, for the first
    classification, and one command is invoked. *)
Example flood_blocked :
  match @DDoSDetectionSystem.session rational_float_ops
          (initial_world None "detections.json") (flood 20 0) with
  | Ok (w, cmds) =>
      let s := DDoSDetectionSystem.system w in
      (JSONLogger.src_ip <$> JSONLogger.logs (DDoSDetectionSystem.logger s),
       JSONLogger.action <$> JSONLogger.logs (DDoSDetectionSystem.logger s),
       IPTablesFilter.list_blocked (DDoSDetectionSystem.filter s),
       cmds)
      = ([VStr "10.0.0.1"], ["blocked"%string], ["10.0.0.1"%string],
         [IPTablesFilter.block_command "10.0.0.1"])
  | Raise _ => False
  end.
Proof. vm_compute. reflexivity. Qed.

(** The same flood while every command fails: the record says "detected"
    and no address is blocked. *)
Example flood_detected :
  match @DDoSDetectionSystem.session rational_float_ops
          (initial_world None "detections.json") (flood 20 1) with
  | Ok (w, cmds) =>
      let s := DDoSDetectionSystem.system w in
      (JSONLogger.src_ip <$> JSONLogger.logs (DDoSDetectionSystem.logger s),
       JSONLogger.action <$> JSONLogger.logs (DDoSDetectionSystem.logger s),
       IPTablesFilter.list_blocked (DDoSDetectionSystem.filter s),
       cmds)
      = ([VStr "10.0.0.1"], ["detected"%string], [],
         [IPTablesFilter.block_command "10.0.0.1"])
  | Raise _ => False
  end.
Proof. vm_compute. reflexivity. Qed.

(** ** More on flow records *)

Lemma sum_sizes_app (l1 l2 : list Z) :
  sum_sizes (l1 ++ l2) = sum_sizes l1 + sum_sizes l2.
Proof.
  unfold sum_sizes. induction l1 as [|x l1 IH]; simpl; [reflexivity|].
  rewrite IH. lia.
Qed.

Lemma add_packet_samples_inv (f : Flow.t) (packet : Packet) (timestamp : Z)
    (is_forward : bool) :
  flow_inv f -> samples_inv f ->
  samples_inv (Flow.add_packet f packet timestamp is_forward).
Proof.
  unfold flow_inv, samples_inv, total_packets.
  intros (Hf & Hb & _) (Hfb & Hbb & Hlf & Hlb & Hfi & Hbi & Hflags).
  rewrite !Forall_cons in Hflags.
  destruct Hflags as (H1 & H2 & H3 & H4 & H5 & H6 & _).
  assert (Hf0 : 0 <= Flow.fwd_packets f) by lia.
  assert (Hb0 : 0 <= Flow.bwd_packets f) by lia.
  assert (Hfn : Flow.last_fwd_time f <> None -> Flow.fwd_packets f <> 0) by tauto.
  assert (Hbn : Flow.last_bwd_time f <> None -> Flow.bwd_packets f <> 0) by tauto.
  assert (Hf1 : Flow.last_fwd_time f = None -> Flow.fwd_packets f = 0) by tauto.
  assert (Hb1 : Flow.last_bwd_time f = None -> Flow.bwd_packets f = 0) by tauto.
  destruct is_forward; cbn [Flow.add_packet Flow.fwd_bytes Flow.bwd_bytes
    Flow.fwd_packet_sizes Flow.bwd_packet_sizes Flow.last_fwd_time
    Flow.last_bwd_time Flow.fwd_packets Flow.bwd_packets Flow.fwd_iat
    Flow.bwd_iat Flow.syn_count Flow.ack_count Flow.fin_count Flow.rst_count
    Flow.psh_count Flow.urg_count];
    rewrite ?sum_sizes_app, ?length_app, !Forall_cons;
    change (sum_sizes [pkt_len packet]) with (pkt_len packet + 0);
    (split_and!; [..|apply Forall_nil]);
    try assumption;
    try lia;
    try (split; [discriminate|lia]);
    try (destruct (tcp_flag packet _); lia).
  - destruct (Flow.last_fwd_time f) as [t0|]; simpl.
    + assert (Flow.fwd_packets f <> 0) by (apply Hfn; discriminate). lia.
    + specialize (Hf1 eq_refl). lia.
  - destruct (Flow.last_bwd_time f) as [t0|]; simpl.
    + assert (Flow.bwd_packets f <> 0) by (apply Hbn; discriminate). lia.
    + specialize (Hb1 eq_refl). lia.
Qed.

Lemma built_samples_inv (f : Flow.t) : Flow.built f -> samples_inv f.
Proof.
  induction 1 as [|f packet timestamp is_forward Hb IH].
  - unfold samples_inv, total_packets. simpl.
    rewrite !Forall_cons.
    split_and!; try reflexivity; try lia; try apply Forall_nil; tauto.
  - apply add_packet_samples_inv; [apply built_inv, Hb|exact IH].
Qed.

(** X1. In a record built by the flow table the packet counter of each
    direction is the number of recorded packet sizes and the byte counter
    is their sum. *)
Theorem counters_match_samples (f : Flow.t) :
  Flow.built f ->
  Flow.fwd_packets f = Z.of_nat (length (Flow.fwd_packet_sizes f)) /\
  Flow.bwd_packets f = Z.of_nat (length (Flow.bwd_packet_sizes f)) /\
  Flow.fwd_bytes f = sum_sizes (Flow.fwd_packet_sizes f) /\
  Flow.bwd_bytes f = sum_sizes (Flow.bwd_packet_sizes f).
Proof.
  intros Hb. destruct (built_inv f Hb) as (Hf & Hbw & _).
  destruct (built_samples_inv f Hb) as (Hfb & Hbb & _).
  repeat split; assumption.
Qed.

Lemma counters_match_samples_witness :
  Flow.built single_packet_flow /\
  Flow.fwd_packets single_packet_flow
    = Z.of_nat (length (Flow.fwd_packet_sizes single_packet_flow)) /\
  Flow.bwd_packets single_packet_flow
    = Z.of_nat (length (Flow.bwd_packet_sizes single_packet_flow)) /\
  Flow.fwd_bytes single_packet_flow
    = sum_sizes (Flow.fwd_packet_sizes single_packet_flow) /\
  Flow.bwd_bytes single_packet_flow
    = sum_sizes (Flow.bwd_packet_sizes single_packet_flow).
Proof.
  assert (Hb : Flow.built single_packet_flow)
    by (apply Flow.built_add, Flow.built_init).
  split; [exact Hb|]. exact (counters_match_samples single_packet_flow Hb).
Defined.

(** X2. In a record built by the flow table each direction holds one
    inter-arrival sample less than it has packets, none when it has no
    packet, and it remembers a last arrival time exactly when it has a
    packet. *)
Theorem inter_arrival_samples (f : Flow.t) :
  Flow.built f ->
  Z.of_nat (length (Flow.fwd_iat f)) = Z.max (Flow.fwd_packets f - 1) 0 /\
  Z.of_nat (length (Flow.bwd_iat f)) = Z.max (Flow.bwd_packets f - 1) 0 /\
  (Flow.last_fwd_time f = None <-> Flow.fwd_packets f = 0) /\
  (Flow.last_bwd_time f = None <-> Flow.bwd_packets f = 0).
Proof.
  intros Hb.
  destruct (built_samples_inv f Hb) as (_ & _ & Hlf & Hlb & Hfi & Hbi & _).
  repeat split; try assumption; try apply Hlf; try apply Hlb.
Qed.

Lemma inter_arrival_samples_witness :
  Flow.built single_packet_flow /\
  Z.of_nat (length (Flow.fwd_iat single_packet_flow))
    = Z.max (Flow.fwd_packets single_packet_flow - 1) 0 /\
  Z.of_nat (length (Flow.bwd_iat single_packet_flow))
    = Z.max (Flow.bwd_packets single_packet_flow - 1) 0 /\
  (Flow.last_fwd_time single_packet_flow = None
   <-> Flow.fwd_packets single_packet_flow = 0) /\
  (Flow.last_bwd_time single_packet_flow = None
   <-> Flow.bwd_packets single_packet_flow = 0).
Proof.
  assert (Hb : Flow.built single_packet_flow)
    by (apply Flow.built_add, Flow.built_init).
  split; [exact Hb|]. exact (inter_arrival_samples single_packet_flow Hb).
Defined.

(** X3. In a record built by the flow table no TCP flag counter is negative
    and none exceeds the number of packets of the record. *)
Theorem flag_counters_bounded (f : Flow.t) :
  Flow.built f ->
  Forall (fun c => 0 <= c <= total_packets f)
    [Flow.syn_count f; Flow.ack_count f; Flow.fin_count f;
     Flow.rst_count f; Flow.psh_count f; Flow.urg_count f].
Proof.
  intros Hb. apply (built_samples_inv f Hb).
Qed.

Lemma flag_counters_bounded_witness :
  Flow.built single_packet_flow /\
  Forall (fun c => 0 <= c <= total_packets single_packet_flow)
    [Flow.syn_count single_packet_flow; Flow.ack_count single_packet_flow;
     Flow.fin_count single_packet_flow; Flow.rst_count single_packet_flow;
     Flow.psh_count single_packet_flow; Flow.urg_count single_packet_flow].
Proof.
  assert (Hb : Flow.built single_packet_flow)
    by (apply Flow.built_add, Flow.built_init).
  split; [exact Hb|]. exact (flag_counters_bounded single_packet_flow Hb).
Defined.

(** *** Arrival times *)




(** *** Relations between the extracted features *)

Section FeatureRelations.
Context `{FloatOps}.


End FeatureRelations.

(** *** Minimum, mean and maximum *)







(** The three values bound to a triple of keys, with their expressions. *)
Ltac get_value f Hf key v Hv Hl :=
  let Hin := fresh "Hin" in
  eassert (Hin : (key, _) ∈ Flow.feature_entries f) by find_entry;
  destruct (extract_features_lookup f _ key _ Hf Hin) as (v & Hv & Hl);
  clear Hin.

Section Ordering.
Context `{FloatOps}.


End Ordering.

(** *** Averages and means *)

Lemma fold_plus_sizes (l : list Z) :
  forall acc, (fold_left Qplus (map inject_Z l) acc == acc + inject_Z (sum_sizes l))%Q.
Proof.
  induction l as [|x l IH]; intros acc; cbn [map fold_left].
  - change (inject_Z (sum_sizes [])) with 0%Q. lra.
  - rewrite IH. change (sum_sizes (x :: l)) with (x + sum_sizes l).
    rewrite inject_Z_plus. lra.
Qed.

(** The average computed from counters that match the samples is the mean
    of the samples. *)
Lemma average_is_mean (l : list Z) (bytes packets : Z) (avg mean : Q) :
  bytes = sum_sizes l -> packets = Z.of_nat (length l) ->
  Flow.div_if_pos bytes packets = Ok avg ->
  Flow.if_nonempty (map inject_Z l) (np_mean (map inject_Z l)) = Ok mean ->
  (avg == mean)%Q.
Proof.
  intros -> ->. destruct l as [|x l].
  - simpl. intros [= <-] [= <-]. reflexivity.
  - unfold Flow.div_if_pos.
    assert (Hpos : 0 < Z.of_nat (length (x :: l))) by (simpl; lia).
    rewrite (proj2 (Z.ltb_lt _ _) Hpos).
    rewrite py_truediv_ok.
    2:{ intros H0. apply (proj1 (inject_Z_injective _ 0)) in H0. lia. }
    cbn [map Flow.if_nonempty np_mean]. intros [= <-] [= <-].
    unfold py_sum. change (inject_Z x :: map inject_Z l) with (map inject_Z (x :: l)).
    rewrite fold_plus_sizes, length_map. rewrite Qplus_0_l. reflexivity.
Qed.

Section Averages.
Context `{FloatOps}.

(** X7. In the features of a record built by the flow table the average
    packet size computed from the byte and packet counters equals the mean
    of the recorded packet sizes, for the flow and for each direction. *)
Theorem averages_are_means (f : Flow.t) :
  Flow.built f ->
  exists feats, Flow.extract_features f = (Ok feats, f) /\
    forall kavg kmean, (kavg, kmean) ∈ average_and_mean ->
    exists avg mean,
      feats !! kavg = Some (VNum avg) /\
      feats !! kmean = Some (VNum mean) /\
      (avg == mean)%Q.
Proof.
  intros Hb. destruct (built_inv f Hb) as (Hf & Hbw & _).
  destruct (built_samples_inv f Hb) as (Hfb & Hbb & _).
  destruct (extract_features_total f) as [feats Hfeat].
  exists feats. split; [exact Hfeat|].
  assert (Hf1 : (Flow.extract_features f).1 = Ok feats)
    by (rewrite Hfeat; reflexivity).
  intros kavg kmean Hk. unfold average_and_mean in Hk.
  repeat (apply elem_of_cons in Hk as [[= -> ->]|Hk]); [..|inversion Hk];
    match goal with
    | |- exists _ _, _ !! ?k1 = _ /\ _ !! ?k2 = _ /\ _ =>
        get_value f Hf1 k1 avg Havg Hl1;
        get_value f Hf1 k2 mean Hmean Hl2
    end;
    exists avg, mean; (split; [exact Hl1|]); (split; [exact Hl2|]).
  - rewrite <- map_app in Hmean.
    apply (average_is_mean _ _ _ _ _ ltac:(reflexivity) ltac:(reflexivity))
      with (2 := Hmean).
    rewrite sum_sizes_app, length_app, Nat2Z.inj_add, <- Hf, <- Hbw, <- Hfb, <- Hbb.
    exact Havg.
  - exact (average_is_mean _ _ _ _ _ Hfb Hf Havg Hmean).
  - exact (average_is_mean _ _ _ _ _ Hbb Hbw Havg Hmean).
Qed.

End Averages.

Lemma averages_are_means_witness :
  Flow.built single_packet_flow /\
  exists feats,
    @Flow.extract_features rational_float_ops single_packet_flow
      = (Ok feats, single_packet_flow) /\
    forall kavg kmean, (kavg, kmean) ∈ average_and_mean ->
    exists avg mean,
      feats !! kavg = Some (VNum avg) /\
      feats !! kmean = Some (VNum mean) /\
      (avg == mean)%Q.
Proof.
  assert (Hb : Flow.built single_packet_flow)
    by (apply Flow.built_add, Flow.built_init).
  split; [exact Hb|].
  exact (@averages_are_means rational_float_ops single_packet_flow Hb).
Defined.

(** *** The keys of a feature dictionary *)

Lemma display_from_dom (entries : list (string * result Q)) :
  forall d0 d, foldl Flow.add_entry (Ok d0) entries = Ok d ->
  dom d = dom d0 ∪ list_to_set entries.*1.
Proof.
  induction entries as [|[k e] entries IH]; intros d0 d; simpl.
  - intros [= ->]. symmetry. apply (right_id_L ∅ (∪)).
  - destruct e as [v|err]; simpl.
    + intros Hd. rewrite (IH _ _ Hd), dom_insert_L.
      rewrite (assoc_L (∪)), (comm_L (∪) {[k]}). reflexivity.
    + rewrite display_raise. discriminate.
Qed.

Section Keys.
Context `{FloatOps}.

(** X8. Feature extraction succeeds on every record, and the dictionary it
    returns binds exactly the 48 feature names, each to a number. *)
Theorem features_fully_populated (f : Flow.t) :
  exists feats, Flow.extract_features f = (Ok feats, f) /\
    dom feats = list_to_set feature_names /\
    size feats = 48%nat /\
    forall k, k ∈ feature_names -> exists q, feats !! k = Some (VNum q).
Proof.
  destruct (extract_features_total f) as [feats Hf].
  exists feats. split; [exact Hf|].
  assert (Hf1 : (Flow.extract_features f).1 = Ok feats) by (rewrite Hf; reflexivity).
  assert (Hdom : dom feats = list_to_set feature_names).
  { unfold Flow.extract_features, Flow.dict_display in Hf1. cbn [fst] in Hf1.
    rewrite (display_from_dom _ _ _ Hf1), dom_empty_L, (left_id_L ∅ (∪)).
    unfold Flow.feature_entries. cbn [fmap list_fmap fst]. reflexivity. }
  split; [exact Hdom|]. split.
  - rewrite <- size_dom, Hdom. rewrite size_list_to_set.
    + reflexivity.
    + apply (bool_decide_unpack _). vm_compute. exact I.
  - intros k Hk.
    assert (Hin : k ∈ dom feats) by (rewrite Hdom; apply elem_of_list_to_set, Hk).
    apply elem_of_dom in Hin as [v Hv].
    destruct (extract_features_numeric f feats k v Hf1 Hv) as [q ->].
    exists q. exact Hv.
Qed.

End Keys.

(** ** More on the flow table *)

Lemma add_packet_total (f : Flow.t) (packet : Packet) (timestamp : Z)
    (is_forward : bool) :
  total_packets (Flow.add_packet f packet timestamp is_forward)
  = total_packets f + 1.
Proof. unfold total_packets. destruct is_forward; simpl; lia. Qed.

Lemma built_total_nonneg (f : Flow.t) : Flow.built f -> 0 <= total_packets f.
Proof.
  intros Hb. destruct (built_inv f Hb) as (Hf & Hbw & _).
  unfold total_packets. lia.
Qed.

(** One arrival: the table keeps its invariant and the count of the key of
    the packet, if it has one, grows by one. *)
Lemma process_packet_counts (fm : FlowMeter.t) (packet : Packet) (timestamp : Z) :
  meter_inv fm ->
  meter_inv (FlowMeter.process_packet fm packet timestamp).2 /\
  forall k,
    packets_at (FlowMeter.process_packet fm packet timestamp).2 k
    = packets_at fm k
      + (if decide (FlowMeter.get_flow_key packet = Some k) then 1 else 0).
Proof.
  intros Hinv. unfold FlowMeter.process_packet.
  destruct (FlowMeter.get_flow_key packet) as [key|]; cbn [snd].
  2:{ split; [exact Hinv|]. intros k.
      destruct (decide (None = Some k)); [discriminate|lia]. }
  set (flow0 := match FlowMeter.flows fm !! key with
                | Some flow => flow
                | None =>
                    let '(src_ip, dst_ip, src_port, dst_port, protocol) := key in
                    Flow.init src_ip dst_ip src_port dst_port protocol
                end).
  assert (H0 : identity flow0 = key /\ Flow.built flow0 /\
               total_packets flow0 = packets_at fm key).
  { unfold flow0, packets_at.
    destruct (FlowMeter.flows fm !! key) as [flow|] eqn:E.
    - destruct (Hinv _ _ E) as (Hid & Hb & _). repeat split; assumption.
    - destruct key as [[[[a b] c] d] e]. repeat split. apply Flow.built_init. }
  destruct H0 as (Hid & Hb & Htotal).
  split.
  - apply map_Forall_insert_2; [|exact Hinv].
    split; [exact Hid|]. split; [apply Flow.built_add, Hb|].
    rewrite add_packet_total. pose proof (built_total_nonneg _ Hb). lia.
  - intros k. unfold packets_at at 1. cbn [FlowMeter.flows].
    destruct (decide (Some key = Some k)) as [[= ->]|Hne].
    + rewrite lookup_insert_eq, add_packet_total. lia.
    + rewrite lookup_insert_ne by congruence. fold (packets_at fm k). lia.
Qed.

Lemma feed_meter_counts (arrivals : list (Packet * Z)) :
  forall fm, meter_inv fm ->
  meter_inv (feed_meter fm arrivals) /\
  forall k, packets_at (feed_meter fm arrivals) k
            = packets_at fm k + arrivals_with_key k arrivals.
Proof.
  induction arrivals as [|[packet ts] arrivals IH]; intros fm Hinv.
  - split; [exact Hinv|]. intros k. unfold arrivals_with_key. simpl. lia.
  - destruct (process_packet_counts fm packet ts Hinv) as [Hinv1 Hcount1].
    destruct (IH _ Hinv1) as [Hinv2 Hcount2].
    split; [exact Hinv2|]. intros k.
    change (feed_meter fm ((packet, ts) :: arrivals))
      with (feed_meter (FlowMeter.process_packet fm packet ts).2 arrivals).
    rewrite Hcount2, Hcount1. unfold arrivals_with_key.
    rewrite filter_cons. simpl.
    destruct (decide (FlowMeter.get_flow_key packet = Some k)); simpl; lia.
Qed.

(** X9. A flow table that starts empty and receives a sequence of packets
    records, for every flow key, exactly as many packets as arrived with
    that key: it holds a flow for a key if and only if a packet with that
    key arrived, the packet counters of that flow add up to the number of
    such packets, and the flow carries the endpoints of its key. Packets
    without an IP layer are counted nowhere. *)
Theorem flow_table_counts_packets (timeout : Z) (arrivals : list (Packet * Z))
    (k : FlowMeter.FlowKey) :
  let fm := feed_meter (FlowMeter.init timeout) arrivals in
  match FlowMeter.flows fm !! k with
  | Some f =>
      Flow.fwd_packets f + Flow.bwd_packets f = arrivals_with_key k arrivals /\
      1 <= arrivals_with_key k arrivals /\
      identity f = k
  | None => arrivals_with_key k arrivals = 0
  end.
Proof.
  cbn zeta.
  assert (Hinit : meter_inv (FlowMeter.init timeout)) by apply map_Forall_empty.
  destruct (feed_meter_counts arrivals _ Hinit) as [Hinv Hcount].
  specialize (Hcount k). unfold packets_at in Hcount. simpl in Hcount.
  rewrite lookup_empty in Hcount.
  destruct (FlowMeter.flows (feed_meter (FlowMeter.init timeout) arrivals) !! k)
    as [f|] eqn:E.
  - destruct (Hinv _ _ E) as (Hid & _ & Hone).
    unfold total_packets in *. repeat split; [lia|lia|exact Hid].
  - lia.
Qed.

(** X10. Direction is recovered from the source address alone. Of two IP
    packets with swapped endpoints and different addresses exactly one is
    forward for their common key; when the two addresses are equal both
    are forward, whatever their ports. *)
Theorem direction_of_swapped_packets (p1 p2 : Packet) (s d : string * Z)
    (proto : Z) (k : FlowMeter.FlowKey) :
  endpoints p1 = Some (s, d, proto) ->
  endpoints p2 = Some (d, s, proto) ->
  FlowMeter.get_flow_key p1 = Some k ->
  FlowMeter.get_flow_key p2 = Some k /\
  (s.1 <> d.1 ->
     FlowMeter.is_forward p1 k = negb (FlowMeter.is_forward p2 k)) /\
  (s.1 = d.1 ->
     FlowMeter.is_forward p1 k = true /\ FlowMeter.is_forward p2 k = true).
Proof.
  intros H1 H2 Hk.
  assert (Hk2 : FlowMeter.get_flow_key p2 = Some k).
  { revert Hk. unfold endpoints, FlowMeter.get_flow_key in *.
    destruct (pkt_ip p1) as [ip1|]; [|discriminate].
    destruct (pkt_ip p2) as [ip2|]; [|discriminate].
    destruct (FlowMeter.ports p1) as [sp1 dp1], (FlowMeter.ports p2) as [sp2 dp2].
    simpl in *. injection H1 as <- <- <-. injection H2 as -> -> -> -> ->.
    destruct (FlowMeter.pair_lt (ip_src ip1, sp1) (ip_dst ip1, dp1)) eqn:E.
    - rewrite (pair_lt_asym _ _ E). trivial.
    - destruct (FlowMeter.pair_lt (ip_dst ip1, dp1) (ip_src ip1, sp1)) eqn:E';
        [trivial|].
      injection (pair_lt_total _ _ E E') as Ha Hq. rewrite Ha, Hq. trivial. }
  split; [exact Hk2|].
  revert Hk. unfold endpoints, FlowMeter.get_flow_key, FlowMeter.is_forward in *.
  destruct (pkt_ip p1) as [ip1|]; [|discriminate].
  destruct (pkt_ip p2) as [ip2|]; [|discriminate].
  destruct (FlowMeter.ports p1) as [sp1 dp1].
  simpl in *. injection H1 as <- <- <-. injection H2 as Hs2 _ Hd2 _ _.
  rewrite Hs2. simpl.
  destruct (FlowMeter.pair_lt (ip_src ip1, sp1) (ip_dst ip1, dp1));
    intros [= <-]; simpl; rewrite ?String.eqb_refl; split.
  - intros Hne. symmetry. apply negb_true_iff, String.eqb_neq. congruence.
  - intros Heq. rewrite Heq, String.eqb_refl. auto.
  - intros Hne. apply String.eqb_neq. congruence.
  - intros Heq. rewrite Heq, String.eqb_refl. auto.
Qed.

Lemma direction_of_swapped_packets_witness :
  endpoints (udp_packet 80 "10.0.0.5" "10.0.0.5" 5353 53)
    = Some (("10.0.0.5"%string, 5353), ("10.0.0.5"%string, 53), 17) /\
  endpoints (udp_packet 120 "10.0.0.5" "10.0.0.5" 53 5353)
    = Some (("10.0.0.5"%string, 53), ("10.0.0.5"%string, 5353), 17) /\
  FlowMeter.get_flow_key (udp_packet 80 "10.0.0.5" "10.0.0.5" 5353 53)
    = Some ("10.0.0.5"%string, "10.0.0.5"%string, 53, 5353, 17) /\
  FlowMeter.is_forward (udp_packet 80 "10.0.0.5" "10.0.0.5" 5353 53)
    ("10.0.0.5"%string, "10.0.0.5"%string, 53, 5353, 17) = true /\
  FlowMeter.is_forward (udp_packet 120 "10.0.0.5" "10.0.0.5" 53 5353)
    ("10.0.0.5"%string, "10.0.0.5"%string, 53, 5353, 17) = true.
Proof.
  split; [reflexivity|]. split; [reflexivity|]. split; [reflexivity|].
  exact (proj2 (proj2 (direction_of_swapped_packets
                         (udp_packet 80 "10.0.0.5" "10.0.0.5" 5353 53)
                         (udp_packet 120 "10.0.0.5" "10.0.0.5" 53 5353)
                         _ _ _ _ eq_refl eq_refl eq_refl)) eq_refl).
Defined.


(** The boundary of expiry: a flow idle for exactly the timeout is kept,
    one idle for a microsecond longer is expired. *)
Example expiry_boundary :
  FlowMeter.expired 120 (1700000000000000 + 120000000) single_packet_flow = false /\
  FlowMeter.expired 120 (1700000000000000 + 120000001) single_packet_flow = true.
Proof. split; reflexivity. Qed.

(** ** More on classification *)

(** On a well-formed dictionary the rules return the verdict for the
    numbers they read. *)
Lemma heuristic_detection_numbers (features : gmap string value) :
  well_formed features = true ->
  (0 <= number_at features "ack_flag_count")%Q /\
  (0 <= number_at features "total_bwd_packets")%Q /\
  MLClassifier.heuristic_detection features
  = Ok (verdict (triggered_rules
                   (number_at features "flow_packets_per_sec")
                   (number_at features "syn_flag_count")
                   (number_at features "ack_flag_count")
                   (number_at features "flow_bytes_per_sec")
                   (number_at features "avg_pkt_size")
                   (number_at features "total_fwd_packets")
                   (number_at features "total_bwd_packets"))).
Proof.
  unfold well_formed, number_at. rewrite !andb_true_iff.
  intros ((((((Hpps & Hsyn) & Hack) & Hbps) & Havg) & Hfwd) & Hbwd).
  apply is_number_inv in Hpps as [pps Hpps], Hsyn as [syn Hsyn],
    Hbps as [bps Hbps], Havg as [avg Havg], Hfwd as [fwd Hfwd].
  apply is_count_inv in Hack as (ack & Hack & Hack0), Hbwd as (bwd & Hbwd & Hbwd0).
  unfold MLClassifier.heuristic_detection.
  rewrite Hpps, Hsyn, Hack, Hbps, Havg, Hfwd, Hbwd.
  cbn [as_num mbind result_bind MLClassifier.shown].
  split; [exact Hack0|]. split; [exact Hbwd0|].
  unfold triggered_rules.
  rewrite !(skewed_ok _ _ _ Hack0), !(skewed_ok _ _ _ Hbwd0).
  destruct (Qltb 50 syn), (Qltb 100 fwd);
    cbn [mbind result_bind andb]; rewrite <- ?app_assoc; reflexivity.
Qed.

Lemma triggered_rules_length (pps syn ack bps avg_size fwd bwd : Q) :
  (length (triggered_rules pps syn ack bps avg_size fwd bwd) <= 5)%nat.
Proof.
  unfold triggered_rules. rewrite !length_app.
  repeat match goal with
         | |- context [if ?c then _ else _] => destruct c
         end; simpl; lia.
Qed.

Lemma confidence_of_count (n : nat) :
  let c := Qmin (inject_Z (Z.of_nat n) / 3) 1 in
  (0 <= c)%Q /\ (c <= 1)%Q /\
  ((c == 0)%Q <-> n = 0%nat) /\
  ((c == 1)%Q <-> (3 <= n)%nat).
Proof.
  cbn zeta.
  assert (Hn : (0 <= inject_Z (Z.of_nat n))%Q)
    by (rewrite <- (Zle_Qle 0); lia).
  unfold Qdiv. change (/ 3)%Q with (1 # 3)%Q.
  destruct (Q.min_spec (inject_Z (Z.of_nat n) * (1 # 3)) 1)
    as [[Hlt Hmin]|[Hle Hmin]]; rewrite Hmin.
  - assert (Hq : (inject_Z (Z.of_nat n) < inject_Z 3)%Q)
      by (change (inject_Z 3) with 3%Q; lra).
    rewrite <- Zlt_Qlt in Hq.
    split; [lra|]. split; [lra|]. split; split.
    + intros H0. assert (He : (inject_Z (Z.of_nat n) <= inject_Z 0)%Q)
        by (change (inject_Z 0) with 0%Q; lra).
      rewrite <- Zle_Qle in He. lia.
    + intros ->. reflexivity.
    + intros H1. lra.
    + intros H3. lia.
  - assert (Hq : (inject_Z 3 <= inject_Z (Z.of_nat n))%Q)
      by (change (inject_Z 3) with 3%Q; lra).
    rewrite <- Zle_Qle in Hq.
    split; [discriminate|]. split; [apply Qle_refl|]. split; split.
    + intros H0. discriminate.
    + intros ->. lia.
    + intros _. lia.
    + intros _. reflexivity.
Qed.

(** X12. On a well-formed feature dictionary the verdict of the rules is
    consistent: it is malicious exactly when it has a reason, labelled DDoS
    exactly when malicious, has at most five reasons, and its confidence is
    the number of reasons divided by three, capped at 1: between 0 and 1,
    equal to 0 exactly for a benign verdict and to 1 exactly from three
    reasons on. *)
Theorem verdict_is_consistent (features : gmap string value) :
  well_formed features = true ->
  exists is_malicious label confidence reasons,
    MLClassifier.heuristic_detection features
      = Ok (MLClassifier.Heuristic is_malicious label confidence reasons) /\
    (is_malicious = true <-> reasons <> []) /\
    label = (if is_malicious then "DDoS" else "BENIGN")%string /\
    (length reasons <= 5)%nat /\
    (confidence == Qmin (inject_Z (Z.of_nat (length reasons)) / 3) 1)%Q /\
    (0 <= confidence)%Q /\ (confidence <= 1)%Q /\
    ((confidence == 0)%Q <-> is_malicious = false) /\
    ((confidence == 1)%Q <-> (3 <= length reasons)%nat).
Proof.
  intros Hwf. destruct (heuristic_detection_numbers features Hwf) as (_ & _ & Heq).
  rewrite Heq. unfold verdict.
  match goal with
  | |- context [triggered_rules ?a ?b ?c ?d ?e ?f ?g] =>
      pose proof (triggered_rules_length a b c d e f g) as Hlen;
      generalize dependent (triggered_rules a b c d e f g)
  end.
  intros reasons _ Hlen.
  destruct (confidence_of_count (length reasons)) as (H0 & H1 & Hz & Ho).
  destruct reasons as [|r reasons].
  - eexists _, _, _, _. split; [reflexivity|]. simpl.
    split; [split; [discriminate|congruence]|]. split; [reflexivity|].
    split; [lia|]. split; [reflexivity|]. split; [discriminate|].
    split; [discriminate|]. split; [split; reflexivity|].
    split; [discriminate|lia].
  - eexists _, _, _, _. split; [reflexivity|].
    change (0 <? Z.of_nat (length (r :: reasons))) with true. cbn iota.
    split; [split; [discriminate|reflexivity]|]. split; [reflexivity|].
    split; [exact Hlen|]. split; [reflexivity|]. split; [exact H0|].
    split; [exact H1|]. split; [|exact Ho].
    rewrite Hz. split; discriminate.
Qed.

Lemma verdict_is_consistent_witness :
  well_formed (flag_counts 80 2) = true /\
  exists is_malicious label confidence reasons,
    MLClassifier.heuristic_detection (flag_counts 80 2)
      = Ok (MLClassifier.Heuristic is_malicious label confidence reasons) /\
    (is_malicious = true <-> reasons <> []) /\
    label = (if is_malicious then "DDoS" else "BENIGN")%string /\
    (length reasons <= 5)%nat /\
    (confidence == Qmin (inject_Z (Z.of_nat (length reasons)) / 3) 1)%Q /\
    (0 <= confidence)%Q /\ (confidence <= 1)%Q /\
    ((confidence == 0)%Q <-> is_malicious = false) /\
    ((confidence == 1)%Q <-> (3 <= length reasons)%nat).
Proof.
  split; [reflexivity|]. exact (verdict_is_consistent (flag_counts 80 2) eq_refl).
Defined.

Lemma in_rule (c : bool) (x r : MLClassifier.reason) :
  r ∈ (if c then [x] else []) <-> c = true /\ r = x.
Proof.
  destruct c.
  - rewrite list_elem_of_singleton. tauto.
  - rewrite elem_of_nil. split; [tauto|]. intros [? _]. discriminate.
Qed.

Lemma reported_verdict (reasons : list MLClassifier.reason)
    (r : MLClassifier.reason) :
  reported (verdict reasons) r <-> r ∈ reasons.
Proof. destruct reasons; reflexivity. Qed.

(** X13. On a well-formed feature dictionary each of the rules 1, 3, 4 and 5
    adds its reason, showing the numbers it read, exactly when its
    condition holds: a packet rate above 1000; a byte rate above 10000000;
    an average packet size below 100 with a packet rate above 500; more
    than 100 forward packets with either no backward packet or forward
    packets divided by backward packets plus one above 20. A missing entry
    counts as 0. *)
Theorem rules_fire_exactly (features : gmap string value) :
  well_formed features = true ->
  let pps := number_at features "flow_packets_per_sec" in
  let bps := number_at features "flow_bytes_per_sec" in
  let avg_size := number_at features "avg_pkt_size" in
  let fwd := number_at features "total_fwd_packets" in
  let bwd := number_at features "total_bwd_packets" in
  exists p, MLClassifier.heuristic_detection features = Ok p /\
    (reported p (MLClassifier.HighPacketRate pps) <-> (1000 < pps)%Q) /\
    (reported p (MLClassifier.HighBandwidth bps) <-> (10000000 < bps)%Q) /\
    (reported p (MLClassifier.SmallPackets avg_size)
     <-> (avg_size < 100)%Q /\ (500 < pps)%Q) /\
    (reported p (MLClassifier.Asymmetric fwd bwd)
     <-> (100 < fwd)%Q /\ ((bwd == 0)%Q \/ (20 < fwd / (bwd + 1))%Q)).
Proof.
  intros Hwf. cbn zeta.
  destruct (heuristic_detection_numbers features Hwf) as (_ & _ & Heq).
  eexists. split; [exact Heq|].
  rewrite !reported_verdict. unfold triggered_rules.
  rewrite !elem_of_app, !in_rule, !andb_true_iff, !Qltb_lt, !skew_spec.
  repeat split; intros; try tauto;
    repeat match goal with
           | H : _ \/ _ |- _ => destruct H
           | H : _ /\ _ |- _ => destruct H
           end; try discriminate; try tauto; auto 10.
Qed.

Lemma rules_fire_exactly_witness :
  well_formed (flag_counts 80 2) = true /\
  exists p, MLClassifier.heuristic_detection (flag_counts 80 2) = Ok p /\
    (reported p (MLClassifier.HighPacketRate
                   (number_at (flag_counts 80 2) "flow_packets_per_sec"))
     <-> (1000 < number_at (flag_counts 80 2) "flow_packets_per_sec")%Q).
Proof.
  split; [reflexivity|].
  destruct (rules_fire_exactly (flag_counts 80 2) eq_refl) as (p & Hp & H1 & _).
  exists p. split; [exact Hp|exact H1].
Defined.

(** X14. The rules are partial. When the packet rate of a dictionary is a
    string the rules raise [TypeError]; when it holds more than 50 SYNs and
    an ACK count of -1 they raise [ZeroDivisionError]. Classification then
    raises the same exception in rule mode, and in model mode whenever the
    model path raises: the fallback is not protected. *)
Theorem rules_errors_propagate (self : MLClassifier.t)
    (features : gmap string value) (e : exn) :
  (exists s, features !! "flow_packets_per_sec" = Some (VStr s)) /\ e = TypeError \/
  (is_number (dict_get features "flow_packets_per_sec" (VNum 0)) = true /\
   (50 < number_at features "syn_flag_count")%Q /\
   is_number (dict_get features "syn_flag_count" (VNum 0)) = true /\
   (exists ack, features !! "ack_flag_count" = Some (VNum ack) /\ (ack == -1)%Q) /\
   e = ZeroDivisionError) ->
  MLClassifier.heuristic_detection features = Raise e /\
  (MLClassifier.use_heuristics self = true ->
     MLClassifier.predict self features = Raise e) /\
  (forall e', MLClassifier.model_prediction self features = Raise e' ->
     MLClassifier.predict self features = Raise e).
Proof.
  intros Hcase.
  assert (Hraise : MLClassifier.heuristic_detection features = Raise e).
  { unfold MLClassifier.heuristic_detection.
    destruct Hcase as [([s Hs] & ->)|(Hpps & Hsyn50 & Hsyn & (ack & Hack & Hm1) & ->)].
    - unfold dict_get. rewrite Hs. reflexivity.
    - apply is_number_inv in Hpps as [pps Hpps], Hsyn as [syn Hsyn].
      unfold number_at in Hsyn50. rewrite Hsyn in Hsyn50. simpl in Hsyn50.
      rewrite Hpps, Hsyn. cbn [as_num mbind result_bind].
      rewrite (proj2 (Qltb_lt _ _) Hsyn50).
      unfold dict_get. rewrite Hack. cbn [default from_option id].
      unfold MLClassifier.skewed, py_truediv.
      assert (H0 : Qeq_bool ack 0 = false).
      { destruct (Qeq_bool ack 0) eqn:E; [|reflexivity].
        apply Qeq_bool_iff in E. rewrite E in Hm1. discriminate. }
      assert (H1 : Qeq_bool (ack + 1) 0 = true).
      { apply Qeq_bool_iff. rewrite Hm1. reflexivity. }
      rewrite H0, H1. reflexivity. }
  split; [exact Hraise|]. unfold MLClassifier.predict. split.
  - intros ->. exact Hraise.
  - intros e' He'. destruct (MLClassifier.use_heuristics self); [exact Hraise|].
    rewrite He'. exact Hraise.
Qed.

Lemma rules_errors_propagate_witness :
  (exists s, textual_rate !! "flow_packets_per_sec" = Some (VStr s)) /\
  MLClassifier.model_prediction failing_classifier textual_rate
    = Raise ValueError /\
  MLClassifier.predict failing_classifier textual_rate = Raise TypeError.
Proof.
  assert (Hs : exists s, textual_rate !! "flow_packets_per_sec" = Some (VStr s))
    by (exists "fast"%string; reflexivity).
  split; [exact Hs|]. split; [reflexivity|].
  exact (proj2 (proj2 (rules_errors_propagate failing_classifier textual_rate
                         TypeError (or_introl (conj Hs eq_refl))))
           ValueError eq_refl).
Defined.



(** ** More on the pipeline *)

Lemma flowmeter_process_packet_stored (fm fm' : FlowMeter.t) (packet : Packet)
    (timestamp : Z) (key : FlowMeter.FlowKey) (flow : Flow.t) :
  FlowMeter.process_packet fm packet timestamp = (Some (key, flow), fm') ->
  FlowMeter.flows fm' !! key = Some flow /\
  FlowMeter.get_flow_key packet = Some key.
Proof.
  unfold FlowMeter.process_packet.
  destruct (FlowMeter.get_flow_key packet) as [k|]; [|discriminate].
  intros [= <- <- <-]. split; [apply lookup_insert_eq|reflexivity].
Qed.

Lemma restore_flow (fm : FlowMeter.t) (key : FlowMeter.FlowKey) (flow : Flow.t) :
  FlowMeter.flows fm !! key = Some flow ->
  {| FlowMeter.flows := <[key := flow]> (FlowMeter.flows fm);
     FlowMeter.timeout := FlowMeter.timeout fm |} = fm.
Proof. intros Hk. rewrite insert_id by exact Hk. destruct fm. reflexivity. Qed.

Section PipelineEffects.
Context `{FloatOps}.

(** What a call of [process_packet] that returns has done: nothing when
    the system is stopped; otherwise the packet is counted and handed to
    the flow table, and either nothing else changes, for the reason given,
    or a detection is made for the updated flow. *)
Lemma process_packet_inv (s s' : DDoSDetectionSystem.t) (running : bool)
    (packet : Packet) (env : DDoSDetectionSystem.Env)
    (cmds : list IPTablesFilter.command) :
  DDoSDetectionSystem.process_packet s running packet env = Ok (s', cmds) ->
  let fed := FlowMeter.process_packet (DDoSDetectionSystem.flowmeter s) packet
               (DDoSDetectionSystem.now env) in
  let counted :=
    DDoSDetectionSystem.with_flowmeter s fed.2
      (DDoSDetectionSystem.packet_count s + 1) in
  (running = false /\ s' = s /\ cmds = []) \/
  (running = true /\ s' = counted /\ cmds = [] /\
   (fed.1 = None \/
    exists key flow, fed.1 = Some (key, flow) /\
      (Flow.fwd_packets flow + Flow.bwd_packets flow
         < DDoSDetectionSystem.min_packets_for_detection s \/
       (Flow.fwd_packets flow + Flow.bwd_packets flow)
         mod DDoSDetectionSystem.check_interval s <> 0 \/
       exists feats p,
         (Flow.extract_features flow).1 = Ok feats /\
         MLClassifier.predict (DDoSDetectionSystem.classifier s)
           (DDoSDetectionSystem.with_endpoints feats flow) = Ok p /\
         ((DDoSDetectionSystem.unpack p).1.1.1 = false \/
          Flow.src_ip flow ∈ DDoSDetectionSystem.malicious_ips s)))) \/
  (running = true /\
   exists key flow feats p label confidence reasons blocked filter' entry lg,
     fed.1 = Some (key, flow) /\
     DDoSDetectionSystem.min_packets_for_detection s
       <= Flow.fwd_packets flow + Flow.bwd_packets flow /\
     DDoSDetectionSystem.check_interval s <> 0 /\
     (Flow.fwd_packets flow + Flow.bwd_packets flow)
       mod DDoSDetectionSystem.check_interval s = 0 /\
     (Flow.extract_features flow).1 = Ok feats /\
     MLClassifier.predict (DDoSDetectionSystem.classifier s)
       (DDoSDetectionSystem.with_endpoints feats flow) = Ok p /\
     DDoSDetectionSystem.unpack p = (true, label, confidence, reasons) /\
     (Flow.src_ip flow ∉ DDoSDetectionSystem.malicious_ips s) /\
     IPTablesFilter.block_ip (DDoSDetectionSystem.filter s) (Flow.src_ip flow)
       (DDoSDetectionSystem.run env) = (blocked, cmds, filter') /\
     JSONLogger.log_detection (DDoSDetectionSystem.logger s)
       (DDoSDetectionSystem.with_endpoints feats flow) label confidence
       (if blocked then "blocked" else "detected") reasons
       (DDoSDetectionSystem.log_now env) = Ok (entry, lg) /\
     s' = {| DDoSDetectionSystem.flowmeter := fed.2;
             DDoSDetectionSystem.classifier := DDoSDetectionSystem.classifier s;
             DDoSDetectionSystem.filter := filter';
             DDoSDetectionSystem.logger := lg;
             DDoSDetectionSystem.packet_count :=
               DDoSDetectionSystem.packet_count s + 1;
             DDoSDetectionSystem.flow_count := DDoSDetectionSystem.flow_count s;
             DDoSDetectionSystem.detection_count :=
               DDoSDetectionSystem.detection_count s + 1;
             DDoSDetectionSystem.malicious_ips :=
               DDoSDetectionSystem.malicious_ips s ∪ {[Flow.src_ip flow]};
             DDoSDetectionSystem.check_interval :=
               DDoSDetectionSystem.check_interval s;
             DDoSDetectionSystem.min_packets_for_detection :=
               DDoSDetectionSystem.min_packets_for_detection s |}).
Proof.
  cbn zeta. unfold DDoSDetectionSystem.process_packet.
  destruct running; cbn [negb]; [|intros [= <- <-]; left; auto].
  destruct (FlowMeter.process_packet (DDoSDetectionSystem.flowmeter s) packet
              (DDoSDetectionSystem.now env)) as [updated fm] eqn:Efm.
  cbn [fst snd].
  destruct updated as [[key flow]|];
    [|intros [= <- <-]; right; left; auto].
  destruct (flowmeter_process_packet_stored _ _ _ _ _ _ Efm) as [Hstored _].
  pose proof (restore_flow fm key flow Hstored) as Hrestore.
  set (count := DDoSDetectionSystem.packet_count s + 1).
  set (s1 := DDoSDetectionSystem.with_flowmeter s fm count).
  change (DDoSDetectionSystem.min_packets_for_detection s1)
    with (DDoSDetectionSystem.min_packets_for_detection s).
  change (DDoSDetectionSystem.check_interval s1)
    with (DDoSDetectionSystem.check_interval s).
  destruct (_ <? DDoSDetectionSystem.min_packets_for_detection s) eqn:Emin.
  { intros [= <- <-]. right. left. apply Z.ltb_lt in Emin.
    split; [reflexivity|]. split; [reflexivity|]. split; [reflexivity|].
    right. exists key, flow. split; [reflexivity|]. left. exact Emin. }
  apply Z.ltb_ge in Emin.
  unfold py_mod.
  destruct (DDoSDetectionSystem.check_interval s =? 0) eqn:Eci; [discriminate|].
  apply Z.eqb_neq in Eci. cbn [mbind result_bind].
  destruct (_ =? 0) eqn:Emod; cbn [negb].
  2:{ intros [= <- <-]. right. left. apply Z.eqb_neq in Emod.
      split; [reflexivity|]. split; [reflexivity|]. split; [reflexivity|].
      right. exists key, flow. split; [reflexivity|]. right. left. exact Emod. }
  apply Z.eqb_eq in Emod.
  destruct (extract_features_total flow) as [feats Hf]. rewrite Hf.
  assert (Hf1 : (Flow.extract_features flow).1 = Ok feats)
    by (rewrite Hf; reflexivity).
  cbn [mbind result_bind]. rewrite Hrestore.
  change (DDoSDetectionSystem.with_flowmeter s1 fm count) with s1.
  change (DDoSDetectionSystem.classifier s1)
    with (DDoSDetectionSystem.classifier s).
  destruct (MLClassifier.predict (DDoSDetectionSystem.classifier s)
              (DDoSDetectionSystem.with_endpoints feats flow))
    as [p|e] eqn:Ep; [|discriminate].
  cbn [mbind result_bind].
  destruct (DDoSDetectionSystem.unpack p)
    as [[[is_malicious label] confidence] reasons] eqn:Eunpack.
  destruct is_malicious; cbn [negb].
  2:{ intros [= <- <-]. right. left.
      split; [reflexivity|]. split; [reflexivity|]. split; [reflexivity|].
      right. exists key, flow. split; [reflexivity|]. right. right.
      exists feats, p. split; [exact Hf1|]. split; [exact Ep|].
      left. rewrite Eunpack. reflexivity. }
  change (DDoSDetectionSystem.malicious_ips s1)
    with (DDoSDetectionSystem.malicious_ips s).
  destruct (bool_decide (Flow.src_ip flow ∈ DDoSDetectionSystem.malicious_ips s))
    eqn:Eseen.
  { intros [= <- <-]. right. left. apply bool_decide_eq_true in Eseen.
    split; [reflexivity|]. split; [reflexivity|]. split; [reflexivity|].
    right. exists key, flow. split; [reflexivity|]. right. right.
    exists feats, p. split; [exact Hf1|]. split; [exact Ep|].
    right. exact Eseen. }
  apply bool_decide_eq_false in Eseen.
  change (DDoSDetectionSystem.filter s1) with (DDoSDetectionSystem.filter s).
  change (DDoSDetectionSystem.logger s1) with (DDoSDetectionSystem.logger s).
  destruct (IPTablesFilter.block_ip (DDoSDetectionSystem.filter s)
              (Flow.src_ip flow) (DDoSDetectionSystem.run env))
    as [[blocked cmds0] filter'] eqn:Eblock.
  destruct (JSONLogger.log_detection _ _ _ _ _ _ _) as [[entry lg]|e] eqn:Elog;
    [|discriminate].
  cbn [mbind result_bind snd]. intros [= <- <-]. right. right.
  split; [reflexivity|].
  exists key, flow, feats, p, label, confidence, reasons, blocked, filter', entry, lg.
  repeat split; try assumption; try reflexivity.
Qed.

End PipelineEffects.

(** ** More on the filter *)

(** X16. [block_ip] returns success exactly when the address is in the
    blocked set afterwards; the set only grows, and by the given address
    only; at most one command is invoked, the append command for the
    address, and none exactly when the address is already blocked or
    refused. *)
Theorem block_ip_reports_membership (self : IPTablesFilter.t) (ip : string)
    (run : IPTablesFilter.subprocess_run) :
  let r := IPTablesFilter.block_ip self ip run in
  (r.1.1 = true <-> ip ∈ IPTablesFilter.blocked_ips r.2) /\
  (forall x, x ∈ IPTablesFilter.blocked_ips r.2 <->
             x ∈ IPTablesFilter.blocked_ips self \/ (x = ip /\ r.1.1 = true)) /\
  (r.1.2 = [] \/ r.1.2 = [IPTablesFilter.block_command ip]) /\
  (r.1.2 = [] <-> ip ∈ IPTablesFilter.blocked_ips self \/ refused ip = true).
Proof.
  cbn zeta. unfold IPTablesFilter.block_ip.
  destruct (bool_decide (ip ∈ IPTablesFilter.blocked_ips self)) eqn:Hin.
  { apply bool_decide_eq_true in Hin. cbn [fst snd].
    split; [tauto|]. split; [|split; [left; reflexivity|tauto]].
    intros x. split; [auto|]. intros [Hx|[-> _]]; assumption. }
  apply bool_decide_eq_false in Hin. fold (refused ip).
  destruct (refused ip) eqn:Href.
  { cbn [fst snd]. split; [split; [discriminate|contradiction]|].
    split; [|split; [left; reflexivity|tauto]].
    intros x. split; [auto|]. intros [Hx|[_ Hx]]; [exact Hx|discriminate]. }
  assert (Hcmd : [IPTablesFilter.block_command ip] = [] <->
                 ip ∈ IPTablesFilter.blocked_ips self \/ false = true).
  { split; [discriminate|]. intros [Hx|Hx]; [contradiction|discriminate]. }
  destruct (run (IPTablesFilter.block_command ip)) as [result|e].
  - destruct (IPTablesFilter.returncode result =? 0); cbn [fst snd].
    + cbn [IPTablesFilter.blocked_ips].
      split; [split; [intros _; apply elem_of_union_r, elem_of_singleton;
                      reflexivity|reflexivity]|].
      split; [|split; [right; reflexivity|exact Hcmd]].
      intros x. rewrite elem_of_union, elem_of_singleton. tauto.
    + split; [split; [discriminate|contradiction]|].
      split; [|split; [right; reflexivity|exact Hcmd]].
      intros x. split; [auto|]. intros [Hx|[_ Hx]]; [exact Hx|discriminate].
  - cbn [fst snd]. split; [split; [discriminate|contradiction]|].
    split; [|split; [right; reflexivity|exact Hcmd]].
    intros x. split; [auto|]. intros [Hx|[_ Hx]]; [exact Hx|discriminate].
Qed.

(** X17. Unblocking undoes blocking. After a successful [block_ip] of an
    address that was not blocked, an [unblock_ip] whose command completes
    returns the filter to the state before the block; the two calls
    invoked the append command and then the delete command, and a further
    [block_ip] invokes the append command again. *)
Theorem unblock_undoes_block (self self1 : IPTablesFilter.t) (ip : string)
    (run1 run2 run3 : IPTablesFilter.subprocess_run)
    (cmds : list IPTablesFilter.command) :
  ip ∉ IPTablesFilter.blocked_ips self ->
  IPTablesFilter.block_ip self ip run1 = (true, cmds, self1) ->
  is_ok (run2 (IPTablesFilter.unblock_command ip)) = true ->
  cmds = [IPTablesFilter.block_command ip] /\
  IPTablesFilter.unblock_ip self1 ip run2
    = (true, [IPTablesFilter.unblock_command ip], self) /\
  (IPTablesFilter.block_ip self ip run3).1.2 = [IPTablesFilter.block_command ip].
Proof.
  intros Hnot Hblock Hrun. revert Hblock. unfold IPTablesFilter.block_ip.
  rewrite bool_decide_eq_false_2 by exact Hnot.
  destruct (String.prefix "127." ip || String.eqb ip "0.0.0.0"); [discriminate|].
  destruct (run1 (IPTablesFilter.block_command ip)) as [result|e]; [|discriminate].
  destruct (IPTablesFilter.returncode result =? 0); [|discriminate].
  intros [= <- <-]. split; [reflexivity|]. split.
  - unfold IPTablesFilter.unblock_ip.
    destruct (run2 (IPTablesFilter.unblock_command ip)); [|discriminate].
    cbn [IPTablesFilter.blocked_ips]. destruct self as [blocked].
    cbn [IPTablesFilter.blocked_ips] in *. do 2 f_equal.
    apply set_eq. intros x.
    rewrite elem_of_difference, elem_of_union, elem_of_singleton.
    split; [tauto|]. intros Hx. split; [left; exact Hx|].
    intros ->. contradiction.
  - destruct (run3 (IPTablesFilter.block_command ip)) as [result3|e3];
      [destruct (IPTablesFilter.returncode result3 =? 0)|]; reflexivity.
Qed.

Lemma unblock_undoes_block_witness :
  IPTablesFilter.unblock_ip
    (IPTablesFilter.block_ip IPTablesFilter.init "10.0.0.1" (exits_with 0)).2
    "10.0.0.1" (exits_with 1)
  = (true, [IPTablesFilter.unblock_command "10.0.0.1"], IPTablesFilter.init).
Proof.
  refine (proj1 (proj2 (unblock_undoes_block IPTablesFilter.init _ "10.0.0.1"
                          (exits_with 0) (exits_with 1) times_out
                          [IPTablesFilter.block_command "10.0.0.1"] _ _ _))).
  - apply not_elem_of_empty.
  - reflexivity.
  - reflexivity.
Defined.

Lemma clear_all_fold (run : IPTablesFilter.subprocess_run) (ips : list string) :
  forall (cmds0 : list IPTablesFilter.command) (self0 : IPTablesFilter.t),
  let r := foldl (fun acc ip =>
                    let '(_, cmds, self') :=
                      IPTablesFilter.unblock_ip acc.2 ip run in
                    (acc.1 ++ cmds, self'))
                 (cmds0, self0) ips in
  r.1 = cmds0 ++ (IPTablesFilter.unblock_command <$> ips) /\
  forall x, x ∈ IPTablesFilter.blocked_ips r.2 <->
            x ∈ IPTablesFilter.blocked_ips self0 /\
            ~ (x ∈ ips /\ is_ok (run (IPTablesFilter.unblock_command x)) = true).
Proof.
  induction ips as [|ip ips IH]; intros cmds0 self0; cbn zeta.
  - cbn [foldl fst snd fmap list_fmap]. rewrite app_nil_r.
    split; [reflexivity|]. intros x. split; [|tauto].
    intros Hx. split; [exact Hx|]. intros [Hin _]. inversion Hin.
  - match goal with |- context [foldl ?f _ _] => set (step := f) end.
    change (foldl step (cmds0, self0) (ip :: ips))
      with (foldl step (step (cmds0, self0) ip) ips).
    assert (Hstep : step (cmds0, self0) ip
                    = (cmds0 ++ [IPTablesFilter.unblock_command ip],
                       match run (IPTablesFilter.unblock_command ip) with
                       | Ok _ => {| IPTablesFilter.blocked_ips :=
                                      IPTablesFilter.blocked_ips self0 ∖ {[ip]} |}
                       | Raise _ => self0
                       end)).
    { unfold step, IPTablesFilter.unblock_ip. cbn [fst snd].
      destruct (run (IPTablesFilter.unblock_command ip)); reflexivity. }
    rewrite Hstep. unfold step. clear Hstep step.
    destruct (run (IPTablesFilter.unblock_command ip)) as [done|e] eqn:Erun.
    + destruct (IH (cmds0 ++ [IPTablesFilter.unblock_command ip])
                  {| IPTablesFilter.blocked_ips :=
                       IPTablesFilter.blocked_ips self0 ∖ {[ip]} |})
        as [Hcmds Hset].
      cbn zeta in Hcmds, Hset. split.
      * rewrite Hcmds, <- app_assoc. reflexivity.
      * intros x. rewrite Hset. cbn [IPTablesFilter.blocked_ips].
        rewrite elem_of_difference, elem_of_singleton, elem_of_cons.
        split.
        -- intros [[Hx Hne] Hrest]. split; [exact Hx|].
           intros [[->|Hin] Hok]; [contradiction|]. apply Hrest. auto.
        -- intros [Hx Hrest]. split; [split; [exact Hx|]|].
           ++ intros ->. apply Hrest. split; [left; reflexivity|].
              rewrite Erun. reflexivity.
           ++ intros [Hin Hok]. apply Hrest. auto.
    + destruct (IH (cmds0 ++ [IPTablesFilter.unblock_command ip]) self0)
        as [Hcmds Hset].
      cbn zeta in Hcmds, Hset. split.
      * rewrite Hcmds, <- app_assoc. reflexivity.
      * intros x. rewrite Hset, elem_of_cons. split.
        -- intros [Hx Hrest]. split; [exact Hx|].
           intros [[->|Hin] Hok]; [rewrite Erun in Hok; discriminate|].
           apply Hrest. auto.
        -- intros [Hx Hrest]. split; [exact Hx|].
           intros [Hin Hok]. apply Hrest. auto.
Qed.

(** X18. [clear_all] invokes the delete command once for every blocked
    address, in the order of [list_blocked], and keeps exactly the
    addresses whose command could not be run; the filter is empty
    afterwards exactly when every command could be run. *)
Theorem clear_all_outcome (self : IPTablesFilter.t)
    (run : IPTablesFilter.subprocess_run) :
  let r := IPTablesFilter.clear_all self run in
  r.1 = IPTablesFilter.unblock_command <$> IPTablesFilter.list_blocked self /\
  (forall x, x ∈ IPTablesFilter.blocked_ips r.2 <->
             x ∈ IPTablesFilter.blocked_ips self /\
             is_ok (run (IPTablesFilter.unblock_command x)) = false) /\
  (r.2 = IPTablesFilter.init <->
   forall x, x ∈ IPTablesFilter.blocked_ips self ->
             is_ok (run (IPTablesFilter.unblock_command x)) = true).
Proof.
  cbn zeta. unfold IPTablesFilter.clear_all.
  destruct (clear_all_fold run (IPTablesFilter.list_blocked self) [] self)
    as [Hcmds Hset].
  cbn zeta in Hcmds, Hset.
  assert (Hkept : forall x,
            x ∈ IPTablesFilter.blocked_ips
                  (foldl (fun acc ip =>
                            let '(_, cmds, self') :=
                              IPTablesFilter.unblock_ip acc.2 ip run in
                            (acc.1 ++ cmds, self'))
                         ([], self) (IPTablesFilter.list_blocked self)).2 <->
            x ∈ IPTablesFilter.blocked_ips self /\
            is_ok (run (IPTablesFilter.unblock_command x)) = false).
  { intros x. rewrite Hset. unfold IPTablesFilter.list_blocked.
    rewrite elem_of_elements.
    destruct (is_ok (run (IPTablesFilter.unblock_command x))); split.
    - intros [Hx Hrest]. exfalso. apply Hrest. auto.
    - intros [_ Hx]. discriminate.
    - intros [Hx _]. auto.
    - intros [Hx _]. split; [exact Hx|]. intros [_ Hx']. discriminate. }
  split; [exact Hcmds|]. split; [exact Hkept|]. split.
  - intros Hinit x Hx.
    destruct (is_ok (run (IPTablesFilter.unblock_command x))) eqn:Hok;
      [reflexivity|].
    exfalso. assert (Hin : x ∈ IPTablesFilter.blocked_ips IPTablesFilter.init).
    { rewrite <- Hinit. apply Hkept. auto. }
    exact (not_elem_of_empty x Hin).
  - intros Hall.
    match goal with
    | |- ?r = _ => destruct r as [kept] eqn:Er
    end.
    unfold IPTablesFilter.init. f_equal. apply set_eq. intros x.
    split; [|intros Hx; exfalso; exact (not_elem_of_empty x Hx)].
    intros Hx. exfalso.
    assert (Hk : x ∈ IPTablesFilter.blocked_ips self /\
                 is_ok (run (IPTablesFilter.unblock_command x)) = false).
    { apply Hkept. exact Hx. }
    destruct Hk as [Hin Hok]. rewrite (Hall x Hin) in Hok. discriminate.
Qed.

(** ** The books of a session *)

Lemma block_ip_fresh (self filter' : IPTablesFilter.t) (a : string)
    (run : IPTablesFilter.subprocess_run) (blocked : bool)
    (cmds : list IPTablesFilter.command) :
  a ∉ IPTablesFilter.blocked_ips self ->
  IPTablesFilter.block_ip self a run = (blocked, cmds, filter') ->
  (blocked = true /\ cmds = [IPTablesFilter.block_command a] /\
   IPTablesFilter.blocked_ips filter'
   = IPTablesFilter.blocked_ips self ∪ {[a]}) \/
  (blocked = false /\ filter' = self /\
   (cmds = [] \/ cmds = [IPTablesFilter.block_command a])).
Proof.
  intros Hnot. unfold IPTablesFilter.block_ip.
  rewrite bool_decide_eq_false_2 by exact Hnot.
  destruct (String.prefix "127." a || String.eqb a "0.0.0.0");
    [intros [= <- <- <-]; right; auto|].
  destruct (run (IPTablesFilter.block_command a)) as [result|e];
    [|intros [= <- <- <-]; right; auto].
  destruct (IPTablesFilter.returncode result =? 0); intros [= <- <- <-];
    [left|right]; auto.
Qed.

Lemma block_command_inj (a b : string) :
  IPTablesFilter.block_command a = IPTablesFilter.block_command b -> a = b.
Proof. unfold IPTablesFilter.block_command. intros [= Heq]. exact Heq. Qed.

Lemma py_set_len_strings (addrs : list string) :
  NoDup addrs ->
  JSONLogger.py_set_len (VStr <$> addrs) = Z.of_nat (length addrs).
Proof.
  induction 1 as [|a addrs Hnot Hnd IH]; [reflexivity|].
  rewrite fmap_cons. cbn [JSONLogger.py_set_len length].
  assert (Hno : existsb (JSONLogger.value_eqb (VStr a)) (VStr <$> addrs) = false).
  { clear IH Hnd. induction addrs as [|b addrs IHa]; [reflexivity|].
    rewrite not_elem_of_cons in Hnot. destruct Hnot as [Hne Hnot].
    rewrite fmap_cons. cbn [existsb JSONLogger.value_eqb].
    rewrite (proj2 (String.eqb_neq a b) Hne). exact (IHa Hnot). }
  rewrite Hno, IH. lia.
Qed.

Section Ledger.
Context `{FloatOps}.

Lemma log_detection_entry (lg lg' : JSONLogger.t)
    (features : gmap string value) (label : string) (confidence : Q)
    (action : string) (reasons : list MLClassifier.reason) (now : Z)
    (entry : JSONLogger.LogEntry) :
  JSONLogger.log_detection lg features label confidence action reasons now
  = Ok (entry, lg') ->
  JSONLogger.logs lg' = JSONLogger.logs lg ++ [entry] /\
  JSONLogger.output_file lg' = JSONLogger.output_file lg /\
  JSONLogger.src_ip entry = dict_get features "src_ip" (VStr "unknown") /\
  JSONLogger.action entry = action /\
  JSONLogger.features entry !! "total_packets"%string
  = Some (dict_get features "total_packets" (VNum 0)).
Proof.
  unfold JSONLogger.log_detection.
  destruct (JSONLogger.rounded features "flow_packets_per_sec"); [|discriminate].
  destruct (JSONLogger.rounded features "flow_bytes_per_sec"); [|discriminate].
  destruct (JSONLogger.rounded features "avg_pkt_size"); [|discriminate].
  cbn [mbind result_bind]. intros [= <- <-].
  cbn [JSONLogger.logs JSONLogger.output_file JSONLogger.src_ip
       JSONLogger.action JSONLogger.features].
  do 4 (split; [reflexivity|]).
  rewrite !lookup_insert_ne by discriminate. apply lookup_insert_eq.
Qed.

Lemma total_packets_entry (flow : Flow.t) (feats : gmap string value) :
  (Flow.extract_features flow).1 = Ok feats ->
  dict_get (DDoSDetectionSystem.with_endpoints feats flow) "total_packets" (VNum 0)
  = VNum (inject_Z (Flow.fwd_packets flow + Flow.bwd_packets flow)).
Proof.
  intros Hf. other_key. get_entry flow Hf "total_packets"%string.
  injection Hv as <-. reflexivity.
Qed.

Lemma process_packet_ledger (log_file : string) (s s' : DDoSDetectionSystem.t)
    (running : bool) (packet : Packet) (env : DDoSDetectionSystem.Env)
    (cmds0 cmds : list IPTablesFilter.command) :
  ledger log_file s cmds0 ->
  DDoSDetectionSystem.process_packet s running packet env = Ok (s', cmds) ->
  ledger log_file s' (cmds0 ++ cmds).
Proof.
  intros Hled Hrun. apply process_packet_inv in Hrun. cbn zeta in Hrun.
  destruct Hrun as [(_ & -> & ->)|[(_ & -> & -> & _)|(_ & Hdetect)]].
  { rewrite app_nil_r. exact Hled. }
  { rewrite app_nil_r. exact Hled. }
  destruct Hdetect as (key & flow & feats & p & label & confidence & reasons &
                       blocked & filter' & entry & lg & Hfed & Hmin & Hci &
                       Hmod & Hf & Hp & Hunpack & Hnew & Hblock & Hlog & ->).
  destruct Hled as ((Hc & Hm & Hfc & Hout) & (addrs & Hsrc & Hnd & Hmal) &
                    Hcount & Hblocked & Hrec & Hcnd & Hcshape & Hccover).
  apply log_detection_entry in Hlog
    as (Hlogs & Hout' & Hsrc' & Haction & Htotal).
  rewrite with_endpoints_src_ip in Hsrc'.
  rewrite (total_packets_entry flow feats Hf) in Htotal.
  set (a := Flow.src_ip flow) in *.
  assert (Hfresh : a ∉ addrs).
  { intros Hin. apply Hnew. rewrite Hmal. apply elem_of_list_to_set. exact Hin. }
  assert (Hunblocked : a ∉ IPTablesFilter.blocked_ips (DDoSDetectionSystem.filter s)).
  { intros Hin. apply Hblocked in Hin as (e0 & He0 & Hs0 & _).
    apply Hfresh.
    assert (Hv : VStr a ∈ JSONLogger.src_ip <$> JSONLogger.logs (DDoSDetectionSystem.logger s)).
    { rewrite <- Hs0. apply list_elem_of_fmap_2. exact He0. }
    rewrite Hsrc in Hv. apply list_elem_of_fmap in Hv as (b & [= ->] & Hb).
    exact Hb. }
  assert (Hnocmd : IPTablesFilter.block_command a ∉ cmds0).
  { intros Hin. apply Hcshape in Hin as (b & Heq & Hb).
    apply block_command_inj in Heq. subst b. exact (Hnew Hb). }
  apply (block_ip_fresh _ _ _ _ _ _ Hunblocked) in Hblock.
  unfold ledger.
  cbn [DDoSDetectionSystem.check_interval
       DDoSDetectionSystem.min_packets_for_detection
       DDoSDetectionSystem.flow_count DDoSDetectionSystem.logger
       DDoSDetectionSystem.malicious_ips DDoSDetectionSystem.detection_count
       DDoSDetectionSystem.filter].
  cbn zeta. rewrite Hlogs.
  split; [rewrite Hout'; auto|].
  split.
  { exists (addrs ++ [a]). rewrite !fmap_app, Hsrc. cbn [fmap list_fmap].
    split; [rewrite Hsrc'; reflexivity|]. split.
    - apply NoDup_app. split; [exact Hnd|]. split; [|apply NoDup_singleton].
      intros x Hx Hx'. apply list_elem_of_singleton in Hx'. subst x.
      exact (Hfresh Hx).
    - rewrite list_to_set_app_L, Hmal. f_equal. cbn [list_to_set foldr].
      symmetry. apply (right_id_L ∅ (∪)). }
  split.
  { rewrite length_app, Nat2Z.inj_add, Hcount. reflexivity. }
  split.
  { intros x. split.
    - intros Hx.
      destruct Hblock as [(-> & _ & Hset)|(-> & -> & _)].
      + rewrite Hset, elem_of_union, elem_of_singleton in Hx.
        destruct Hx as [Hx| ->].
        * apply Hblocked in Hx as (e0 & He0 & Hs0 & Ha0).
          exists e0. split; [apply elem_of_app; left; exact He0|auto].
        * exists entry. split; [apply elem_of_app; right; apply list_elem_of_here|].
          split; [exact Hsrc'|exact Haction].
      + apply Hblocked in Hx as (e0 & He0 & Hs0 & Ha0).
        exists e0. split; [apply elem_of_app; left; exact He0|auto].
    - intros (e0 & He0 & Hs0 & Ha0). apply elem_of_app in He0 as [He0|He0].
      + assert (Hx : x ∈ IPTablesFilter.blocked_ips (DDoSDetectionSystem.filter s))
          by (apply Hblocked; eauto).
        destruct Hblock as [(_ & _ & Hset)|(_ & -> & _)]; [|exact Hx].
        rewrite Hset. apply elem_of_union_l. exact Hx.
      + apply list_elem_of_singleton in He0. subst e0.
        rewrite Hsrc' in Hs0. injection Hs0 as <-.
        destruct Hblock as [(_ & _ & Hset)|(-> & _ & _)].
        * rewrite Hset. apply elem_of_union_r, elem_of_singleton. reflexivity.
        * rewrite Haction in Ha0. discriminate. }
  split.
  { intros e0 He0. apply elem_of_app in He0 as [He0|He0]; [exact (Hrec e0 He0)|].
    apply list_elem_of_singleton in He0. subst e0. split.
    - rewrite Haction. destruct blocked; auto.
    - rewrite Hc in Hmod. rewrite Hm in Hmin.
      exists ((Flow.fwd_packets flow + Flow.bwd_packets flow) / 10).
      split; [|rewrite Htotal; do 3 f_equal];
        pose proof (Z.div_mod (Flow.fwd_packets flow + Flow.bwd_packets flow) 10);
        lia. }
  assert (Hcmds : cmds = [] \/ cmds = [IPTablesFilter.block_command a]).
  { destruct Hblock as [(_ & -> & _)|(_ & _ & Hcm)]; auto. }
  split.
  { destruct Hcmds as [-> | ->]; [rewrite app_nil_r; exact Hcnd|].
    apply NoDup_app. split; [exact Hcnd|]. split; [|apply NoDup_singleton].
    intros c Hc0 Hc1. apply list_elem_of_singleton in Hc1. subst c.
    exact (Hnocmd Hc0). }
  split.
  { intros c Hin. apply elem_of_app in Hin as [Hin|Hin].
    - apply Hcshape in Hin as (b & -> & Hb). exists b.
      split; [reflexivity|apply elem_of_union_l; exact Hb].
    - exists a. split; [|apply elem_of_union_r, elem_of_singleton; reflexivity].
      destruct Hcmds as [-> | ->]; [inversion Hin|].
      apply list_elem_of_singleton in Hin. exact Hin. }
  intros x Hx. apply elem_of_app.
  destruct Hblock as [(_ & -> & Hset)|(_ & -> & _)].
  - rewrite Hset, elem_of_union, elem_of_singleton in Hx.
    destruct Hx as [Hx| ->]; [left; exact (Hccover x Hx)|].
    right. apply list_elem_of_here.
  - left. exact (Hccover x Hx).
Qed.

Lemma step_ledger (log_file : string) (w w' : DDoSDetectionSystem.world)
    (ev : DDoSDetectionSystem.event) (cmds0 cmds : list IPTablesFilter.command) :
  ledger log_file (DDoSDetectionSystem.system w) cmds0 ->
  DDoSDetectionSystem.step w ev = Ok (w', cmds) ->
  ledger log_file (DDoSDetectionSystem.system w') (cmds0 ++ cmds).
Proof.
  intros Hled. destruct ev as [packet env|now|]; unfold DDoSDetectionSystem.step.
  - destruct (DDoSDetectionSystem.process_packet _ _ packet env)
      as [[s' cmds']|e] eqn:Hrun; [|discriminate].
    cbn [mbind result_bind fst snd]. intros [= <- <-].
    exact (process_packet_ledger _ _ _ _ _ _ _ _ Hled Hrun).
  - destruct (FlowMeter.cleanup_old_flows _ now) as [n fm].
    intros [= <- <-]. rewrite app_nil_r. exact Hled.
  - intros [= <- <-]. rewrite app_nil_r. exact Hled.
Qed.

Lemma session_ledger (log_file : string) (evs : list DDoSDetectionSystem.event) :
  forall (w w' : DDoSDetectionSystem.world)
         (cmds0 cmds : list IPTablesFilter.command),
  ledger log_file (DDoSDetectionSystem.system w) cmds0 ->
  DDoSDetectionSystem.session w evs = Ok (w', cmds) ->
  ledger log_file (DDoSDetectionSystem.system w') (cmds0 ++ cmds).
Proof.
  induction evs as [|ev evs IH]; intros w w' cmds0 cmds Hled;
    cbn [DDoSDetectionSystem.session].
  - intros [= <- <-]. rewrite app_nil_r. exact Hled.
  - destruct (DDoSDetectionSystem.step w ev) as [[w1 cmds1]|e] eqn:Hstep;
      [|discriminate].
    cbn [mbind result_bind fst snd].
    destruct (DDoSDetectionSystem.session w1 evs) as [[w2 cmds2]|e] eqn:Hsess;
      [|discriminate].
    cbn [mbind result_bind fst snd]. intros [= <- <-].
    rewrite app_assoc.
    exact (IH _ _ _ _ (step_ledger _ _ _ _ _ _ Hled Hstep) Hsess).
Qed.

Lemma init_ledger (model_file : option (result MLClassifier.Artifact))
    (log_file : string) :
  ledger log_file (DDoSDetectionSystem.init model_file log_file) [].
Proof.
  unfold ledger. cbn. split; [auto|]. split.
  { exists []. split; [reflexivity|]. split; [apply NoDup_nil_2|reflexivity]. }
  split; [reflexivity|]. split.
  { intros a. split; [intros Ha; exfalso; exact (not_elem_of_empty a Ha)|].
    intros (e0 & He0 & _). inversion He0. }
  split; [intros e0 He0; inversion He0|].
  split; [apply NoDup_nil_2|].
  split; [intros c Hc0; inversion Hc0|].
  intros a Ha. exfalso. exact (not_elem_of_empty a Ha).
Qed.

(** Every session from the initial system returns, with the books in
    order. *)
Lemma session_books (model_file : option (result MLClassifier.Artifact))
    (log_file : string) (evs : list DDoSDetectionSystem.event) :
  exists w cmds,
    DDoSDetectionSystem.session (initial_world model_file log_file) evs
      = Ok (w, cmds) /\
    ledger log_file (DDoSDetectionSystem.system w) cmds.
Proof.
  destruct (session_inv evs (initial_world model_file log_file)
              (init_inv model_file log_file)) as (w & cmds & Hsess & _).
  exists w, cmds. split; [exact Hsess|].
  exact (session_ledger log_file evs (initial_world model_file log_file) w
           [] cmds (init_ledger model_file log_file) Hsess).
Qed.

End Ledger.

(** ** What a session leaves behind *)

Section Sessions.
Context `{FloatOps}.

(** X19. The figures of the session summary agree. After any session from
    the initial system the detection counter, the number of records, the
    number of different addresses in the records and the number of flagged
    addresses are all equal; [get_stats] reports them with the name of the
    log file; the number of blocked addresses does not exceed them; and
    [flow_count] is still 0. *)
Theorem summary_counts_agree
    (model_file : option (result MLClassifier.Artifact)) (log_file : string)
    (evs : list DDoSDetectionSystem.event) :
  exists w cmds,
    DDoSDetectionSystem.session (initial_world model_file log_file) evs
      = Ok (w, cmds) /\
    let s := DDoSDetectionSystem.system w in
    let stats := JSONLogger.get_stats (DDoSDetectionSystem.logger s) in
    JSONLogger.total_detections stats = DDoSDetectionSystem.detection_count s /\
    JSONLogger.unique_ips stats = DDoSDetectionSystem.detection_count s /\
    JSONLogger.log_file stats = log_file /\
    Z.of_nat (size (DDoSDetectionSystem.malicious_ips s))
      = DDoSDetectionSystem.detection_count s /\
    Z.of_nat (size (IPTablesFilter.blocked_ips (DDoSDetectionSystem.filter s)))
      <= DDoSDetectionSystem.detection_count s /\
    DDoSDetectionSystem.flow_count s = 0.
Proof.
  destruct (session_books model_file log_file evs) as (w & cmds & Hsess & Hled).
  exists w, cmds. split; [exact Hsess|]. cbn zeta.
  destruct Hled as ((_ & _ & Hfc & Hout) & (addrs & Hsrc & Hnd & Hmal) &
                    Hcount & Hblocked & _).
  assert (Hlen : length addrs
                 = length (JSONLogger.logs
                             (DDoSDetectionSystem.logger (DDoSDetectionSystem.system w)))).
  { rewrite <- (length_fmap VStr addrs), <- Hsrc, length_fmap. reflexivity. }
  assert (Hsize : size (DDoSDetectionSystem.malicious_ips (DDoSDetectionSystem.system w))
                  = length addrs).
  { rewrite Hmal. apply size_list_to_set. exact Hnd. }
  unfold JSONLogger.get_stats.
  cbn [JSONLogger.total_detections JSONLogger.unique_ips JSONLogger.log_file].
  split; [symmetry; exact Hcount|].
  split; [rewrite Hsrc, (py_set_len_strings addrs Hnd), Hlen; symmetry; exact Hcount|].
  split; [exact Hout|].
  split; [rewrite Hsize, Hlen; symmetry; exact Hcount|].
  split; [|exact Hfc].
  rewrite Hcount, <- Hlen, <- Hsize. apply inj_le, subseteq_size.
  intros a Ha. apply Hblocked in Ha as (e0 & He0 & Hs0 & _).
  rewrite Hmal. apply elem_of_list_to_set.
  assert (Hv : VStr a ∈ JSONLogger.src_ip <$>
                 JSONLogger.logs (DDoSDetectionSystem.logger (DDoSDetectionSystem.system w))).
  { rewrite <- Hs0. apply list_elem_of_fmap_2. exact He0. }
  rewrite Hsrc in Hv. apply list_elem_of_fmap in Hv as (b & [= ->] & Hb).
  exact Hb.
Qed.

(** X20. After any session from the initial system an address is in the
    blocked set exactly when the log has a record for it whose action is
    "blocked"; every record has the action "blocked" or "detected"; and an
    address is flagged exactly when the log has a record for it. *)
Theorem blocked_addresses_match_records
    (model_file : option (result MLClassifier.Artifact)) (log_file : string)
    (evs : list DDoSDetectionSystem.event) :
  exists w cmds,
    DDoSDetectionSystem.session (initial_world model_file log_file) evs
      = Ok (w, cmds) /\
    let s := DDoSDetectionSystem.system w in
    let logs := JSONLogger.logs (DDoSDetectionSystem.logger s) in
    (forall a,
       a ∈ IPTablesFilter.blocked_ips (DDoSDetectionSystem.filter s) <->
       exists entry, entry ∈ logs /\ JSONLogger.src_ip entry = VStr a /\
                     JSONLogger.action entry = "blocked"%string) /\
    (forall entry, entry ∈ logs ->
       JSONLogger.action entry = "blocked"%string \/
       JSONLogger.action entry = "detected"%string) /\
    (forall a, a ∈ DDoSDetectionSystem.malicious_ips s <->
               VStr a ∈ JSONLogger.src_ip <$> logs).
Proof.
  destruct (session_books model_file log_file evs) as (w & cmds & Hsess & Hled).
  exists w, cmds. split; [exact Hsess|]. cbn zeta.
  destruct Hled as (_ & (addrs & Hsrc & Hnd & Hmal) & _ & Hblocked & Hrec & _).
  split; [exact Hblocked|]. split; [intros e0 He0; apply (Hrec e0 He0)|].
  intros a. rewrite Hmal, Hsrc, elem_of_list_to_set. split.
  - intros Ha. apply list_elem_of_fmap_2. exact Ha.
  - intros Ha. apply list_elem_of_fmap in Ha as (b & [= ->] & Hb). exact Hb.
Qed.

(** X21. The commands of a session. Whatever the packets and the outcomes
    of the commands, a session from the initial system invokes only append
    commands, each for a flagged address and none twice; it invokes the
    append command of every blocked address; it never invokes a delete
    command; and the number of commands lies between the number of blocked
    addresses and the number of detections. *)
Theorem commands_of_a_session
    (model_file : option (result MLClassifier.Artifact)) (log_file : string)
    (evs : list DDoSDetectionSystem.event) :
  exists w cmds,
    DDoSDetectionSystem.session (initial_world model_file log_file) evs
      = Ok (w, cmds) /\
    let s := DDoSDetectionSystem.system w in
    NoDup cmds /\
    (forall c, c ∈ cmds ->
       exists a, c = IPTablesFilter.block_command a /\
                 a ∈ DDoSDetectionSystem.malicious_ips s) /\
    (forall a, a ∈ IPTablesFilter.blocked_ips (DDoSDetectionSystem.filter s) ->
               IPTablesFilter.block_command a ∈ cmds) /\
    (forall a, IPTablesFilter.unblock_command a ∉ cmds) /\
    Z.of_nat (size (IPTablesFilter.blocked_ips (DDoSDetectionSystem.filter s)))
      <= Z.of_nat (length cmds) /\
    Z.of_nat (length cmds) <= DDoSDetectionSystem.detection_count s.
Proof.
  destruct (session_books model_file log_file evs) as (w & cmds & Hsess & Hled).
  exists w, cmds. split; [exact Hsess|]. cbn zeta.
  destruct Hled as (_ & (addrs & Hsrc & Hnd & Hmal) & Hcount & _ & _ &
                    Hcnd & Hcshape & Hccover).
  split; [exact Hcnd|]. split; [exact Hcshape|]. split; [exact Hccover|].
  split; [|split].
  - intros a Hin. apply Hcshape in Hin as (b & Heq & _). discriminate.
  - apply inj_le.
    change (size (IPTablesFilter.blocked_ips
                    (DDoSDetectionSystem.filter (DDoSDetectionSystem.system w))))
      with (length (elements (IPTablesFilter.blocked_ips
                                (DDoSDetectionSystem.filter (DDoSDetectionSystem.system w))))).
    rewrite <- (length_fmap IPTablesFilter.block_command
                  (elements (IPTablesFilter.blocked_ips
                               (DDoSDetectionSystem.filter (DDoSDetectionSystem.system w))))).
    apply submseteq_length, NoDup_submseteq.
    + apply NoDup_fmap_2; [intros a b; apply block_command_inj|apply NoDup_elements].
    + intros c Hc0. apply list_elem_of_fmap in Hc0 as (a & -> & Ha).
      apply Hccover. apply elem_of_elements. exact Ha.
  - rewrite Hcount.
    rewrite <- (length_fmap JSONLogger.src_ip), Hsrc, length_fmap.
    rewrite <- (length_fmap IPTablesFilter.block_command addrs).
    apply inj_le, submseteq_length, NoDup_submseteq; [exact Hcnd|].
    intros c Hc0. apply Hcshape in Hc0 as (a & -> & Ha).
    apply list_elem_of_fmap_2. rewrite Hmal in Ha.
    apply elem_of_list_to_set in Ha. exact Ha.
Qed.

(** X22. Every record of a session was made at a sampling point: the
    packet total it reports is a positive multiple of ten, so that the
    minimum of five packets never decides. *)
Theorem records_at_sampling_points
    (model_file : option (result MLClassifier.Artifact)) (log_file : string)
    (evs : list DDoSDetectionSystem.event) :
  exists w cmds,
    DDoSDetectionSystem.session (initial_world model_file log_file) evs
      = Ok (w, cmds) /\
    forall entry,
      entry ∈ JSONLogger.logs (DDoSDetectionSystem.logger (DDoSDetectionSystem.system w)) ->
      exists n, 1 <= n /\
        JSONLogger.features entry !! "total_packets"%string
        = Some (VNum (inject_Z (10 * n))).
Proof.
  destruct (session_books model_file log_file evs) as (w & cmds & Hsess & Hled).
  exists w, cmds. split; [exact Hsess|].
  destruct Hled as (_ & _ & _ & _ & Hrec & _).
  intros e0 He0. apply (Hrec e0 He0).
Qed.

End Sessions.

(** ** Running, stopping and counting *)

Lemma cleanup_keeps_subset (fm : FlowMeter.t) (now : Z) :
  FlowMeter.flows (FlowMeter.cleanup_old_flows fm now).2 ⊆ FlowMeter.flows fm.
Proof. unfold FlowMeter.cleanup_old_flows. cbn [snd FlowMeter.flows].
  apply map_filter_subseteq. Qed.

Lemma block_ip_grows (self : IPTablesFilter.t) (ip : string)
    (run : IPTablesFilter.subprocess_run) :
  IPTablesFilter.blocked_ips self
    ⊆ IPTablesFilter.blocked_ips (IPTablesFilter.block_ip self ip run).2.
Proof.
  unfold IPTablesFilter.block_ip.
  destruct (bool_decide (ip ∈ IPTablesFilter.blocked_ips self)); [reflexivity|].
  destruct (String.prefix "127." ip || String.eqb ip "0.0.0.0"); [reflexivity|].
  destruct (run (IPTablesFilter.block_command ip)) as [result|e]; [|reflexivity].
  destruct (IPTablesFilter.returncode result =? 0); [|reflexivity].
  cbn [snd IPTablesFilter.blocked_ips]. apply union_subseteq_l.
Qed.

Section Running.
Context `{FloatOps}.

(** X23. A stopped system is frozen. Once [running] is cleared, every
    further sequence of captures, cleanups and interrupts is handled
    without an exception and without a command; the log, the filter, the
    flagged addresses, the counters and the classifier stay as they are,
    and the flow table can only lose flows. *)
Theorem stopped_system_is_frozen (w : DDoSDetectionSystem.world)
    (evs : list DDoSDetectionSystem.event) :
  DDoSDetectionSystem.running w = false ->
  exists w',
    DDoSDetectionSystem.session w evs = Ok (w', []) /\
    DDoSDetectionSystem.running w' = false /\
    let s := DDoSDetectionSystem.system w in
    let s' := DDoSDetectionSystem.system w' in
    DDoSDetectionSystem.logger s' = DDoSDetectionSystem.logger s /\
    DDoSDetectionSystem.filter s' = DDoSDetectionSystem.filter s /\
    DDoSDetectionSystem.malicious_ips s' = DDoSDetectionSystem.malicious_ips s /\
    DDoSDetectionSystem.packet_count s' = DDoSDetectionSystem.packet_count s /\
    DDoSDetectionSystem.detection_count s' = DDoSDetectionSystem.detection_count s /\
    DDoSDetectionSystem.classifier s' = DDoSDetectionSystem.classifier s /\
    FlowMeter.flows (DDoSDetectionSystem.flowmeter s')
      ⊆ FlowMeter.flows (DDoSDetectionSystem.flowmeter s).
Proof.
  revert w. induction evs as [|ev evs IH]; intros w Hstop;
    cbn [DDoSDetectionSystem.session].
  - exists w. cbn zeta. repeat split; first [exact Hstop|reflexivity].
  - assert (Hstep : exists w1,
              DDoSDetectionSystem.step w ev = Ok (w1, []) /\
              DDoSDetectionSystem.running w1 = false /\
              DDoSDetectionSystem.logger (DDoSDetectionSystem.system w1)
                = DDoSDetectionSystem.logger (DDoSDetectionSystem.system w) /\
              DDoSDetectionSystem.filter (DDoSDetectionSystem.system w1)
                = DDoSDetectionSystem.filter (DDoSDetectionSystem.system w) /\
              DDoSDetectionSystem.malicious_ips (DDoSDetectionSystem.system w1)
                = DDoSDetectionSystem.malicious_ips (DDoSDetectionSystem.system w) /\
              DDoSDetectionSystem.packet_count (DDoSDetectionSystem.system w1)
                = DDoSDetectionSystem.packet_count (DDoSDetectionSystem.system w) /\
              DDoSDetectionSystem.detection_count (DDoSDetectionSystem.system w1)
                = DDoSDetectionSystem.detection_count (DDoSDetectionSystem.system w) /\
              DDoSDetectionSystem.classifier (DDoSDetectionSystem.system w1)
                = DDoSDetectionSystem.classifier (DDoSDetectionSystem.system w) /\
              FlowMeter.flows (DDoSDetectionSystem.flowmeter (DDoSDetectionSystem.system w1))
                ⊆ FlowMeter.flows (DDoSDetectionSystem.flowmeter (DDoSDetectionSystem.system w))).
    { destruct ev as [packet env|now|]; unfold DDoSDetectionSystem.step.
      - unfold DDoSDetectionSystem.process_packet. rewrite Hstop.
        cbn [negb mbind result_bind fst snd]. eexists. split; [reflexivity|].
        cbn [DDoSDetectionSystem.running DDoSDetectionSystem.system].
        repeat split; first [exact Hstop|reflexivity].
      - pose proof (cleanup_keeps_subset
                      (DDoSDetectionSystem.flowmeter (DDoSDetectionSystem.system w))
                      now) as Hsub.
        destruct (FlowMeter.cleanup_old_flows _ now) as [n fm].
        eexists. split; [reflexivity|].
        cbn [DDoSDetectionSystem.running DDoSDetectionSystem.system].
        repeat split; first [exact Hstop|exact Hsub].
      - eexists. split; [reflexivity|].
        cbn [DDoSDetectionSystem.running DDoSDetectionSystem.system].
        repeat split; try reflexivity. }
    destruct Hstep as (w1 & Hstep & Hstop1 & Hl1 & Hf1 & Hm1 & Hp1 & Hd1 & Hc1 & Hs1).
    destruct (IH w1 Hstop1) as (w2 & Hsess & Hstop2 & Hl2 & Hf2 & Hm2 & Hp2 &
                                Hd2 & Hc2 & Hs2).
    exists w2. rewrite Hstep. cbn [mbind result_bind fst snd]. rewrite Hsess.
    cbn [mbind result_bind fst snd app]. split; [reflexivity|].
    split; [exact Hstop2|]. cbn zeta.
    split; [congruence|]. split; [congruence|]. split; [congruence|].
    split; [congruence|]. split; [congruence|]. split; [congruence|].
    etransitivity; [exact Hs2|exact Hs1].
Qed.

Lemma process_packet_counted (s s' : DDoSDetectionSystem.t) (running : bool)
    (packet : Packet) (env : DDoSDetectionSystem.Env)
    (cmds : list IPTablesFilter.command) :
  DDoSDetectionSystem.process_packet s running packet env = Ok (s', cmds) ->
  DDoSDetectionSystem.packet_count s'
  = DDoSDetectionSystem.packet_count s + (if running then 1 else 0).
Proof.
  intros Hrun. apply process_packet_inv in Hrun. cbn zeta in Hrun.
  destruct Hrun as [(-> & -> & _)|[(-> & -> & _)|(-> & Hdetect)]].
  - lia.
  - reflexivity.
  - destruct Hdetect as (key & flow & feats & p & label & confidence & reasons &
                         blocked & filter' & entry & lg & _ & _ & _ & _ & _ & _ &
                         _ & _ & _ & _ & ->).
    reflexivity.
Qed.

Lemma session_counts (evs : list DDoSDetectionSystem.event) :
  forall (w w' : DDoSDetectionSystem.world) (cmds : list IPTablesFilter.command),
  DDoSDetectionSystem.session w evs = Ok (w', cmds) ->
  DDoSDetectionSystem.packet_count (DDoSDetectionSystem.system w')
  = DDoSDetectionSystem.packet_count (DDoSDetectionSystem.system w)
    + (if DDoSDetectionSystem.running w then captures_before_interrupt evs else 0) /\
  DDoSDetectionSystem.running w'
  = DDoSDetectionSystem.running w && uninterrupted evs.
Proof.
  induction evs as [|ev evs IH]; intros w w' cmds;
    cbn [DDoSDetectionSystem.session].
  - intros [= <- <-]. cbn [captures_before_interrupt uninterrupted forallb].
    rewrite andb_true_r. split; [destruct (DDoSDetectionSystem.running w); lia|].
    reflexivity.
  - destruct (DDoSDetectionSystem.step w ev) as [[w1 cmds1]|e] eqn:Hstep;
      [|discriminate].
    cbn [mbind result_bind fst snd].
    destruct (DDoSDetectionSystem.session w1 evs) as [[w2 cmds2]|e] eqn:Hsess;
      [|discriminate].
    cbn [mbind result_bind fst snd]. intros [= <- <-].
    destruct (IH _ _ _ Hsess) as [Hcount Hrunning].
    rewrite Hcount, Hrunning. clear Hcount Hrunning Hsess IH.
    destruct ev as [packet env|now|]; unfold DDoSDetectionSystem.step in Hstep;
      cbn [captures_before_interrupt uninterrupted forallb].
    + destruct (DDoSDetectionSystem.process_packet _ _ packet env)
        as [[s1 c1]|e] eqn:Hrun; [|discriminate].
      cbn [mbind result_bind fst snd] in Hstep. injection Hstep as <- <-.
      cbn [DDoSDetectionSystem.running DDoSDetectionSystem.system].
      rewrite (process_packet_counted _ _ _ _ _ _ Hrun).
      split; [destruct (DDoSDetectionSystem.running w); lia|reflexivity].
    + destruct (FlowMeter.cleanup_old_flows _ now) as [n fm].
      injection Hstep as <- <-.
      cbn [DDoSDetectionSystem.running DDoSDetectionSystem.system
           DDoSDetectionSystem.with_flowmeter DDoSDetectionSystem.packet_count].
      split; reflexivity.
    + injection Hstep as <- <-.
      cbn [DDoSDetectionSystem.running DDoSDetectionSystem.system andb].
      rewrite andb_false_r.
      split; [destruct (DDoSDetectionSystem.running w); cbv iota; lia|reflexivity].
Qed.

(** X24. The packet counter of a session counts the captures that precede
    the first interrupt, whether or not they carry an IP layer; and the
    system is still running at the end exactly when no interrupt
    occurred. *)
Theorem packets_are_counted
    (model_file : option (result MLClassifier.Artifact)) (log_file : string)
    (evs : list DDoSDetectionSystem.event) :
  exists w cmds,
    DDoSDetectionSystem.session (initial_world model_file log_file) evs
      = Ok (w, cmds) /\
    DDoSDetectionSystem.packet_count (DDoSDetectionSystem.system w)
      = captures_before_interrupt evs /\
    DDoSDetectionSystem.running w = uninterrupted evs.
Proof.
  destruct (session_inv evs (initial_world model_file log_file)
              (init_inv model_file log_file)) as (w & cmds & Hsess & _).
  exists w, cmds. split; [exact Hsess|].
  destruct (session_counts evs _ _ _ Hsess) as [Hcount Hrunning].
  split; [rewrite Hcount; reflexivity|exact Hrunning].
Qed.

(** X25. A flow that is classified malicious at a sampling point, for an
    address not flagged before, is recorded: the call returns, appends one
    record that carries the address of the flow, the label and the action,
    flags the address, counts the detection, and asks the filter to block
    the address. *)
Theorem malicious_flow_is_recorded (s : DDoSDetectionSystem.t) (packet : Packet)
    (env : DDoSDetectionSystem.Env) (flow_key : FlowMeter.FlowKey)
    (flow : Flow.t) (fm : FlowMeter.t) (feats : gmap string value)
    (p : MLClassifier.prediction) :
  FlowMeter.process_packet (DDoSDetectionSystem.flowmeter s) packet
    (DDoSDetectionSystem.now env) = (Some (flow_key, flow), fm) ->
  DDoSDetectionSystem.min_packets_for_detection s
    <= Flow.fwd_packets flow + Flow.bwd_packets flow ->
  DDoSDetectionSystem.check_interval s <> 0 ->
  (Flow.fwd_packets flow + Flow.bwd_packets flow)
    mod DDoSDetectionSystem.check_interval s = 0 ->
  (Flow.extract_features flow).1 = Ok feats ->
  MLClassifier.predict (DDoSDetectionSystem.classifier s)
    (DDoSDetectionSystem.with_endpoints feats flow) = Ok p ->
  (DDoSDetectionSystem.unpack p).1.1.1 = true ->
  (Flow.src_ip flow ∉ DDoSDetectionSystem.malicious_ips s) ->
  exists s' cmds entry (blocked : bool),
    DDoSDetectionSystem.process_packet s true packet env = Ok (s', cmds) /\
    JSONLogger.logs (DDoSDetectionSystem.logger s')
      = JSONLogger.logs (DDoSDetectionSystem.logger s) ++ [entry] /\
    JSONLogger.src_ip entry = VStr (Flow.src_ip flow) /\
    JSONLogger.prediction entry = (DDoSDetectionSystem.unpack p).1.1.2 /\
    JSONLogger.action entry = (if blocked then "blocked" else "detected")%string /\
    IPTablesFilter.block_ip (DDoSDetectionSystem.filter s) (Flow.src_ip flow)
      (DDoSDetectionSystem.run env) = (blocked, cmds, DDoSDetectionSystem.filter s') /\
    DDoSDetectionSystem.malicious_ips s'
      = DDoSDetectionSystem.malicious_ips s ∪ {[Flow.src_ip flow]} /\
    DDoSDetectionSystem.detection_count s'
      = DDoSDetectionSystem.detection_count s + 1 /\
    DDoSDetectionSystem.flowmeter s' = fm.
Proof.
  intros Hfed Hmin Hci Hmod Hf Hp Hmal Hnew.
  destruct (flowmeter_process_packet_stored _ _ _ _ _ _ Hfed) as [Hstored _].
  pose proof (restore_flow fm flow_key flow Hstored) as Hrestore.
  destruct (rounded_ok flow feats Hf) as (Hr1 & Hr2 & Hr3). cbn zeta in Hr1, Hr2, Hr3.
  apply is_ok_spec in Hr1 as [r1 Hr1]. apply is_ok_spec in Hr2 as [r2 Hr2].
  apply is_ok_spec in Hr3 as [r3 Hr3].
  unfold DDoSDetectionSystem.process_packet. cbn [negb]. rewrite Hfed.
  set (count := DDoSDetectionSystem.packet_count s + 1).
  set (s1 := DDoSDetectionSystem.with_flowmeter s fm count).
  change (DDoSDetectionSystem.min_packets_for_detection s1)
    with (DDoSDetectionSystem.min_packets_for_detection s).
  change (DDoSDetectionSystem.check_interval s1)
    with (DDoSDetectionSystem.check_interval s).
  rewrite (proj2 (Z.ltb_ge _ _) Hmin).
  unfold py_mod. rewrite (proj2 (Z.eqb_neq _ _) Hci). cbn [mbind result_bind].
  rewrite Hmod. cbn [Z.eqb negb].
  destruct (Flow.extract_features flow) as [extracted flow'] eqn:Hext.
  cbn [fst] in Hf. subst extracted.
  assert (Hflow : flow' = flow).
  { destruct (extract_features_total flow) as [feats0 Hf0].
    rewrite Hf0 in Hext. injection Hext as _ <-. reflexivity. }
  subst flow'. cbn [mbind result_bind]. rewrite Hrestore.
  change (DDoSDetectionSystem.with_flowmeter s1 fm count) with s1.
  change (DDoSDetectionSystem.classifier s1)
    with (DDoSDetectionSystem.classifier s).
  rewrite Hp. cbn [mbind result_bind].
  destruct (DDoSDetectionSystem.unpack p)
    as [[[is_malicious label] confidence] reasons] eqn:Hunpack.
  cbn [fst] in Hmal. subst is_malicious. cbn [negb].
  change (DDoSDetectionSystem.malicious_ips s1)
    with (DDoSDetectionSystem.malicious_ips s).
  rewrite bool_decide_eq_false_2 by exact Hnew.
  change (DDoSDetectionSystem.filter s1) with (DDoSDetectionSystem.filter s).
  change (DDoSDetectionSystem.logger s1) with (DDoSDetectionSystem.logger s).
  destruct (IPTablesFilter.block_ip (DDoSDetectionSystem.filter s)
              (Flow.src_ip flow) (DDoSDetectionSystem.run env))
    as [[blocked cmds] filter'] eqn:Hblock.
  unfold JSONLogger.log_detection. rewrite Hr1, Hr2, Hr3.
  cbn [mbind result_bind snd].
  eexists _, cmds, _, blocked. split; [reflexivity|].
  cbn [DDoSDetectionSystem.logger JSONLogger.logs JSONLogger.src_ip
       JSONLogger.prediction JSONLogger.action DDoSDetectionSystem.filter
       DDoSDetectionSystem.malicious_ips DDoSDetectionSystem.detection_count
       DDoSDetectionSystem.flowmeter fst snd].
  split; [reflexivity|].
  split; [apply with_endpoints_src_ip|].
  repeat split.
Qed.

End Running.

Lemma stopped_system_is_frozen_witness :
  exists w',
    @DDoSDetectionSystem.session rational_float_ops stopped_world (flood 3 0)
      = Ok (w', []) /\
    DDoSDetectionSystem.packet_count (DDoSDetectionSystem.system w') = 0.
Proof.
  destruct (@stopped_system_is_frozen rational_float_ops stopped_world
              (flood 3 0) eq_refl)
    as (w' & Hsess & _ & _ & _ & _ & Hcount & _).
  exists w'. split; [exact Hsess|exact Hcount].
Defined.

Lemma malicious_flow_is_recorded_witness :
  exists s' cmds,
    @DDoSDetectionSystem.process_packet rational_float_ops primed_system true
      tenth_packet tenth_capture = Ok (s', cmds) /\
    DDoSDetectionSystem.detection_count s' = 1.
Proof.
  pose (feats := match (@Flow.extract_features rational_float_ops tenth_flow).1 with
                 | Ok d => d
                 | Raise _ => ∅
                 end).
  edestruct (@malicious_flow_is_recorded rational_float_ops primed_system
               tenth_packet tenth_capture
               ("10.0.0.1", "10.0.0.2", 40000, 80, 6)%string tenth_flow
               (FlowMeter.process_packet
                  (DDoSDetectionSystem.flowmeter primed_system) tenth_packet
                  1700000000009000).2
               feats)
    as (s' & cmds & entry & blocked & Hrun & _ & _ & _ & _ & _ & _ & Hcount & _).
  - vm_compute. reflexivity.
  - vm_compute. discriminate.
  - vm_compute. discriminate.
  - vm_compute. reflexivity.
  - unfold feats.
    destruct (@extract_features_total rational_float_ops tenth_flow) as [d Hd].
    rewrite Hd. reflexivity.
  - vm_compute. reflexivity.
  - vm_compute. reflexivity.
  - apply not_elem_of_empty.
  - exists s', cmds. split; [exact Hrun|exact Hcount].
Defined.

(** ** Growth of the log and the address that is blamed *)

Section Growth.
Context `{FloatOps}.

Lemma process_packet_grows (s s' : DDoSDetectionSystem.t) (running : bool)
    (packet : Packet) (env : DDoSDetectionSystem.Env)
    (cmds : list IPTablesFilter.command) :
  DDoSDetectionSystem.process_packet s running packet env = Ok (s', cmds) ->
  JSONLogger.logs (DDoSDetectionSystem.logger s)
    `prefix_of` JSONLogger.logs (DDoSDetectionSystem.logger s') /\
  DDoSDetectionSystem.malicious_ips s ⊆ DDoSDetectionSystem.malicious_ips s' /\
  IPTablesFilter.blocked_ips (DDoSDetectionSystem.filter s)
    ⊆ IPTablesFilter.blocked_ips (DDoSDetectionSystem.filter s').
Proof.
  intros Hrun. apply process_packet_inv in Hrun. cbn zeta in Hrun.
  destruct Hrun as [(_ & -> & _)|[(_ & -> & _)|(_ & Hdetect)]].
  - repeat split; reflexivity.
  - repeat split; reflexivity.
  - destruct Hdetect as (key & flow & feats & p & label & confidence & reasons &
                         blocked & filter' & entry & lg & _ & _ & _ & _ & _ & _ &
                         _ & _ & Hblock & Hlog & ->).
    cbn [DDoSDetectionSystem.logger DDoSDetectionSystem.malicious_ips
         DDoSDetectionSystem.filter].
    split; [|split].
    + revert Hlog. unfold JSONLogger.log_detection.
      destruct (JSONLogger.rounded _ "flow_packets_per_sec"); [|discriminate].
      destruct (JSONLogger.rounded _ "flow_bytes_per_sec"); [|discriminate].
      destruct (JSONLogger.rounded _ "avg_pkt_size"); [|discriminate].
      cbn [mbind result_bind]. intros [= <- <-]. cbn [JSONLogger.logs].
      apply prefix_app_r. reflexivity.
    + apply union_subseteq_l.
    + replace filter'
        with (IPTablesFilter.block_ip (DDoSDetectionSystem.filter s)
                (Flow.src_ip flow) (DDoSDetectionSystem.run env)).2
        by (rewrite Hblock; reflexivity).
      apply block_ip_grows.
Qed.

Lemma session_grows (evs : list DDoSDetectionSystem.event) :
  forall (w w' : DDoSDetectionSystem.world) (cmds : list IPTablesFilter.command),
  DDoSDetectionSystem.session w evs = Ok (w', cmds) ->
  JSONLogger.logs (DDoSDetectionSystem.logger (DDoSDetectionSystem.system w))
    `prefix_of`
    JSONLogger.logs (DDoSDetectionSystem.logger (DDoSDetectionSystem.system w')) /\
  DDoSDetectionSystem.malicious_ips (DDoSDetectionSystem.system w)
    ⊆ DDoSDetectionSystem.malicious_ips (DDoSDetectionSystem.system w') /\
  IPTablesFilter.blocked_ips
    (DDoSDetectionSystem.filter (DDoSDetectionSystem.system w))
    ⊆ IPTablesFilter.blocked_ips
        (DDoSDetectionSystem.filter (DDoSDetectionSystem.system w')).
Proof.
  induction evs as [|ev evs IH]; intros w w' cmds;
    cbn [DDoSDetectionSystem.session].
  - intros [= <- <-]. repeat split; reflexivity.
  - destruct (DDoSDetectionSystem.step w ev) as [[w1 cmds1]|e] eqn:Hstep;
      [|discriminate].
    cbn [mbind result_bind fst snd].
    destruct (DDoSDetectionSystem.session w1 evs) as [[w2 cmds2]|e] eqn:Hsess;
      [|discriminate].
    cbn [mbind result_bind fst snd]. intros [= <- <-].
    destruct (IH _ _ _ Hsess) as (Hl2 & Hm2 & Hb2).
    assert (Hfirst :
      JSONLogger.logs (DDoSDetectionSystem.logger (DDoSDetectionSystem.system w))
        `prefix_of`
        JSONLogger.logs (DDoSDetectionSystem.logger (DDoSDetectionSystem.system w1)) /\
      DDoSDetectionSystem.malicious_ips (DDoSDetectionSystem.system w)
        ⊆ DDoSDetectionSystem.malicious_ips (DDoSDetectionSystem.system w1) /\
      IPTablesFilter.blocked_ips
        (DDoSDetectionSystem.filter (DDoSDetectionSystem.system w))
        ⊆ IPTablesFilter.blocked_ips
            (DDoSDetectionSystem.filter (DDoSDetectionSystem.system w1))).
    { destruct ev as [packet env|now|]; unfold DDoSDetectionSystem.step in Hstep.
      - destruct (DDoSDetectionSystem.process_packet _ _ packet env)
          as [[s1 c1]|e] eqn:Hrun; [|discriminate].
        cbn [mbind result_bind fst snd] in Hstep. injection Hstep as <- <-.
        exact (process_packet_grows _ _ _ _ _ _ Hrun).
      - destruct (FlowMeter.cleanup_old_flows _ now) as [n fm].
        injection Hstep as <- <-. repeat split; reflexivity.
      - injection Hstep as <- <-. repeat split; reflexivity. }
    destruct Hfirst as (Hl1 & Hm1 & Hb1).
    split; [etransitivity; eassumption|].
    split; etransitivity; eassumption.
Qed.

Lemma session_app (evs1 evs2 : list DDoSDetectionSystem.event) :
  forall (w w2 : DDoSDetectionSystem.world) (cmds : list IPTablesFilter.command),
  DDoSDetectionSystem.session w (evs1 ++ evs2) = Ok (w2, cmds) ->
  exists w1 cmds1 cmds2,
    DDoSDetectionSystem.session w evs1 = Ok (w1, cmds1) /\
    DDoSDetectionSystem.session w1 evs2 = Ok (w2, cmds2) /\
    cmds = cmds1 ++ cmds2.
Proof.
  induction evs1 as [|ev evs1 IH]; intros w w2 cmds.
  - cbn [app]. intros Hsess. exists w, [], cmds.
    split; [reflexivity|]. split; [exact Hsess|reflexivity].
  - cbn [app DDoSDetectionSystem.session].
    destruct (DDoSDetectionSystem.step w ev) as [[w0 cmds0]|e]; [|discriminate].
    cbn [mbind result_bind fst snd].
    destruct (DDoSDetectionSystem.session w0 (evs1 ++ evs2))
      as [[w2' cmds']|e] eqn:Hrest; [|discriminate].
    cbn [mbind result_bind fst snd]. intros [= <- <-].
    destruct (IH _ _ _ Hrest) as (w1 & cmds1 & cmds2 & H1 & H2 & ->).
    exists w1, (cmds0 ++ cmds1), cmds2. rewrite H1.
    cbn [mbind result_bind fst snd].
    split; [reflexivity|]. split; [exact H2|apply app_assoc].
Qed.

(** X26. A session only adds. When a session is cut in two, the second
    part starts where the first ended; its commands follow those of the
    first; the log after the first part is a prefix of the final log, so
    that no record is ever changed or removed; and no address leaves the
    flagged set or the blocked set. *)
Theorem log_is_append_only (w w2 : DDoSDetectionSystem.world)
    (evs1 evs2 : list DDoSDetectionSystem.event)
    (cmds : list IPTablesFilter.command) :
  DDoSDetectionSystem.session w (evs1 ++ evs2) = Ok (w2, cmds) ->
  exists w1 cmds1 cmds2,
    DDoSDetectionSystem.session w evs1 = Ok (w1, cmds1) /\
    DDoSDetectionSystem.session w1 evs2 = Ok (w2, cmds2) /\
    cmds = cmds1 ++ cmds2 /\
    JSONLogger.logs (DDoSDetectionSystem.logger (DDoSDetectionSystem.system w))
      `prefix_of`
      JSONLogger.logs (DDoSDetectionSystem.logger (DDoSDetectionSystem.system w1)) /\
    JSONLogger.logs (DDoSDetectionSystem.logger (DDoSDetectionSystem.system w1))
      `prefix_of`
      JSONLogger.logs (DDoSDetectionSystem.logger (DDoSDetectionSystem.system w2)) /\
    DDoSDetectionSystem.malicious_ips (DDoSDetectionSystem.system w1)
      ⊆ DDoSDetectionSystem.malicious_ips (DDoSDetectionSystem.system w2) /\
    IPTablesFilter.blocked_ips
      (DDoSDetectionSystem.filter (DDoSDetectionSystem.system w1))
      ⊆ IPTablesFilter.blocked_ips
          (DDoSDetectionSystem.filter (DDoSDetectionSystem.system w2)).
Proof.
  intros Hsess.
  destruct (session_app evs1 evs2 _ _ _ Hsess) as (w1 & cmds1 & cmds2 & H1 & H2 & ->).
  exists w1, cmds1, cmds2.
  destruct (session_grows evs1 _ _ _ H1) as (Hl1 & _ & _).
  destruct (session_grows evs2 _ _ _ H2) as (Hl2 & Hm2 & Hb2).
  repeat split; assumption.
Qed.

Lemma process_packet_meter (s s' : DDoSDetectionSystem.t) (running : bool)
    (packet : Packet) (env : DDoSDetectionSystem.Env)
    (cmds : list IPTablesFilter.command) :
  meter_inv (DDoSDetectionSystem.flowmeter s) ->
  DDoSDetectionSystem.process_packet s running packet env = Ok (s', cmds) ->
  meter_inv (DDoSDetectionSystem.flowmeter s').
Proof.
  intros Hinv Hrun. apply process_packet_inv in Hrun. cbn zeta in Hrun.
  pose proof (proj1 (process_packet_counts (DDoSDetectionSystem.flowmeter s)
                       packet (DDoSDetectionSystem.now env) Hinv)) as Hfed.
  destruct Hrun as [(_ & -> & _)|[(_ & -> & _)|(_ & Hdetect)]].
  - exact Hinv.
  - exact Hfed.
  - destruct Hdetect as (key & flow & feats & p & label & confidence & reasons &
                         blocked & filter' & entry & lg & _ & _ & _ & _ & _ & _ &
                         _ & _ & _ & _ & ->).
    exact Hfed.
Qed.

Lemma session_meter (evs : list DDoSDetectionSystem.event) :
  forall (w w' : DDoSDetectionSystem.world) (cmds : list IPTablesFilter.command),
  meter_inv (DDoSDetectionSystem.flowmeter (DDoSDetectionSystem.system w)) ->
  DDoSDetectionSystem.session w evs = Ok (w', cmds) ->
  meter_inv (DDoSDetectionSystem.flowmeter (DDoSDetectionSystem.system w')).
Proof.
  induction evs as [|ev evs IH]; intros w w' cmds Hinv;
    cbn [DDoSDetectionSystem.session].
  - intros [= <- <-]. exact Hinv.
  - destruct (DDoSDetectionSystem.step w ev) as [[w1 cmds1]|e] eqn:Hstep;
      [|discriminate].
    cbn [mbind result_bind fst snd].
    destruct (DDoSDetectionSystem.session w1 evs) as [[w2 cmds2]|e] eqn:Hsess;
      [|discriminate].
    cbn [mbind result_bind fst snd]. intros [= <- <-].
    refine (IH _ _ _ _ Hsess).
    destruct ev as [packet env|now|]; unfold DDoSDetectionSystem.step in Hstep.
    + destruct (DDoSDetectionSystem.process_packet _ _ packet env)
        as [[s1 c1]|e] eqn:Hrun; [|discriminate].
      cbn [mbind result_bind fst snd] in Hstep. injection Hstep as <- <-.
      exact (process_packet_meter _ _ _ _ _ _ Hinv Hrun).
    + pose proof (cleanup_keeps_subset
                    (DDoSDetectionSystem.flowmeter (DDoSDetectionSystem.system w))
                    now) as Hsub.
      destruct (FlowMeter.cleanup_old_flows _ now) as [n fm].
      injection Hstep as <- <-.
      cbn [DDoSDetectionSystem.system DDoSDetectionSystem.with_flowmeter
           DDoSDetectionSystem.flowmeter].
      cbn [snd] in Hsub. unfold meter_inv.
      intros k f Hk. apply (Hinv k f). exact (lookup_weaken _ _ _ _ Hk Hsub).
    + injection Hstep as <- <-. exact Hinv.
Qed.

(** X27. The address that is blamed. After any session from the initial
    system, when the next packet makes the system append a record, the
    packet has an IP layer and the record carries the smaller of its two
    endpoints in the order of (address, port) pairs: the source of the
    packet when the source pair is smaller than the destination pair, and
    the destination of the packet otherwise. *)
Theorem flagged_address_is_smaller_endpoint
    (model_file : option (result MLClassifier.Artifact)) (log_file : string)
    (evs : list DDoSDetectionSystem.event) :
  exists w cmds,
    DDoSDetectionSystem.session (initial_world model_file log_file) evs
      = Ok (w, cmds) /\
    let s := DDoSDetectionSystem.system w in
    forall packet env s' cmds' entry,
      DDoSDetectionSystem.process_packet s (DDoSDetectionSystem.running w)
        packet env = Ok (s', cmds') ->
      JSONLogger.logs (DDoSDetectionSystem.logger s')
        = JSONLogger.logs (DDoSDetectionSystem.logger s) ++ [entry] ->
      exists ip,
        pkt_ip packet = Some ip /\
        JSONLogger.src_ip entry
        = VStr (if FlowMeter.pair_lt (ip_src ip, (FlowMeter.ports packet).1)
                                     (ip_dst ip, (FlowMeter.ports packet).2)
                then ip_src ip else ip_dst ip).
Proof.
  destruct (session_inv evs (initial_world model_file log_file)
              (init_inv model_file log_file)) as (w & cmds & Hsess & _).
  exists w, cmds. split; [exact Hsess|]. cbn zeta.
  assert (Hmeter : meter_inv (DDoSDetectionSystem.flowmeter (DDoSDetectionSystem.system w))).
  { refine (session_meter evs _ _ _ _ Hsess). apply map_Forall_empty. }
  intros packet env s' cmds' entry Hrun Hlogs.
  pose proof (proj1 (process_packet_counts _ packet (DDoSDetectionSystem.now env)
                       Hmeter)) as Hfed.
  apply process_packet_inv in Hrun. cbn zeta in Hrun.
  destruct Hrun as [(_ & -> & _)|[(_ & -> & _)|(_ & Hdetect)]].
  { exfalso. apply (f_equal length) in Hlogs. rewrite length_app in Hlogs.
    simpl in Hlogs. lia. }
  { exfalso. cbn [DDoSDetectionSystem.with_flowmeter DDoSDetectionSystem.logger]
      in Hlogs.
    apply (f_equal length) in Hlogs. rewrite length_app in Hlogs.
    simpl in Hlogs. lia. }
  destruct Hdetect as (key & flow & feats & p & label & confidence & reasons &
                       blocked & filter' & entry0 & lg & Hfd & _ & _ & _ & _ & _ &
                       _ & _ & _ & Hlog & ->).
  apply log_detection_entry in Hlog as (Hlogs0 & _ & Hsrc & _).
  cbn [DDoSDetectionSystem.logger] in Hlogs. rewrite Hlogs0 in Hlogs.
  apply app_inv_head in Hlogs. injection Hlogs as ->.
  rewrite with_endpoints_src_ip in Hsrc.
  destruct (FlowMeter.process_packet _ packet (DDoSDetectionSystem.now env))
    as [updated fm] eqn:Efed.
  cbn [fst snd] in Hfd, Hfed. subst updated.
  destruct (flowmeter_process_packet_stored _ _ _ _ _ _ Efed) as [Hstored Hkey].
  destruct (Hfed _ _ Hstored) as (Hid & _).
  unfold FlowMeter.get_flow_key in Hkey.
  destruct (pkt_ip packet) as [ip|]; [|discriminate].
  exists ip. split; [reflexivity|]. rewrite Hsrc. f_equal.
  destruct (FlowMeter.ports packet) as [sport dport]. cbn [fst snd].
  destruct (FlowMeter.pair_lt (ip_src ip, sport) (ip_dst ip, dport));
    injection Hkey as <-;
    apply (f_equal (fun k : FlowMeter.FlowKey => k.1.1.1.1)) in Hid; exact Hid.
Qed.

End Growth.

Lemma log_is_append_only_witness :
  exists w1 w2 cmds1 cmds2,
    @DDoSDetectionSystem.session rational_float_ops
      (initial_world None "detections.json") (flood 3 0) = Ok (w1, cmds1) /\
    @DDoSDetectionSystem.session rational_float_ops w1
      [DDoSDetectionSystem.Interrupt] = Ok (w2, cmds2) /\
    JSONLogger.logs (DDoSDetectionSystem.logger (DDoSDetectionSystem.system w1))
      `prefix_of`
      JSONLogger.logs (DDoSDetectionSystem.logger (DDoSDetectionSystem.system w2)).
Proof.
  assert (Hok : is_ok (@DDoSDetectionSystem.session rational_float_ops
                         (initial_world None "detections.json")
                         (flood 3 0 ++ [DDoSDetectionSystem.Interrupt])) = true)
    by (vm_compute; reflexivity).
  destruct (@DDoSDetectionSystem.session rational_float_ops
              (initial_world None "detections.json")
              (flood 3 0 ++ [DDoSDetectionSystem.Interrupt]))
    as [[w2 cmds]|e] eqn:Hsess; [|discriminate Hok].
  destruct (@log_is_append_only rational_float_ops _ _ _ _ _ Hsess)
    as (w1 & cmds1 & cmds2 & H1 & H2 & _ & _ & Hl2 & _).
  exists w1, w2, cmds1, cmds2.
  split; [exact H1|]. split; [exact H2|exact Hl2].
Defined.

(** A flood from the larger address: twenty SYN packets from 10.0.0.9 to
    10.0.0.2 make the system record and block 10.0.0.2, the destination of
    the flood. *)
Example flood_blames_destination :
  match @DDoSDetectionSystem.session rational_float_ops
          (initial_world None "detections.json") (flood_from_9 20 0) with
  | Ok (w, cmds) =>
      let s := DDoSDetectionSystem.system w in
      (JSONLogger.src_ip <$> JSONLogger.logs (DDoSDetectionSystem.logger s),
       IPTablesFilter.list_blocked (DDoSDetectionSystem.filter s),
       cmds)
      = ([VStr "10.0.0.2"], ["10.0.0.2"%string],
         [IPTablesFilter.block_command "10.0.0.2"])
  | Raise _ => False
  end.
Proof. vm_compute. reflexivity. Qed.
